(** * Order confirmation and payment tracking: a shallow embedding

    The development follows the three React components that write to the
    base: [Confirmados] (grouping of order lines and settlement of a group
    into a new "Pedido"), [Solicitados] (registration of payments against
    an existing "Pedido") and [SelectionSummaryView] (bulk confirmation of
    the selected "Abierto" lines).

    Conventions of the embedding.
    - A JavaScript number that carries money is an integer [Z] (an exact
      amount in the smallest currency unit); rounding of binary floating
      point is outside the model.  A value that may be [null], [undefined]
      or [NaN] is an [option].
    - Every call to the base goes through the [Async] monad, which threads
      the trace of the calls issued so far and stops at the first call the
      base rejects, exactly as an [await] inside [try] does.
    - [new Date().toISOString()], [Date.now()], [Math.random()] and
      [prompt()] are inputs of the handlers. *)

From Stdlib Require Import ZArith List String Ascii Bool Lia Permutation.
Import ListNotations.

Local Open Scope string_scope.
Local Open Scope Z_scope.
Local Open Scope list_scope.

Notation "a +++ b" := (String.append a b)
  (at level 60, right associativity).

(* ------------------------------------------------------------------ *)
(** ** JavaScript values *)

Module JS.

(** [v || 0] for a number that may be [null], [undefined] or [NaN]. *)
Definition or0 (v : option Z) : Z :=
  match v with
  | Some z => z
  | None => 0
  end.

(** Truthiness of a string: only the empty string is falsy. *)
Definition truthy (s : string) : bool :=
  match s with
  | EmptyString => false
  | String _ _ => true
  end.

(** [s || d] on strings. *)
Definition orStr (s d : string) : string :=
  if truthy s then s else d.

(** Truthiness of a string that may be [null]. *)
Definition truthyOpt (s : option string) : bool :=
  match s with
  | Some v => truthy v
  | None => false
  end.

(** [Array.prototype.includes] on an array of strings. *)
Definition includes (l : list string) (s : string) : bool :=
  existsb (String.eqb s) l.

Definition isWhite (c : ascii) : bool :=
  match nat_of_ascii c with
  | 9%nat | 10%nat | 11%nat | 12%nat | 13%nat | 32%nat => true
  | _ => false
  end.

Fixpoint trimStart (s : string) : string :=
  match s with
  | EmptyString => EmptyString
  | String c s' => if isWhite c then trimStart s' else s
  end.

Fixpoint trimEnd (s : string) : string :=
  match s with
  | EmptyString => EmptyString
  | String c s' =>
      match trimEnd s' with
      | EmptyString => if isWhite c then EmptyString else String c EmptyString
      | t => String c t
      end
  end.

(** [String.prototype.trim], on the ASCII white space characters. *)
Definition trim (s : string) : string := trimEnd (trimStart s).

(** The line feed of a template literal. *)
Definition newline : string := String (ascii_of_nat 10) EmptyString.

End JS.

(* ------------------------------------------------------------------ *)
(** ** Constants ([frontend/constants.js]) *)

Definition LPO_TABLE_NAME : string := "Líneas de Pedido".
Definition PEDIDOS_TABLE_NAME : string := "Pedidos".
Definition PAGOS_TABLE_NAME : string := "Pagos".
Definition METODOS_PAGO_TABLE_NAME : string := "Métodos de Pago Admin".

(* ------------------------------------------------------------------ *)
(** ** The base, as the components use it *)

(** Values written to a cell. *)
Inductive CellValue : Type :=
| VNull
| VNumber (n : Z)
| VString (s : string)
| VSelect (name : string)          (* { name: ... } *)
| VLinks (ids : list string).      (* [{ id: ... }, ...] *)

(** An object literal of field values, in the order its keys are set. *)
Definition Fields : Type := list (string * CellValue).

(** Calls of the Blocks SDK that concern writing. *)
Inductive StoreCall : Type :=
| CheckPermissions (table : string)
| CreateRecordAsync (table : string) (fields : Fields)
| UpdateRecordAsync (table : string) (recordId : string) (fields : Fields)
| UpdateRecordsAsync (table : string) (updates : list (string * Fields)).

Definition isWrite (c : StoreCall) : bool :=
  match c with
  | CheckPermissions _ => false
  | _ => true
  end.

(** Batch methods are limited to 50 records per call (SDK guide and the
    repository's coding guidelines). *)
Definition MAX_BATCH_SIZE : nat := 50.

Definition withinBatchLimit (c : StoreCall) : bool :=
  match c with
  | UpdateRecordsAsync _ updates => (List.length updates <=? MAX_BATCH_SIZE)%nat
  | _ => true
  end.

(** What the environment decides: the permissions of the user, any other
    reason for which a call fails, the ids given to new records and the
    choices configured for the "Estatus" field of a table ([None] when the
    field does not exist). *)
Record Store : Type := {
  hasPermission : StoreCall -> bool;
  reachable : StoreCall -> bool;
  newRecordId : nat -> string;
  estatusChoices : string -> option (list string)
}.

Definition accepts (st : Store) (c : StoreCall) : bool :=
  hasPermission st c && withinBatchLimit c && reachable st c.

Definition Trace : Type := list StoreCall.

Inductive Res (A : Type) : Type :=
| Ok (a : A)
| Throw (c : StoreCall).
Arguments Ok {A} a.
Arguments Throw {A} c.

(** An awaited computation: reads the store, extends the trace of issued
    calls, and either yields a value or throws at the rejected call. *)
Definition Async (A : Type) : Type := Store -> Trace -> Res A * Trace.

Definition ret {A} (a : A) : Async A := fun _ tr => (Ok a, tr).

Definition bind {A B} (m : Async A) (k : A -> Async B) : Async B :=
  fun st tr =>
    match m st tr with
    | (Ok a, tr') => k a st tr'
    | (Throw c, tr') => (Throw c, tr')
    end.

Notation "x <- m ;; k" := (bind m (fun x => k))
  (at level 61, m at next level, right associativity).
Notation "m ;;; k" := (bind m (fun _ => k))
  (at level 61, right associativity).

Definition isCreate (c : StoreCall) : bool :=
  match c with
  | CreateRecordAsync _ _ => true
  | _ => false
  end.

Definition issue (c : StoreCall) : Async unit :=
  fun st tr => ((if accepts st c then Ok tt else Throw c), tr ++ [c]).

Definition createRecordAsync (table : string) (fields : Fields) : Async string :=
  fun st tr =>
    let n := List.length (filter isCreate tr) in
    match issue (CreateRecordAsync table fields) st tr with
    | (Ok _, tr') => (Ok (newRecordId st n), tr')
    | (Throw c, tr') => (Throw c, tr')
    end.

Definition updateRecordAsync (table recordId : string) (fields : Fields) : Async unit :=
  issue (UpdateRecordAsync table recordId fields).

Definition updateRecordsAsync (table : string) (updates : list (string * Fields)) : Async unit :=
  issue (UpdateRecordsAsync table updates).

(** [for (const x of xs) { await body(x); }] *)
Fixpoint forOf {A} (xs : list A) (body : A -> Async unit) : Async unit :=
  match xs with
  | [] => ret tt
  | x :: rest => body x ;;; forOf rest body
  end.

(** Messages shown with [alert]. *)
Inductive Alert : Type :=
| AlertNumeroRequerido       (* 'El número de pedido es requerido.' *)
| AlertDebesCubrirTotal      (* 'Debes cubrir el total. Esta línea no permite dejar pendiente el pago.' *)
| AlertSeleccionaMetodo      (* 'Selecciona un método de pago.' *)
| AlertMontoValido           (* 'Ingresa un monto válido.' *)
| AlertInvalidPayment        (* 'Please select a payment method and enter a valid amount.' *)
| AlertNoPayments            (* 'Please add at least one payment.' *)
| AlertNoAbierto (blockedCount : nat)
                             (* 'No records with status "Abierto" are selected.' and the skip count *)
| AlertWillSkip (blockedCount : nat).
                             (* '... record(s) will be skipped because they are not in "Abierto".' *)

(** How a handler ends: it returns after an alert and before [try]
    ([Rejected]), it reaches the end of [try] ([Succeeded]), or the
    [catch] block reports the call that threw ([Failed]). *)
Inductive Outcome (A : Type) : Type :=
| Rejected (a : Alert)
| Succeeded (a : A)
| Failed (c : StoreCall).
Arguments Rejected {A} a.
Arguments Succeeded {A} a.
Arguments Failed {A} c.

Definition tryCatch {A} (m : Async A) (st : Store) : Outcome A * Trace :=
  match m st [] with
  | (Ok a, tr) => (Succeeded a, tr)
  | (Throw c, tr) => (Failed c, tr)
  end.

(** An order line of "Líneas de Pedido", as read through
    [getCellValueAsString] (the empty string for an empty cell) and
    [getCellValue] ([None] for an empty "Costo"). *)
Record Linea : Type := {
  lin_id : string;
  lin_estatus : string;
  lin_pedidoNum : string;
  lin_linea : string;
  lin_costo : option Z;
  lin_historial : string
}.

(** The "Historial de Estatus" written back for a line. *)
Definition historial (record : Linea) (entry : string) : string :=
  JS.orStr (lin_historial record) ""
  +++ (if JS.truthy (lin_historial record) then JS.newline else "")
  +++ entry.

(* ------------------------------------------------------------------ *)
(** ** [frontend/components/Confirmados.js] *)

Module Confirmados.

(** [brandStatus]: own properties of the object literal. *)
Definition brandStatus : list (string * string) :=
  [ ("Belcorp", "Pendiente de Pago");
    ("Betterware", "Pendiente de Pago");
    ("Cklass", "Pendiente de Pago");
    ("Andrea", "Pagado");
    ("Price Shoes", "Pagado");
    ("Bibiana", "Pendiente de Pago");
    ("Andre Badi", "Pagado");
    ("Nice", "Pendiente de Pago");
    ("Joyeria", "Pendiente de Pago");
    ("Vianney", "Pagado");
    ("Intima", "Pagado");
    ("Elefantito", "Pagado");
    ("Esquimal", "Pagado");
    ("Concord", "Pagado");
    ("Avon", "Pendiente de Pago");
    ("Otros", "Pendiente de Pago") ].

Definition allowedPedidoStatuses : list string :=
  ["Pagado"; "Pendiente de Pago"; "Pago Incompleto"].
Definition allowedLineaStatuses : list string :=
  ["Pagado"; "Pendiente de Pago"; "Pago Incompleto"].

(** [obj[key]] on an object whose properties are listed in insertion
    order; [None] is [undefined]. *)
Fixpoint lookup {V} (key : string) (obj : list (string * V)) : option V :=
  match obj with
  | [] => None
  | (k, v) :: rest => if String.eqb k key then Some v else lookup key rest
  end.

(** *** Grouping of the lines to confirm *)

Record Group : Type := {
  pedidoNum : string;
  linea : string;
  records : list Linea;
  totalCosto : Z
}.

(** In-place update of the group stored under [key]. *)
Fixpoint modify (key : string) (f : Group -> Group)
         (groups : list (string * Group)) : list (string * Group) :=
  match groups with
  | [] => []
  | (k, g) :: rest =>
      if String.eqb k key then (k, f g) :: rest
      else (k, g) :: modify key f rest
  end.

Definition recordPedidoNum (record : Linea) : string :=
  JS.orStr (lin_pedidoNum record) "Sin No.".

(** The template literal [`${pedidoNum}-${linea}`]. *)
Definition groupKey (pedidoNum linea : string) : string :=
  pedidoNum +++ "-" +++ linea.

Definition recordKey (record : Linea) : string :=
  groupKey (recordPedidoNum record) (lin_linea record).

(** [groups[key].records.push(record)] and
    [groups[key].totalCosto += record.getCellValue('Costo') || 0]. *)
Definition addRecord (record : Linea) (g : Group) : Group :=
  {| pedidoNum := g.(pedidoNum);
     linea := g.(linea);
     records := g.(records) ++ [record];
     totalCosto := g.(totalCosto) + JS.or0 (lin_costo record) |}.

(** The callback of [recordsToConfirm.reduce].  A stored group is an
    object, hence truthy, and a key always holds a hyphen, so that
    [!groups[key]] tests whether [key] is an own property. *)
Definition groupStep (groups : list (string * Group)) (record : Linea)
  : list (string * Group) :=
  let pedidoNum := recordPedidoNum record in
  let linea := lin_linea record in
  let key := groupKey pedidoNum linea in
  let groups1 :=
    match lookup key groups with
    | None =>
        groups ++ [(key, {| pedidoNum := pedidoNum; linea := linea;
                            records := []; totalCosto := 0 |})]
    | Some _ => groups
    end in
  modify key (addRecord record) groups1.

Definition recordsByPedido (recordsToConfirm : list Linea)
  : list (string * Group) :=
  fold_left groupStep recordsToConfirm [].

(** [Object.values(recordsByPedido)]: no key is an array index, so the
    values come in insertion order. *)
Definition groupedByPedido (recordsToConfirm : list Linea) : list Group :=
  map snd (recordsByPedido recordsToConfirm).

(** *** The confirmation modal *)

Record Payment : Type := {
  methodId : string;
  amount : Z;
  idPago : string;
  fechaPago : string;
  descripcion : string;
  notas : string
}.

(** State of [ConfirmarPedidoModal].  The two adjustment inputs hold the
    result of [parseFloat] on their text ([None] for [NaN]). *)
Record Modal : Type := {
  pedidoNumero : string;
  pedidoFecha : string;
  costosAdicionales : option Z;
  gastosAdicionales : option Z;
  paymentMethodId : option string;
  paymentAmount : option Z;
  payments : list Payment
}.

Definition totalPaid (payments : list Payment) : Z :=
  fold_left (fun sum p => sum + p.(amount)) payments 0.

Definition extraCost (m : Modal) : Z := JS.or0 m.(costosAdicionales).
Definition extraExpenses (m : Modal) : Z := JS.or0 m.(gastosAdicionales).

Definition totalDue (group : Group) (m : Modal) : Z :=
  group.(totalCosto) + extraCost m + extraExpenses m.

Definition remaining (group : Group) (m : Modal) : Z :=
  Z.max (totalDue group m - totalPaid m.(payments)) 0.

Definition preferredStatus (group : Group) : string :=
  match lookup group.(linea) brandStatus with
  | Some s => JS.orStr s "Pendiente de Pago"
  | None => "Pendiente de Pago"
  end.

Definition canLeavePending (group : Group) : bool :=
  String.eqb (preferredStatus group) "Pendiente de Pago".

(** The four [prompt] answers of [handleAddPayment], after [|| '']. *)
Record Prompts : Type := {
  ask_idPago : string;
  ask_fechaPago : string;
  ask_descripcion : string;
  ask_notas : string
}.

Definition handleAddPayment (group : Group) (m : Modal) (answers : Prompts)
  : Modal + Alert :=
  match m.(paymentMethodId) with
  | None => inr AlertSeleccionaMetodo
  | Some method =>
      if negb (JS.truthy method) then inr AlertSeleccionaMetodo
      else
        match m.(paymentAmount) with
        | None => inr AlertMontoValido
        | Some amount =>
            if (amount =? 0) || (amount <=? 0) then inr AlertMontoValido
            else
              let adjusted :=
                if remaining group m <? amount then remaining group m
                else amount in
              inl {| pedidoNumero := m.(pedidoNumero);
                     pedidoFecha := m.(pedidoFecha);
                     costosAdicionales := m.(costosAdicionales);
                     gastosAdicionales := m.(gastosAdicionales);
                     paymentMethodId := m.(paymentMethodId);
                     paymentAmount := None;
                     payments :=
                       m.(payments) ++
                       [{| methodId := method; amount := adjusted;
                           idPago := answers.(ask_idPago);
                           fechaPago := answers.(ask_fechaPago);
                           descripcion := answers.(ask_descripcion);
                           notas := answers.(ask_notas) |}] |}
        end
  end.

(** The choices of the "Estatus" field of a table, [[]] when the field
    is missing. *)
Definition statusChoices (st : Store) (table : string) : list string :=
  match estatusChoices st table with
  | Some choices => choices
  | None => []
  end.

(** [choices[0] || 'Pendiente de Pago'] *)
Definition firstChoiceOrPendiente (choices : list string) : string :=
  match choices with
  | [] => "Pendiente de Pago"
  | c :: _ => JS.orStr c "Pendiente de Pago"
  end.

Definition pedidoStatus (remaining totalPaid : Z) : string :=
  if 0 <? remaining
  then (if 0 <? totalPaid then "Pago Incompleto" else "Pendiente de Pago")
  else "Pagado".

Definition safePedidoStatus (pedidoStatusChoices : list string)
           (pedidoStatus : string) : string :=
  if JS.includes allowedPedidoStatuses pedidoStatus
     && JS.includes pedidoStatusChoices pedidoStatus
  then pedidoStatus
  else if JS.includes pedidoStatusChoices "Pendiente de Pago"
       then "Pendiente de Pago"
       else firstChoiceOrPendiente pedidoStatusChoices.

Definition rawLineaStatus (group : Group) (pedidoStatus : string) : string :=
  JS.orStr (preferredStatus group) pedidoStatus.

Definition safeLineaStatus (lineaStatusChoices : list string)
           (rawLineaStatus : string) : string :=
  if JS.includes allowedLineaStatuses rawLineaStatus
     && JS.includes lineaStatusChoices rawLineaStatus
  then rawLineaStatus
  else if JS.includes lineaStatusChoices "Pendiente de Pago"
       then "Pendiente de Pago"
       else firstChoiceOrPendiente lineaStatusChoices.

(** [s || null] as a cell value. *)
Definition orNull (s : string) : CellValue :=
  if JS.truthy s then VString s else VNull.

Definition pedidoFields (group : Group) (m : Modal)
           (timestamp status : string) : Fields :=
  [ ("No. de Pedido", VString (JS.trim m.(pedidoNumero)));
    ("Estatus", VSelect status);
    ("Fecha Pedido", orNull m.(pedidoFecha));
    ("Costos Adicionales", VNumber (extraCost m));
    ("Gastos Adicionales", VNumber (extraExpenses m));
    ("Historial de Estatus",
      VString (timestamp +++ " - Creado y establecido a " +++ status));
    ("Productos", VLinks (map lin_id group.(records))) ].

Definition pagoFields (newPedidoId : string) (payment : Payment) : Fields :=
  [ ("Pedido", VLinks [newPedidoId]);
    ("Método de Pago Admin", VLinks [payment.(methodId)]);
    ("Abono", VNumber payment.(amount));
    ("ID Pago", orNull payment.(idPago));
    ("Fecha Pago", orNull payment.(fechaPago));
    ("Descripción", orNull payment.(descripcion));
    ("Notas", orNull payment.(notas)) ].

Definition lineaUpdate (m : Modal) (timestamp status : string)
           (record : Linea) : string * Fields :=
  (lin_id record,
   [ ("Estatus", VSelect status);
     ("No. de Pedido", VString (JS.trim m.(pedidoNumero)));
     ("Historial de Estatus",
       VString (historial record
                  (timestamp +++ " - Asignado No. de Pedido "
                   +++ JS.trim m.(pedidoNumero)
                   +++ " y cambiado a " +++ status))) ]).

Record SuccessData : Type := {
  ok_linea : string;
  ok_cantidad : nat;
  ok_costo : Z
}.

(** The body of [try] in [handleConfirm]. *)
Definition confirmWrites (group : Group) (m : Modal) (timestamp : string)
  : Async SuccessData :=
  fun st =>
    let pedidoStatus :=
      pedidoStatus (remaining group m) (totalPaid m.(payments)) in
    let safePedidoStatus :=
      safePedidoStatus (statusChoices st PEDIDOS_TABLE_NAME) pedidoStatus in
    let rawLineaStatus := rawLineaStatus group pedidoStatus in
    let safeLineaStatus :=
      safeLineaStatus (statusChoices st LPO_TABLE_NAME) rawLineaStatus in
    (newPedidoId <- createRecordAsync PEDIDOS_TABLE_NAME
                      (pedidoFields group m timestamp safePedidoStatus) ;;
     forOf m.(payments)
       (fun payment =>
          _ <- createRecordAsync PAGOS_TABLE_NAME
                 (pagoFields newPedidoId payment) ;;
          ret tt) ;;;
     updateRecordsAsync LPO_TABLE_NAME
       (map (lineaUpdate m timestamp safeLineaStatus) group.(records)) ;;;
     ret {| ok_linea := group.(linea);
            ok_cantidad := List.length group.(records);
            ok_costo := group.(totalCosto) |}) st.

Definition handleConfirm (st : Store) (timestamp : string)
           (group : Group) (m : Modal) : Outcome SuccessData * Trace :=
  if negb (JS.truthy m.(pedidoNumero))
     || negb (JS.truthy (JS.trim m.(pedidoNumero)))
  then (Rejected AlertNumeroRequerido, [])
  else if (0 <? remaining group m) && negb (canLeavePending group)
  then (Rejected AlertDebesCubrirTotal, [])
  else tryCatch (confirmWrites group m timestamp) st.

End Confirmados.

(* ------------------------------------------------------------------ *)
(** ** [frontend/components/Solicitados.js] *)

Module Solicitados.

(** A record of "Métodos de Pago Admin"; [met_tipo] is
    [getCellValueAsString('TIPO')]. *)
Record MetodoPago : Type := {
  met_id : string;
  met_name : string;
  met_tipo : string
}.

(** A record of "Pedidos": the two cells may be empty. *)
Record Pedido : Type := {
  ped_id : string;
  ped_totalCostoPedido : option Z;
  ped_montoCompilacion : option Z
}.

Record Payment : Type := {
  metodoId : string;
  amount : Z;
  quienPago : option string;
  referencia : option string;
  tarjeta : option string
}.

(** State of [PagarPedidoModal]; [abono] holds [parseFloat(abono)]. *)
Record Modal : Type := {
  metodoPagoId : option string;
  abono : option Z;
  form_quienPago : option string;
  form_referencia : string;
  form_tarjeta : string;
  payments : list Payment
}.

Definition selectedMetodo (metodosPagoRecords : list MetodoPago)
           (m : Modal) : option MetodoPago :=
  match m.(metodoPagoId) with
  | None => None
  | Some i =>
      if negb (JS.truthy i) then None
      else find (fun r => String.eqb (met_id r) i) metodosPagoRecords
  end.

Definition metodoType (metodosPagoRecords : list MetodoPago)
           (m : Modal) : option string :=
  match selectedMetodo metodosPagoRecords m with
  | Some r => Some (met_tipo r)
  | None => None
  end.

Definition isType (metodoType : option string) (tag : string) : bool :=
  match metodoType with
  | Some t => String.eqb t tag
  | None => false
  end.

Definition totalCosto (pedido : Pedido) : Z :=
  JS.or0 pedido.(ped_totalCostoPedido).
Definition alreadyPaid (pedido : Pedido) : Z :=
  JS.or0 pedido.(ped_montoCompilacion).
Definition addedPaymentsTotal (payments : list Payment) : Z :=
  fold_left (fun sum p => sum + p.(amount)) payments 0.
Definition remaining (pedido : Pedido) (payments : list Payment) : Z :=
  Z.max (totalCosto pedido - alreadyPaid pedido - addedPaymentsTotal payments) 0.

Definition resetForm (m : Modal) : Modal :=
  {| metodoPagoId := None;
     abono := None;
     form_quienPago := None;
     form_referencia := "";
     form_tarjeta := "";
     payments := m.(payments) |}.

Definition newPayment (metodosPagoRecords : list MetodoPago) (m : Modal)
           (method : string) (adjustedAmount : Z) : Payment :=
  let metodoType := metodoType metodosPagoRecords m in
  {| metodoId := method;
     amount := adjustedAmount;
     quienPago :=
       if isType metodoType "Efectivo" then m.(form_quienPago) else None;
     referencia :=
       if isType metodoType "Vales" then Some m.(form_referencia) else None;
     tarjeta :=
       if isType metodoType "Transferencia" then Some m.(form_tarjeta)
       else None |}.

Definition handleAddPayment (metodosPagoRecords : list MetodoPago)
           (pedido : Pedido) (m : Modal) : Modal + Alert :=
  match m.(metodoPagoId), m.(abono) with
  | Some method, Some amount =>
      if negb (JS.truthy method) || (amount =? 0) || (amount <=? 0)
      then inr AlertInvalidPayment
      else
        let remaining := remaining pedido m.(payments) in
        let adjustedAmount :=
          if remaining <? amount then remaining else amount in
        let p := newPayment metodosPagoRecords m method adjustedAmount in
        inl (resetForm
               {| metodoPagoId := m.(metodoPagoId);
                  abono := m.(abono);
                  form_quienPago := m.(form_quienPago);
                  form_referencia := m.(form_referencia);
                  form_tarjeta := m.(form_tarjeta);
                  payments := m.(payments) ++ [p] |})
  | _, _ => inr AlertInvalidPayment
  end.

(** [pagoRecord], with the three conditional assignments. *)
Definition pagoRecord (pedido : Pedido) (idPago : string)
           (payment : Payment) : Fields :=
  [ ("Pedido", VLinks [pedido.(ped_id)]);
    ("Método de Pago Admin", VLinks [payment.(metodoId)]);
    ("Abono", VNumber payment.(amount));
    ("ID Pago", VString idPago) ]
  ++ match payment.(quienPago) with
     | Some q => if JS.truthy q then [("Quién Realizó Pago", VSelect q)] else []
     | None => []
     end
  ++ match payment.(referencia) with
     | Some r => if JS.truthy r then [("Número de Referencia", VString r)] else []
     | None => []
     end
  ++ match payment.(tarjeta) with
     | Some t => if JS.truthy t then [("Tarjeta de Débito", VString t)] else []
     | None => []
     end.

Definition newStatus (newRemaining newPaidTotal : Z) : string :=
  if newRemaining <=? 0 then "Pagado"
  else if 0 <? newPaidTotal then "Pago Incompleto"
  else "Pendiente de Pago".

(** The body of [try] in [handleSave]; [genIdPago k] is the
    [`PAY-${Date.now()}-${...}`] string of the k-th iteration. *)
Definition saveWrites (genIdPago : nat -> string) (pedido : Pedido)
           (m : Modal) : Async unit :=
  forOf (combine (seq 0 (List.length m.(payments))) m.(payments))
    (fun '(k, payment) =>
       _ <- createRecordAsync PAGOS_TABLE_NAME
              (pagoRecord pedido (genIdPago k) payment) ;;
       ret tt) ;;;
  let newPaidTotal := alreadyPaid pedido + addedPaymentsTotal m.(payments) in
  let newRemaining := Z.max (totalCosto pedido - newPaidTotal) 0 in
  updateRecordAsync PEDIDOS_TABLE_NAME pedido.(ped_id)
    [("Estatus", VSelect (newStatus newRemaining newPaidTotal))].

Definition handleSave (st : Store) (genIdPago : nat -> string)
           (pedido : Pedido) (m : Modal) : Outcome unit * Trace :=
  match m.(payments) with
  | [] => (Rejected AlertNoPayments, [])
  | _ :: _ => tryCatch (saveWrites genIdPago pedido m) st
  end.

End Solicitados.

(* ------------------------------------------------------------------ *)
(** ** [frontend/components/SelectionSummaryView.js] *)

Module SelectionSummaryView.

Definition visibleRecords (selectedRecords : list Linea)
           (selectedRecordIds : list string) : list Linea :=
  filter (fun record => JS.includes selectedRecordIds (lin_id record))
         selectedRecords.

Definition isAbierto (r : Linea) : bool :=
  String.eqb (lin_estatus r) "Abierto".

Record Summary : Type := {
  totalCost : Z;
  count : nat;
  openRecords : list Linea;
  nonOpenRecords : list Linea
}.

Definition summary (visibleRecords : list Linea) : Summary :=
  let recordsToConfirm := filter isAbierto visibleRecords in
  let cost :=
    fold_left (fun sum record => sum + JS.or0 (lin_costo record))
              recordsToConfirm 0 in
  let blockedRecords := filter (fun r => negb (isAbierto r)) visibleRecords in
  {| totalCost := cost;
     count := List.length recordsToConfirm;
     openRecords := recordsToConfirm;
     nonOpenRecords := blockedRecords |}.

Definition lineaUpdate (timestamp : string) (record : Linea)
  : string * Fields :=
  (lin_id record,
   [ ("Estatus", VSelect "Confirmar y Monitorear");
     ("Historial de Estatus",
       VString (historial record (timestamp +++ " - Confirmar y Monitorear"))) ]).

Record SuccessInfo : Type := {
  info_count : nat;
  info_totalCost : Z
}.

Definition confirmWrites (timestamp : string) (s : Summary)
  : Async SuccessInfo :=
  let updates := map (lineaUpdate timestamp) s.(openRecords) in
  updateRecordsAsync LPO_TABLE_NAME updates ;;;
  ret {| info_count := List.length updates;
         info_totalCost := s.(totalCost) |}.

(** The result carries the warning shown before [try], if any. *)
Definition handleConfirmSelection (st : Store) (timestamp : string)
           (s : Summary) : option Alert * (Outcome SuccessInfo * Trace) :=
  match s.(openRecords) with
  | [] => (None, (Rejected (AlertNoAbierto (List.length s.(nonOpenRecords))), []))
  | _ :: _ =>
      ((match s.(nonOpenRecords) with
        | [] => None
        | _ :: _ => Some (AlertWillSkip (List.length s.(nonOpenRecords)))
        end),
       tryCatch (confirmWrites timestamp s) st)
  end.

End SelectionSummaryView.

(* ------------------------------------------------------------------ *)
(** ** The contracts, as the specification words them *)

Module Spec.

Definition sum (amounts : list Z) : Z := fold_right Z.add 0 amounts.

(** [totalDue = baseCost + max(extraCost,0) + max(extraExpenses,0)] *)
Definition totalDue (baseCost extraCost extraExpenses : Z) : Z :=
  baseCost + Z.max extraCost 0 + Z.max extraExpenses 0.

(** [remaining = max(totalDue - totalPaid, 0)] *)
Definition remaining (totalDue totalPaid : Z) : Z :=
  Z.max (totalDue - totalPaid) 0.

(** [clampPayment(requestedAmount, remaining)] *)
Definition clampPayment (requestedAmount remaining : Z) : Z :=
  Z.min requestedAmount remaining.

(** The resolution rule, evaluated in order. *)
Definition resolveStatus (remaining totalPaid : Z) : string :=
  if remaining <=? 0 then "Pagado"
  else if 0 <? totalPaid then "Pago Incompleto"
  else "Pendiente de Pago".

(** Two lines agree on the key pair (order number with the sentinel,
    brand). *)
Definition sameKeyPair (a b : Linea) : Prop :=
  JS.orStr (lin_pedidoNum a) "Sin No." = JS.orStr (lin_pedidoNum b) "Sin No."
  /\ lin_linea a = lin_linea b.

End Spec.

(* ------------------------------------------------------------------ *)
(** ** Inputs used in the scenarios *)

Definition mkLinea (id estatus pedidoNum linea : string) (costo : option Z)
  : Linea :=
  {| lin_id := id; lin_estatus := estatus; lin_pedidoNum := pedidoNum;
     lin_linea := linea; lin_costo := costo; lin_historial := "" |}.

(** A base on which every call succeeds (within the batch limit) and both
    "Estatus" fields offer the given choices. *)
Definition openStore (choices : list string) : Store :=
  {| hasPermission := fun _ => true;
     reachable := fun _ => true;
     newRecordId := fun n => "recNew" +++ String (ascii_of_nat (48 + n)) "";
     estatusChoices := fun _ => Some choices |}.

(** The same base for a user who may not write. *)
Definition readOnlyStore (choices : list string) : Store :=
  {| hasPermission := fun c => negb (isWrite c);
     reachable := fun _ => true;
     newRecordId := fun n => "recNew" +++ String (ascii_of_nat (48 + n)) "";
     estatusChoices := fun _ => Some choices |}.

Definition allStatuses : list string :=
  ["Abierto"; "Confirmar y Monitorear"; "Pendiente de Pago";
   "Pago Incompleto"; "Pagado"].

Definition mkGroup (linea : string) (records : list Linea) (totalCosto : Z)
  : Confirmados.Group :=
  {| Confirmados.pedidoNum := "Sin No.";
     Confirmados.linea := linea;
     Confirmados.records := records;
     Confirmados.totalCosto := totalCosto |}.

Definition mkConfPayment (method : string) (amount : Z) : Confirmados.Payment :=
  {| Confirmados.methodId := method; Confirmados.amount := amount;
     Confirmados.idPago := ""; Confirmados.fechaPago := "";
     Confirmados.descripcion := ""; Confirmados.notas := "" |}.

Definition mkModal (pedidoNumero : string) (costos gastos : option Z)
           (payments : list Confirmados.Payment) : Confirmados.Modal :=
  {| Confirmados.pedidoNumero := pedidoNumero;
     Confirmados.pedidoFecha := "";
     Confirmados.costosAdicionales := costos;
     Confirmados.gastosAdicionales := gastos;
     Confirmados.paymentMethodId := None;
     Confirmados.paymentAmount := None;
     Confirmados.payments := payments |}.

Definition mkPedido (id : string) (total paid : option Z) : Solicitados.Pedido :=
  {| Solicitados.ped_id := id;
     Solicitados.ped_totalCostoPedido := total;
     Solicitados.ped_montoCompilacion := paid |}.

Definition mkPayment (method : string) (amount : Z) : Solicitados.Payment :=
  {| Solicitados.metodoId := method; Solicitados.amount := amount;
     Solicitados.quienPago := None; Solicitados.referencia := None;
     Solicitados.tarjeta := None |}.

Definition mkPagar (method : option string) (abono : option Z)
           (payments : list Solicitados.Payment) : Solicitados.Modal :=
  {| Solicitados.metodoPagoId := method;
     Solicitados.abono := abono;
     Solicitados.form_quienPago := None;
     Solicitados.form_referencia := "";
     Solicitados.form_tarjeta := "";
     Solicitados.payments := payments |}.

(** The "Estatus" names a call writes, in order. *)
Definition estatusOf (fields : Fields) : list string :=
  flat_map (fun kv => match kv with
                      | (k, VSelect name) =>
                          if String.eqb k "Estatus" then [name] else []
                      | _ => []
                      end) fields.

Definition estatusWritten (c : StoreCall) : list string :=
  match c with
  | CheckPermissions _ => []
  | CreateRecordAsync _ fields => estatusOf fields
  | UpdateRecordAsync _ _ fields => estatusOf fields
  | UpdateRecordsAsync _ updates => flat_map (fun u => estatusOf (snd u)) updates
  end.

Definition tableOf (c : StoreCall) : string :=
  match c with
  | CheckPermissions t => t
  | CreateRecordAsync t _ => t
  | UpdateRecordAsync t _ _ => t
  | UpdateRecordsAsync t _ => t
  end.

(** Size of each batch update a trace issues to a table. *)
Definition batchSizes (table : string) (tr : Trace) : list nat :=
  flat_map (fun c => match c with
                     | UpdateRecordsAsync t updates =>
                         if String.eqb t table then [List.length updates] else []
                     | _ => []
                     end) tr.

(** [n] open lines with distinct ids. *)
Fixpoint openLines (n : nat) : list Linea :=
  match n with
  | O => []
  | S k =>
      openLines k ++
      [mkLinea ("rec" +++ string_of_list_ascii (repeat "i"%char k))
               "Abierto" "" "Otros" (Some 1)]
  end.

(** A computation only ever appends calls that satisfy [P] to the
    trace. *)
Definition emitsOnly {A} (P : StoreCall -> Prop) (m : Async A) : Prop :=
  forall st tr, exists ext,
    snd (m st tr) = tr ++ ext /\ Forall P ext.

(** The calls a settlement can issue. *)
Inductive settlementCall (group : Confirmados.Group) (m : Confirmados.Modal)
  : StoreCall -> Prop :=
| SettleOrder :
    forall c, (exists timestamp status,
      c = CreateRecordAsync PEDIDOS_TABLE_NAME
            (Confirmados.pedidoFields group m timestamp status)) ->
    settlementCall group m c
| SettlePayment :
    forall c, (exists newPedidoId payment,
      In payment (Confirmados.payments m)
      /\ c = CreateRecordAsync PAGOS_TABLE_NAME
               (Confirmados.pagoFields newPedidoId payment)) ->
    settlementCall group m c
| SettleLines :
    forall c, (exists timestamp status,
      c = UpdateRecordsAsync LPO_TABLE_NAME
            (map (Confirmados.lineaUpdate m timestamp status)
                 (Confirmados.records group))) ->
    settlementCall group m c.

(** The calls a payment registration can issue. *)
Inductive registrationCall (pedido : Solicitados.Pedido) (m : Solicitados.Modal)
  : StoreCall -> Prop :=
| RegisterPayment :
    forall c, (exists idPago payment,
      In payment (Solicitados.payments m)
      /\ c = CreateRecordAsync PAGOS_TABLE_NAME
               (Solicitados.pagoRecord pedido idPago payment)) ->
    registrationCall pedido m c
| RegisterStatus :
    forall c, (exists status,
      c = UpdateRecordAsync PEDIDOS_TABLE_NAME (Solicitados.ped_id pedido)
            [("Estatus", VSelect status)]) ->
    registrationCall pedido m c.

(** The calls a selection confirmation can issue. *)
Definition selectionCall (c : StoreCall) : Prop :=
  exists updates, c = UpdateRecordsAsync LPO_TABLE_NAME updates.

(** Whether an object literal has the key [k]. *)
Definition hasField (k : string) (fields : Fields) : bool :=
  existsb (fun kv => String.eqb (fst kv) k) fields.

(** The keys an object literal sets to [null]. *)
Definition nullFields (fields : Fields) : list string :=
  map fst (filter (fun kv => match snd kv with
                             | VNull => true
                             | _ => false
                             end) fields).

Definition keyOfGroup (g : Confirmados.Group) : string :=
  Confirmados.groupKey (Confirmados.pedidoNum g) (Confirmados.linea g).

Definition sumCosto (l : list Linea) : Z :=
  Spec.sum (map (fun r => JS.or0 (lin_costo r)) l).

Definition members (groups : list Confirmados.Group) : list Linea :=
  List.concat (map Confirmados.records groups).

Definition sameGroup (groups : list Confirmados.Group) (a b : Linea) : Prop :=
  exists g, In g groups
            /\ In a (Confirmados.records g) /\ In b (Confirmados.records g).

(** What holds of the [groups] object after the lines [ls] were reduced
    into it. *)
Record GroupsInv (gs : list (string * Confirmados.Group)) (ls : list Linea)
  : Prop := {
  inv_keys : NoDup (map fst gs);
  inv_each :
    Forall (fun kg =>
              fst kg = keyOfGroup (snd kg)
              /\ Forall (fun r => Confirmados.recordKey r = fst kg)
                        (Confirmados.records (snd kg))
              /\ Confirmados.totalCosto (snd kg)
                 = sumCosto (Confirmados.records (snd kg))) gs;
  inv_perm : Permutation (members (map snd gs)) ls
}.

(* ------------------------------------------------------------------ *)
(** ** The rest of the components *)

(** [array.filter((_, idx) => keep(idx))], for the elements from index
    [i] on. *)
Fixpoint filterIndex {A} (keep : nat -> bool) (i : nat) (l : list A)
  : list A :=
  match l with
  | [] => []
  | x :: rest =>
      if keep i then x :: filterIndex keep (S i) rest
      else filterIndex keep (S i) rest
  end.

(** [new Set()] followed by [add] calls and [Array.from]: the values in
    the order they were first added. *)
Definition setAdd (values : list string) (v : string) : list string :=
  if JS.includes values v then values else values ++ [v].

(** The calls a sequence of awaited calls issues: each one in turn, up to
    and including the first the base rejects. *)
Fixpoint attempted (st : Store) (plan : list StoreCall) : Trace :=
  match plan with
  | [] => []
  | c :: rest => c :: (if accepts st c then attempted st rest else [])
  end.

(** [Confirmados.js]: the wrapper, the state of the modal and its
    buttons. *)
Module ConfirmadosView.

(** [recordsToConfirm] of [ConfirmadosWrapper]. *)
Definition recordsToConfirm (allRecords : list Linea) : list Linea :=
  filter (fun r => String.eqb (lin_estatus r) "Confirmar y Monitorear")
         allRecords.

(** The [useState] defaults of [ConfirmarPedidoModal]. *)
Definition initialModal (group : Confirmados.Group) : Confirmados.Modal :=
  {| Confirmados.pedidoNumero :=
       if String.eqb (Confirmados.pedidoNum group) "Sin No." then ""
       else Confirmados.pedidoNum group;
     Confirmados.pedidoFecha := "";
     Confirmados.costosAdicionales := None;
     Confirmados.gastosAdicionales := None;
     Confirmados.paymentMethodId := None;
     Confirmados.paymentAmount := None;
     Confirmados.payments := [] |}.

Definition setPayments (m : Confirmados.Modal)
           (payments : list Confirmados.Payment) : Confirmados.Modal :=
  {| Confirmados.pedidoNumero := Confirmados.pedidoNumero m;
     Confirmados.pedidoFecha := Confirmados.pedidoFecha m;
     Confirmados.costosAdicionales := Confirmados.costosAdicionales m;
     Confirmados.gastosAdicionales := Confirmados.gastosAdicionales m;
     Confirmados.paymentMethodId := Confirmados.paymentMethodId m;
     Confirmados.paymentAmount := Confirmados.paymentAmount m;
     Confirmados.payments := payments |}.

Definition handleRemovePayment (index : nat) (m : Confirmados.Modal)
  : Confirmados.Modal :=
  setPayments m
    (filterIndex (fun idx => negb (idx =? index)%nat) 0
                 (Confirmados.payments m)).

(** [disabled] of the "Agregar" button (outside a submission). *)
Definition agregarDisabled (metodoPagoOptions : list (string * string))
           (group : Confirmados.Group) (m : Confirmados.Modal) : bool :=
  (Confirmados.remaining group m =? 0)
  || (List.length metodoPagoOptions =? 0)%nat.

(** [disabled] of the "Solicitar" button (outside a submission). *)
Definition solicitarDisabled (group : Confirmados.Group)
           (m : Confirmados.Modal) : bool :=
  (negb (Confirmados.canLeavePending group)
   && (0 <? Confirmados.remaining group m))
  || negb (JS.truthy (JS.trim (Confirmados.pedidoNumero m))).

(** What the user can do in the modal before confirming. *)
Inductive Event : Type :=
| SetPedidoNumero (v : string)
| SetPedidoFecha (v : string)
| SetCostosAdicionales (v : option Z)
| SetGastosAdicionales (v : option Z)
| SetPaymentMethodId (v : option string)
| SetPaymentAmount (v : option Z)
| ClickAgregar (answers : Confirmados.Prompts)
| ClickQuitar (idx : nat).

Definition dispatch (metodoPagoOptions : list (string * string))
           (group : Confirmados.Group) (m : Confirmados.Modal) (e : Event)
  : Confirmados.Modal :=
  match e with
  | SetPedidoNumero v =>
      {| Confirmados.pedidoNumero := v;
         Confirmados.pedidoFecha := Confirmados.pedidoFecha m;
         Confirmados.costosAdicionales := Confirmados.costosAdicionales m;
         Confirmados.gastosAdicionales := Confirmados.gastosAdicionales m;
         Confirmados.paymentMethodId := Confirmados.paymentMethodId m;
         Confirmados.paymentAmount := Confirmados.paymentAmount m;
         Confirmados.payments := Confirmados.payments m |}
  | SetPedidoFecha v =>
      {| Confirmados.pedidoNumero := Confirmados.pedidoNumero m;
         Confirmados.pedidoFecha := v;
         Confirmados.costosAdicionales := Confirmados.costosAdicionales m;
         Confirmados.gastosAdicionales := Confirmados.gastosAdicionales m;
         Confirmados.paymentMethodId := Confirmados.paymentMethodId m;
         Confirmados.paymentAmount := Confirmados.paymentAmount m;
         Confirmados.payments := Confirmados.payments m |}
  | SetCostosAdicionales v =>
      {| Confirmados.pedidoNumero := Confirmados.pedidoNumero m;
         Confirmados.pedidoFecha := Confirmados.pedidoFecha m;
         Confirmados.costosAdicionales := v;
         Confirmados.gastosAdicionales := Confirmados.gastosAdicionales m;
         Confirmados.paymentMethodId := Confirmados.paymentMethodId m;
         Confirmados.paymentAmount := Confirmados.paymentAmount m;
         Confirmados.payments := Confirmados.payments m |}
  | SetGastosAdicionales v =>
      {| Confirmados.pedidoNumero := Confirmados.pedidoNumero m;
         Confirmados.pedidoFecha := Confirmados.pedidoFecha m;
         Confirmados.costosAdicionales := Confirmados.costosAdicionales m;
         Confirmados.gastosAdicionales := v;
         Confirmados.paymentMethodId := Confirmados.paymentMethodId m;
         Confirmados.paymentAmount := Confirmados.paymentAmount m;
         Confirmados.payments := Confirmados.payments m |}
  | SetPaymentMethodId v =>
      {| Confirmados.pedidoNumero := Confirmados.pedidoNumero m;
         Confirmados.pedidoFecha := Confirmados.pedidoFecha m;
         Confirmados.costosAdicionales := Confirmados.costosAdicionales m;
         Confirmados.gastosAdicionales := Confirmados.gastosAdicionales m;
         Confirmados.paymentMethodId := v;
         Confirmados.paymentAmount := Confirmados.paymentAmount m;
         Confirmados.payments := Confirmados.payments m |}
  | SetPaymentAmount v =>
      {| Confirmados.pedidoNumero := Confirmados.pedidoNumero m;
         Confirmados.pedidoFecha := Confirmados.pedidoFecha m;
         Confirmados.costosAdicionales := Confirmados.costosAdicionales m;
         Confirmados.gastosAdicionales := Confirmados.gastosAdicionales m;
         Confirmados.paymentMethodId := Confirmados.paymentMethodId m;
         Confirmados.paymentAmount := v;
         Confirmados.payments := Confirmados.payments m |}
  | ClickAgregar answers =>
      if agregarDisabled metodoPagoOptions group m then m
      else match Confirmados.handleAddPayment group m answers with
           | inl m' => m'
           | inr _ => m
           end
  | ClickQuitar idx => handleRemovePayment idx m
  end.

Definition session (metodoPagoOptions : list (string * string))
           (group : Confirmados.Group) (events : list Event)
  : Confirmados.Modal :=
  fold_left (dispatch metodoPagoOptions group) events (initialModal group).

(** The calls [handleConfirm] means to issue once the validation has
    passed, in order; the new order is the first record created. *)
Definition plan (st : Store) (timestamp : string)
           (group : Confirmados.Group) (m : Confirmados.Modal)
  : list StoreCall :=
  let pedidoStatus :=
    Confirmados.pedidoStatus (Confirmados.remaining group m)
      (Confirmados.totalPaid (Confirmados.payments m)) in
  let safePedidoStatus :=
    Confirmados.safePedidoStatus
      (Confirmados.statusChoices st PEDIDOS_TABLE_NAME) pedidoStatus in
  let safeLineaStatus :=
    Confirmados.safeLineaStatus
      (Confirmados.statusChoices st LPO_TABLE_NAME)
      (Confirmados.rawLineaStatus group pedidoStatus) in
  CreateRecordAsync PEDIDOS_TABLE_NAME
    (Confirmados.pedidoFields group m timestamp safePedidoStatus)
  :: map (fun payment =>
            CreateRecordAsync PAGOS_TABLE_NAME
              (Confirmados.pagoFields (newRecordId st 0) payment))
         (Confirmados.payments m)
  ++ [UpdateRecordsAsync LPO_TABLE_NAME
        (map (Confirmados.lineaUpdate m timestamp safeLineaStatus)
             (Confirmados.records group))].

End ConfirmadosView.

(** [Solicitados.js]: the wrapper, the tab and the state of the modal. *)
Module SolicitadosView.

(** A record of "Pedidos" with the cells the tab reads as strings. *)
Record Row : Type := {
  row_pedido : Solicitados.Pedido;
  row_numero : string;
  row_marca : string;
  row_estatus : string;
  row_fecha : string
}.

Definition validStatuses : list string :=
  ["Solicitado"; "Enviado"; "Pendiente de Pago"; "Pago Incompleto"; "Pagado"].

(** [solicitados] of [SolicitadosWrapper]. *)
Definition solicitados (allRecords : list Row) : list Row :=
  filter (fun r => JS.includes validStatuses (row_estatus r)) allRecords.

Definition uniqueEstatus (pedidos : list Row) : list string :=
  fold_left (fun values p =>
               let est := row_estatus p in
               if JS.truthy est then setAdd values est else values)
            pedidos [].

(** [fechaStr ? fechaStr.slice(0, 7) : null] *)
Definition monthVal (fechaStr : string) : option string :=
  if JS.truthy fechaStr then Some (substring 0 7 fechaStr) else None.

Definition uniqueMonths (pedidos : list Row) : list string :=
  fold_left (fun values p =>
               match monthVal (row_fecha p) with
               | Some v => if JS.truthy v then setAdd values v else values
               | None => values
               end)
            pedidos [].

Definition uniqueMarcas (pedidos : list Row) : list string :=
  fold_left (fun values p =>
               let marca := row_marca p in
               if JS.truthy marca then setAdd values marca else values)
            pedidos [].

Record Filters : Type := {
  estatusFilter : string;
  monthFilter : string;
  marcaFilter : string
}.

Definition initialFilters : Filters :=
  {| estatusFilter := "all"; monthFilter := "all"; marcaFilter := "all" |}.

Definition matchesFilters (f : Filters) (p : Row) : bool :=
  let matchesEstatus :=
    String.eqb (estatusFilter f) "all"
    || String.eqb (row_estatus p) (estatusFilter f) in
  let matchesMonth :=
    String.eqb (monthFilter f) "all"
    || match monthVal (row_fecha p) with
       | Some v => String.eqb v (monthFilter f)
       | None => false
       end in
  let matchesMarca :=
    String.eqb (marcaFilter f) "all"
    || String.eqb (row_marca p) (marcaFilter f) in
  matchesEstatus && matchesMonth && matchesMarca.

Definition filteredPedidos (pedidos : list Row) (f : Filters) : list Row :=
  filter (matchesFilters f) pedidos.

(** Whether the row shows the "Pagar" button. *)
Definition needsPayment (p : Row) : bool :=
  let paid := JS.or0 (Solicitados.ped_montoCompilacion (row_pedido p)) in
  let total := JS.or0 (Solicitados.ped_totalCostoPedido (row_pedido p)) in
  negb (String.eqb (row_estatus p) "Pagado") && (0 <? total - paid).

(** The [useState] defaults of [PagarPedidoModal]. *)
Definition initialModal : Solicitados.Modal :=
  {| Solicitados.metodoPagoId := None;
     Solicitados.abono := None;
     Solicitados.form_quienPago := None;
     Solicitados.form_referencia := "";
     Solicitados.form_tarjeta := "";
     Solicitados.payments := [] |}.

Definition handleRemovePayment (index : nat) (m : Solicitados.Modal)
  : Solicitados.Modal :=
  {| Solicitados.metodoPagoId := Solicitados.metodoPagoId m;
     Solicitados.abono := Solicitados.abono m;
     Solicitados.form_quienPago := Solicitados.form_quienPago m;
     Solicitados.form_referencia := Solicitados.form_referencia m;
     Solicitados.form_tarjeta := Solicitados.form_tarjeta m;
     Solicitados.payments :=
       filterIndex (fun idx => negb (idx =? index)%nat) 0
                   (Solicitados.payments m) |}.

(** [disabled] of the "Agregar pago" button (outside a submission). *)
Definition agregarDisabled (pedido : Solicitados.Pedido)
           (m : Solicitados.Modal) : bool :=
  Solicitados.remaining pedido (Solicitados.payments m) =? 0.

(** What the user can do in the modal before saving. *)
Inductive Event : Type :=
| SetMetodoPagoId (v : option string)
| SetAbono (v : option Z)
| SetQuienPago (v : option string)
| SetReferencia (v : string)
| SetTarjeta (v : string)
| ClickAgregar
| ClickQuitar (idx : nat).

Definition dispatch (metodos : list Solicitados.MetodoPago)
           (pedido : Solicitados.Pedido) (m : Solicitados.Modal) (e : Event)
  : Solicitados.Modal :=
  match e with
  | SetMetodoPagoId v =>
      {| Solicitados.metodoPagoId := v;
         Solicitados.abono := Solicitados.abono m;
         Solicitados.form_quienPago := Solicitados.form_quienPago m;
         Solicitados.form_referencia := Solicitados.form_referencia m;
         Solicitados.form_tarjeta := Solicitados.form_tarjeta m;
         Solicitados.payments := Solicitados.payments m |}
  | SetAbono v =>
      {| Solicitados.metodoPagoId := Solicitados.metodoPagoId m;
         Solicitados.abono := v;
         Solicitados.form_quienPago := Solicitados.form_quienPago m;
         Solicitados.form_referencia := Solicitados.form_referencia m;
         Solicitados.form_tarjeta := Solicitados.form_tarjeta m;
         Solicitados.payments := Solicitados.payments m |}
  | SetQuienPago v =>
      {| Solicitados.metodoPagoId := Solicitados.metodoPagoId m;
         Solicitados.abono := Solicitados.abono m;
         Solicitados.form_quienPago := v;
         Solicitados.form_referencia := Solicitados.form_referencia m;
         Solicitados.form_tarjeta := Solicitados.form_tarjeta m;
         Solicitados.payments := Solicitados.payments m |}
  | SetReferencia v =>
      {| Solicitados.metodoPagoId := Solicitados.metodoPagoId m;
         Solicitados.abono := Solicitados.abono m;
         Solicitados.form_quienPago := Solicitados.form_quienPago m;
         Solicitados.form_referencia := v;
         Solicitados.form_tarjeta := Solicitados.form_tarjeta m;
         Solicitados.payments := Solicitados.payments m |}
  | SetTarjeta v =>
      {| Solicitados.metodoPagoId := Solicitados.metodoPagoId m;
         Solicitados.abono := Solicitados.abono m;
         Solicitados.form_quienPago := Solicitados.form_quienPago m;
         Solicitados.form_referencia := Solicitados.form_referencia m;
         Solicitados.form_tarjeta := v;
         Solicitados.payments := Solicitados.payments m |}
  | ClickAgregar =>
      if agregarDisabled pedido m then m
      else match Solicitados.handleAddPayment metodos pedido m with
           | inl m' => m'
           | inr _ => m
           end
  | ClickQuitar idx => handleRemovePayment idx m
  end.

Definition session (metodos : list Solicitados.MetodoPago)
           (pedido : Solicitados.Pedido) (events : list Event)
  : Solicitados.Modal :=
  fold_left (dispatch metodos pedido) events initialModal.

(** The calls [handleSave] means to issue for a non-empty queue, in
    order. *)
Definition plan (genIdPago : nat -> string) (pedido : Solicitados.Pedido)
           (m : Solicitados.Modal) : list StoreCall :=
  let newPaidTotal :=
    Solicitados.alreadyPaid pedido
    + Solicitados.addedPaymentsTotal (Solicitados.payments m) in
  let newRemaining := Z.max (Solicitados.totalCosto pedido - newPaidTotal) 0 in
  map (fun kp =>
         CreateRecordAsync PAGOS_TABLE_NAME
           (Solicitados.pagoRecord pedido (genIdPago (fst kp)) (snd kp)))
      (combine (seq 0 (List.length (Solicitados.payments m)))
               (Solicitados.payments m))
  ++ [UpdateRecordAsync PEDIDOS_TABLE_NAME (Solicitados.ped_id pedido)
        [("Estatus", VSelect (Solicitados.newStatus newRemaining newPaidTotal))]].

End SolicitadosView.

(** The "Abono" amounts of the payment records a trace creates, in
    order. *)
Definition abonosWritten (tr : Trace) : list Z :=
  flat_map (fun c => match c with
                     | CreateRecordAsync _ fields =>
                         match Confirmados.lookup "Abono" fields with
                         | Some (VNumber z) => [z]
                         | _ => []
                         end
                     | _ => []
                     end) tr.

(** Whether a line has the given key. *)
Definition keyIs (key : string) (r : Linea) : bool :=
  String.eqb (Confirmados.recordKey r) key.

(** The order number and the brand of a stored group are those of its
    first member. *)
Definition headIs (kg : string * Confirmados.Group) : Prop :=
  match Confirmados.records (snd kg) with
  | [] => False
  | r :: _ =>
      Confirmados.pedidoNum (snd kg) = Confirmados.recordPedidoNum r
      /\ Confirmados.linea (snd kg) = lin_linea r
  end.

(** The first call of a plan the base rejects. *)
Definition firstRejected (st : Store) (plan : list StoreCall)
  : option StoreCall :=
  find (fun c => negb (accepts st c)) plan.

(** The value a call gives to a field, when it is a single-record call
    that sets it. *)
Definition fieldOf (k : string) (fields : Fields) : option CellValue :=
  Confirmados.lookup k fields.

(** The ids of the records a batch update touches. *)
Definition updatedIds (c : StoreCall) : list string :=
  match c with
  | UpdateRecordsAsync _ updates => map fst updates
  | UpdateRecordAsync _ recordId _ => [recordId]
  | _ => []
  end.

(** The first occurrences of the elements of a list, in order. *)
Fixpoint firstSeen (seen : list string) (l : list string) : list string :=
  match l with
  | [] => []
  | x :: rest =>
      if JS.includes seen x then firstSeen seen rest
      else x :: firstSeen (seen ++ [x]) rest
  end.

(** [s] starts with [p]. *)
Fixpoint startsWith (p s : string) : bool :=
  match p, s with
  | EmptyString, _ => true
  | String a p', String b s' => Ascii.eqb a b && startsWith p' s'
  | String _ _, EmptyString => false
  end.

(* ------------------------------------------------------------------ *)
(** ** The monetary ledger *)

Section Ledger.

Context {A : Type} (f : A -> Z).

(** A [reduce] that adds [f] of each element is the sum of the list. *)
Lemma reduce_sum_from (l : list A) (a : Z) :
  fold_left (fun sum x => sum + f x) l a = a + Spec.sum (map f l).
Proof.
  revert a; induction l as [|x l IH]; intro a; simpl.
  - lia.
  - rewrite IH. lia.
Qed.

Lemma reduce_sum (l : list A) :
  fold_left (fun sum x => sum + f x) l 0 = Spec.sum (map f l).
Proof. rewrite reduce_sum_from. lia. Qed.

End Ledger.

Lemma sum_app (l1 l2 : list Z) :
  Spec.sum (l1 ++ l2) = Spec.sum l1 + Spec.sum l2.
Proof. induction l1 as [|x l1 IH]; simpl; lia. Qed.

Lemma totalPaid_sum (ps : list Confirmados.Payment) :
  Confirmados.totalPaid ps = Spec.sum (map Confirmados.amount ps).
Proof. apply reduce_sum. Qed.

Lemma addedPaymentsTotal_sum (ps : list Solicitados.Payment) :
  Solicitados.addedPaymentsTotal ps = Spec.sum (map Solicitados.amount ps).
Proof. apply reduce_sum. Qed.

(** C1, as stated, fails: the settlement modal adds the two adjustments
    as they were typed.  With base cost 100 and an extra cost of -10 the
    total due is 90, below the base cost, where the stated formula gives
    100. *)
Lemma C1_negative_adjustment_reduces_totalDue :
  let group := mkGroup "Otros" [] 100 in
  let m := mkModal "P-1" (Some (-10)) (Some 0) [] in
  Confirmados.totalDue group m = 90
  /\ Spec.totalDue 100 (-10) 0 = 100
  /\ Confirmados.totalDue group m <> Spec.totalDue 100 (-10) 0
  /\ Confirmados.totalDue group m < Confirmados.totalCosto group.
Proof. vm_compute. repeat split; congruence. Qed.

(** C1 (amended): for every base cost, adjustment inputs and proposed
    payments, the settlement modal computes totalDue as the base cost
    plus the two adjustments as entered (a non-numeric input counts as 0,
    nothing is clamped at 0), totalPaid as the sum of the payment amounts
    and remaining as max(totalDue - totalPaid, 0); remaining is never
    negative and is 0 whenever totalPaid >= totalDue; totalDue is the
    stated b + max(e1,0) + max(e2,0) whenever neither adjustment is
    negative.  The payment modal computes remaining as
    max(total - paid - queued, 0), subtracting in that order the two
    cells of the order (an empty cell counting as 0) and the running sum
    of the queued amounts; it is never negative. *)
Theorem C1_ledger (group : Confirmados.Group) (m : Confirmados.Modal)
        (pedido : Solicitados.Pedido) (qs : list Solicitados.Payment) :
  let b := Confirmados.totalCosto group in
  let e1 := JS.or0 (Confirmados.costosAdicionales m) in
  let e2 := JS.or0 (Confirmados.gastosAdicionales m) in
  let due := Confirmados.totalDue group m in
  let paid := Confirmados.totalPaid (Confirmados.payments m) in
  let rest := Confirmados.remaining group m in
  due = b + e1 + e2
  /\ paid = Spec.sum (map Confirmados.amount (Confirmados.payments m))
  /\ rest = Spec.remaining due paid
  /\ 0 <= rest
  /\ (due <= paid -> rest = 0)
  /\ (0 <= e1 -> 0 <= e2 -> due = Spec.totalDue b e1 e2)
  /\ Solicitados.remaining pedido qs
     = Z.max (JS.or0 (Solicitados.ped_totalCostoPedido pedido)
              - JS.or0 (Solicitados.ped_montoCompilacion pedido)
              - fold_left (fun sum p => sum + Solicitados.amount p) qs 0) 0
  /\ 0 <= Solicitados.remaining pedido qs.
Proof.
  cbv zeta.
  unfold Confirmados.remaining, Confirmados.totalDue, Confirmados.extraCost,
    Confirmados.extraExpenses, Solicitados.remaining, Spec.remaining,
    Spec.totalDue.
  rewrite ?totalPaid_sum.
  repeat split; try lia.
Qed.

Lemma C1_ledger_witness :
  let group := mkGroup "Otros" [] 50 in
  let m := mkModal "P-2" (Some 0) (Some 0) [mkConfPayment "m1" 50] in
  Confirmados.totalDue group m = 50
  /\ Confirmados.remaining group m = 0.
Proof.
  pose proof (C1_ledger (mkGroup "Otros" [] 50)
                (mkModal "P-2" (Some 0) (Some 0) [mkConfPayment "m1" 50])
                (mkPedido "p" (Some 10) (Some 4)) [mkPayment "m1" 2]) as H.
  cbv zeta in H.
  destruct H as (Hdue & _ & _ & _ & Hzero & _).
  split.
  - exact Hdue.
  - apply Hzero. vm_compute. discriminate.
Defined.

(* ------------------------------------------------------------------ *)
(** ** Status of the order *)

Lemma pedidoStatus_rule (remaining totalPaid : Z) :
  Confirmados.pedidoStatus remaining totalPaid
  = Spec.resolveStatus remaining totalPaid.
Proof.
  unfold Confirmados.pedidoStatus, Spec.resolveStatus.
  destruct (Z.ltb_spec 0 remaining), (Z.leb_spec remaining 0);
    try lia; reflexivity.
Qed.

Lemma resolveStatus_cases (remaining totalPaid : Z) :
  Spec.resolveStatus remaining totalPaid = "Pagado"
  \/ Spec.resolveStatus remaining totalPaid = "Pago Incompleto"
  \/ Spec.resolveStatus remaining totalPaid = "Pendiente de Pago".
Proof.
  unfold Spec.resolveStatus.
  destruct (remaining <=? 0); [now left|].
  destruct (0 <? totalPaid); [right; now left|right; now right].
Qed.

(* ------------------------------------------------------------------ *)
(** ** Validation of a settlement *)

Lemma trim_empty : JS.trim "" = "".
Proof. reflexivity. Qed.

Lemma truthy_false_iff (s : string) : JS.truthy s = false <-> s = "".
Proof. destruct s; simpl; split; congruence. Qed.

(** C3: when the order number is empty (or blank), or when a balance
    remains and the brand does not allow a pending outcome, the settlement
    ends with a validation alert and its trace of calls to the base is
    empty: no order is created, no payment is created, no line is
    updated. *)
Theorem C3_settle_rejects_without_writes
        (st : Store) (timestamp : string)
        (group : Confirmados.Group) (m : Confirmados.Modal) :
  Confirmados.pedidoNumero m = ""
  \/ JS.trim (Confirmados.pedidoNumero m) = ""
  \/ (0 < Confirmados.remaining group m
      /\ Confirmados.canLeavePending group = false) ->
  exists a : Alert,
    Confirmados.handleConfirm st timestamp group m = (Rejected a, [])
    /\ (JS.trim (Confirmados.pedidoNumero m) = "" -> a = AlertNumeroRequerido)
    /\ (JS.trim (Confirmados.pedidoNumero m) <> "" -> a = AlertDebesCubrirTotal).
Proof.
  intros H. unfold Confirmados.handleConfirm.
  destruct (JS.truthy (Confirmados.pedidoNumero m)) eqn:E1; simpl.
  - destruct (JS.truthy (JS.trim (Confirmados.pedidoNumero m))) eqn:E2; simpl.
    + assert (Hne : JS.trim (Confirmados.pedidoNumero m) <> "").
      { intro Hc. apply truthy_false_iff in Hc. congruence. }
      destruct H as [H | [H | [Hr Hp]]].
      * rewrite H in E1. discriminate.
      * contradiction.
      * apply Z.ltb_lt in Hr. rewrite Hr, Hp. simpl.
        exists AlertDebesCubrirTotal. repeat split; tauto.
    + apply truthy_false_iff in E2.
      exists AlertNumeroRequerido. repeat split; tauto.
  - apply truthy_false_iff in E1.
    exists AlertNumeroRequerido. repeat split; try tauto.
    intro Hne. rewrite E1 in Hne. contradiction.
Qed.

Lemma C3_settle_rejects_without_writes_witness :
  exists a : Alert,
    Confirmados.handleConfirm (openStore allStatuses) "2024-01-01T00:00:00.000Z"
      (mkGroup "Andrea" [mkLinea "rec1" "Confirmar y Monitorear" "" "Andrea"
                                 (Some 25)] 25)
      (mkModal "P-7" None None [mkConfPayment "m1" 20])
    = (Rejected a, []).
Proof.
  destruct (C3_settle_rejects_without_writes
              (openStore allStatuses) "2024-01-01T00:00:00.000Z"
              (mkGroup "Andrea" [mkLinea "rec1" "Confirmar y Monitorear" ""
                                         "Andrea" (Some 25)] 25)
              (mkModal "P-7" None None [mkConfPayment "m1" 20]))
    as (a & Ha & _).
  - right. right. split; reflexivity.
  - exists a. exact Ha.
Defined.

(* ------------------------------------------------------------------ *)
(** ** Calls issued to the base *)

Section Emits.

Variable P : StoreCall -> Prop.

Lemma emitsOnly_ret {A} (a : A) : emitsOnly P (ret a).
Proof. intros st tr. exists []. simpl. now rewrite app_nil_r. Qed.

Lemma emitsOnly_bind {A B} (m : Async A) (k : A -> Async B) :
  emitsOnly P m -> (forall a, emitsOnly P (k a)) -> emitsOnly P (bind m k).
Proof.
  intros Hm Hk st tr. unfold bind.
  destruct (Hm st tr) as (e1 & H1 & W1).
  destruct (m st tr) as [[a|c] tr1]; simpl in *; subst tr1.
  - destruct (Hk a st (tr ++ e1)) as (e2 & H2 & W2).
    exists (e1 ++ e2). rewrite H2, app_assoc. split; [reflexivity|].
    apply Forall_app. now split.
  - exists e1. auto.
Qed.

Lemma emitsOnly_issue (c : StoreCall) : P c -> emitsOnly P (issue c).
Proof. intros W st tr. exists [c]. simpl. split; [reflexivity|]. now constructor. Qed.

Lemma emitsOnly_create (table : string) (fields : Fields) :
  P (CreateRecordAsync table fields) ->
  emitsOnly P (createRecordAsync table fields).
Proof.
  intros W st tr. exists [CreateRecordAsync table fields].
  unfold createRecordAsync, issue.
  destruct (accepts st _); simpl; (split; [reflexivity|now constructor]).
Qed.

Lemma emitsOnly_forOf {A} (xs : list A) (body : A -> Async unit) :
  (forall x, In x xs -> emitsOnly P (body x)) -> emitsOnly P (forOf xs body).
Proof.
  induction xs as [|x xs IH]; intros Hb; simpl.
  - apply emitsOnly_ret.
  - apply emitsOnly_bind.
    + apply Hb. now left.
    + intros _. apply IH. intros y Hy. apply Hb. now right.
Qed.

Lemma tryCatch_emitsOnly {A} (m : Async A) (st : Store) :
  emitsOnly P m -> Forall P (snd (tryCatch m st)).
Proof.
  intros Hm. unfold tryCatch.
  destruct (Hm st []) as (ext & H & W).
  destruct (m st []) as [[a|c] tr]; simpl in *; subst; exact W.
Qed.

End Emits.

(** Every call of a settlement is the creation of the order, the creation
    of the payment record of a queued payment, or the batch update of the
    lines of the group. *)
Lemma handleConfirm_calls st timestamp group m :
  Forall (settlementCall group m)
         (snd (Confirmados.handleConfirm st timestamp group m)).
Proof.
  unfold Confirmados.handleConfirm.
  destruct (_ || _); [constructor|].
  destruct (_ && _); [constructor|].
  apply tryCatch_emitsOnly. intros st0 tr.
  unfold Confirmados.confirmWrites.
  match goal with |- context [bind ?a ?k] =>
    assert (H : emitsOnly (settlementCall group m) (bind a k)) end.
  { apply emitsOnly_bind.
    - apply emitsOnly_create. constructor 1. eauto.
    - intro newId. apply emitsOnly_bind.
      + apply emitsOnly_forOf. intros p Hp.
        apply emitsOnly_bind; [|intros; apply emitsOnly_ret].
        apply emitsOnly_create. constructor 2. eauto.
      + intros _. apply emitsOnly_bind; [|intros; apply emitsOnly_ret].
        apply emitsOnly_issue. constructor 3. eauto. }
  apply H.
Qed.

(** Every call of a payment registration is the creation of the payment
    record of a queued payment or the update of the status of the order. *)
Lemma handleSave_calls st gen pedido m :
  Forall (registrationCall pedido m)
         (snd (Solicitados.handleSave st gen pedido m)).
Proof.
  unfold Solicitados.handleSave.
  destruct (Solicitados.payments m) as [|q0 qs0] eqn:E; [constructor|]. clear E.
  apply tryCatch_emitsOnly. unfold Solicitados.saveWrites.
  apply emitsOnly_bind.
  - apply emitsOnly_forOf. intros [k p] Hkp.
    apply emitsOnly_bind; [|intros; apply emitsOnly_ret].
    apply emitsOnly_create. constructor 1.
    exists (gen k), p. split; [|reflexivity].
    now apply in_combine_r in Hkp.
  - intros _. apply emitsOnly_issue. constructor 2. eauto.
Qed.

(** Every call of a selection confirmation is a batch update of lines. *)
Lemma handleConfirmSelection_calls st timestamp s :
  Forall selectionCall
         (snd (snd (SelectionSummaryView.handleConfirmSelection st timestamp s))).
Proof.
  unfold SelectionSummaryView.handleConfirmSelection.
  destruct (SelectionSummaryView.openRecords s); [constructor|].
  apply tryCatch_emitsOnly. unfold SelectionSummaryView.confirmWrites.
  apply emitsOnly_bind; [|intros; apply emitsOnly_ret].
  apply emitsOnly_issue. red. eauto.
Qed.

(** The selection confirmation issues exactly one batch update that holds
    every open record. *)
Lemma handleConfirmSelection_trace (st : Store) (timestamp : string)
      (s : SelectionSummaryView.Summary) :
  SelectionSummaryView.openRecords s <> [] ->
  snd (snd (SelectionSummaryView.handleConfirmSelection st timestamp s))
  = [UpdateRecordsAsync LPO_TABLE_NAME
       (map (SelectionSummaryView.lineaUpdate timestamp)
            (SelectionSummaryView.openRecords s))].
Proof.
  intros Hne. unfold SelectionSummaryView.handleConfirmSelection.
  destruct (SelectionSummaryView.openRecords s) as [|r rs] eqn:E; [congruence|].
  unfold tryCatch, SelectionSummaryView.confirmWrites, bind,
    updateRecordsAsync, issue, ret. rewrite E. simpl.
  destruct (accepts st _); reflexivity.
Qed.

(** C4: the code does not chunk.  Confirming a selection of 51 open lines
    issues one call of 51 records, which the base rejects, and settling a
    group of 51 lines creates the order and then issues one call of 51
    records, which the base rejects as well; no line is updated in either
    case. *)
Theorem C4_oversized_batch_is_issued_whole :
  (let run := SelectionSummaryView.handleConfirmSelection
                (openStore allStatuses) "2024-01-01T00:00:00.000Z"
                (SelectionSummaryView.summary (openLines 51)) in
   batchSizes LPO_TABLE_NAME (snd (snd run)) = [51%nat]
   /\ (MAX_BATCH_SIZE < 51)%nat
   /\ exists updates,
        fst (snd run) = Failed (UpdateRecordsAsync LPO_TABLE_NAME updates))
  /\ (let run := Confirmados.handleConfirm
                   (openStore allStatuses) "2024-01-01T00:00:00.000Z"
                   (mkGroup "Otros" (openLines 51) 51)
                   (mkModal "P-51" None None []) in
      batchSizes LPO_TABLE_NAME (snd run) = [51%nat]
      /\ map tableOf (snd run) = [PEDIDOS_TABLE_NAME; LPO_TABLE_NAME]
      /\ exists updates,
           fst run = Failed (UpdateRecordsAsync LPO_TABLE_NAME updates)).
Proof.
  split; cbv zeta.
  - split; [vm_compute; reflexivity|].
    split; [unfold MAX_BATCH_SIZE; lia|].
    eexists. vm_compute. reflexivity.
  - split; [vm_compute; reflexivity|].
    split; [vm_compute; reflexivity|].
    eexists. vm_compute. reflexivity.
Qed.

(* ------------------------------------------------------------------ *)
(** ** Validation of the status against the choices of the field *)

Lemma includes_In (l : list string) (s : string) :
  JS.includes l s = true <-> In s l.
Proof.
  unfold JS.includes. rewrite existsb_exists. split.
  - intros (x & Hx & E). apply String.eqb_eq in E. now subst.
  - intros H. exists s. split; [assumption|apply String.eqb_refl].
Qed.

(** In a settlement the status given to the order is one of the choices
    of the field, as soon as the field has choices (none of them the
    empty name). *)
Lemma safePedidoStatus_allowed (choices : list string) (s : string) :
  choices <> [] -> Forall (fun c => c <> "") choices ->
  In (Confirmados.safePedidoStatus choices s) choices.
Proof.
  intros Hne Hall. unfold Confirmados.safePedidoStatus.
  destruct (JS.includes Confirmados.allowedPedidoStatuses s
            && JS.includes choices s) eqn:E.
  - apply andb_true_iff in E. now apply includes_In.
  - destruct (JS.includes choices "Pendiente de Pago") eqn:E2.
    + now apply includes_In.
    + destruct choices as [|c cs]; [congruence|]. simpl.
      inversion Hall as [|? ? Hc _]; subst.
      unfold JS.orStr. destruct c; [congruence|]. simpl. now left.
Qed.

Lemma safeLineaStatus_allowed (choices : list string) (s : string) :
  choices <> [] -> Forall (fun c => c <> "") choices ->
  In (Confirmados.safeLineaStatus choices s) choices.
Proof.
  intros Hne Hall. unfold Confirmados.safeLineaStatus.
  destruct (JS.includes Confirmados.allowedLineaStatuses s
            && JS.includes choices s) eqn:E.
  - apply andb_true_iff in E. now apply includes_In.
  - destruct (JS.includes choices "Pendiente de Pago") eqn:E2.
    + now apply includes_In.
    + destruct choices as [|c cs]; [congruence|]. simpl.
      inversion Hall as [|? ? Hc _]; subst.
      unfold JS.orStr. destruct c; [congruence|]. simpl. now left.
Qed.

(** C5: the payment registration writes the computed status without
    looking at the choices of the field.  On a base whose "Estatus" field
    of "Pedidos" offers only "Pendiente de Pago" and "Pago Incompleto",
    paying an order of 100 in full writes "Pagado", which is not among the
    choices; the settlement, on the same choices, falls back to "Pendiente
    de Pago". *)
Theorem C5_registration_skips_validation :
  let choices := ["Pendiente de Pago"; "Pago Incompleto"] in
  let st := openStore choices in
  let run := Solicitados.handleSave st (fun _ => "PAY-1")
               (mkPedido "recP" (Some 100) None)
               (mkPagar None None [mkPayment "m1" 100]) in
  fst run = Succeeded tt
  /\ map (fun c => (tableOf c, estatusWritten c)) (snd run)
     = [(PAGOS_TABLE_NAME, []); (PEDIDOS_TABLE_NAME, ["Pagado"])]
  /\ JS.includes (Confirmados.statusChoices st PEDIDOS_TABLE_NAME) "Pagado" = false
  /\ Confirmados.safePedidoStatus
       (Confirmados.statusChoices st PEDIDOS_TABLE_NAME) "Pagado"
     = "Pendiente de Pago".
Proof. vm_compute. repeat split; reflexivity. Qed.

(* ------------------------------------------------------------------ *)
(** ** Status of the lines of a settled group *)

Lemma preferredStatus_truthy (group : Confirmados.Group) :
  JS.truthy (Confirmados.preferredStatus group) = true.
Proof.
  unfold Confirmados.preferredStatus.
  destruct (Confirmados.lookup _ _) as [s|]; [|reflexivity].
  destruct s; reflexivity.
Qed.

(** C6: the fallback to the status of the order is never taken, because
    the preferred status already defaults to "Pendiente de Pago" for a
    brand without entry.  A fully paid group of the brand "Zara", which
    the brand table does not list, creates its order as "Pagado" and
    updates its line to "Pendiente de Pago". *)
Theorem C6_absent_brand_lines_not_order_status :
  (forall group pedidoStatus,
      Confirmados.rawLineaStatus group pedidoStatus
      = Confirmados.preferredStatus group)
  /\ (let group := mkGroup "Zara" [mkLinea "rec1" "Confirmar y Monitorear"
                                           "" "Zara" (Some 100)] 100 in
      let m := mkModal "P-5" None None [mkConfPayment "m1" 100] in
      let run := Confirmados.handleConfirm (openStore allStatuses)
                   "2024-01-01T00:00:00.000Z" group m in
      Confirmados.lookup "Zara" Confirmados.brandStatus = None
      /\ Confirmados.remaining group m = 0
      /\ Confirmados.pedidoStatus (Confirmados.remaining group m)
           (Confirmados.totalPaid (Confirmados.payments m)) = "Pagado"
      /\ (exists d, fst run = Succeeded d)
      /\ map (fun c => (tableOf c, estatusWritten c)) (snd run)
         = [(PEDIDOS_TABLE_NAME, ["Pagado"]);
            (PAGOS_TABLE_NAME, []);
            (LPO_TABLE_NAME, ["Pendiente de Pago"])]).
Proof.
  split.
  - intros group s. unfold Confirmados.rawLineaStatus, JS.orStr.
    now rewrite preferredStatus_truthy.
  - cbv zeta. repeat split; try (vm_compute; reflexivity).
    eexists. vm_compute. reflexivity.
Qed.

(* ------------------------------------------------------------------ *)
(** ** Permissions *)

Lemma calls_are_writes (P : StoreCall -> Prop) (tr : Trace) :
  Forall P tr -> (forall c, P c -> isWrite c = true) ->
  forallb isWrite tr = true.
Proof.
  intros H HP. apply forallb_forall. intros c Hc.
  rewrite Forall_forall in H. auto.
Qed.

(** C9: no handler queries a permission.  Every call in the trace of the
    settlement, of the payment registration and of the selection
    confirmation is a write, and for a user who may not write each of
    them still issues its first write, which the base then rejects. *)
Theorem C9_writes_attempted_without_precheck :
  (forall st timestamp group m,
      forallb isWrite (snd (Confirmados.handleConfirm st timestamp group m))
      = true)
  /\ (forall st gen pedido m,
         forallb isWrite (snd (Solicitados.handleSave st gen pedido m)) = true)
  /\ (forall st timestamp s,
         forallb isWrite
           (snd (snd (SelectionSummaryView.handleConfirmSelection
                        st timestamp s))) = true)
  /\ (let st := readOnlyStore allStatuses in
      let run := SelectionSummaryView.handleConfirmSelection st
                   "2024-01-01T00:00:00.000Z"
                   (SelectionSummaryView.summary (openLines 1)) in
      exists c,
        snd (snd run) = [c] /\ isWrite c = true
        /\ hasPermission st c = false /\ fst (snd run) = Failed c)
  /\ (let st := readOnlyStore allStatuses in
      let run := Confirmados.handleConfirm st "2024-01-01T00:00:00.000Z"
                   (mkGroup "Otros" (openLines 1) 1)
                   (mkModal "P-1" None None []) in
      exists c,
        snd run = [c] /\ isWrite c = true
        /\ hasPermission st c = false /\ fst run = Failed c)
  /\ (let st := readOnlyStore allStatuses in
      let run := Solicitados.handleSave st (fun _ => "PAY-1")
                   (mkPedido "recP" (Some 10) None)
                   (mkPagar None None [mkPayment "m1" 10]) in
      exists c,
        snd run = [c] /\ isWrite c = true
        /\ hasPermission st c = false /\ fst run = Failed c).
Proof.
  repeat apply conj.
  - intros st ts group m.
    apply (calls_are_writes _ _ (handleConfirm_calls st ts group m)).
    intros c [c' (? & ? & ->)|c' (? & ? & _ & ->)|c' (? & ? & ->)]; reflexivity.
  - intros st gen pedido m.
    apply (calls_are_writes _ _ (handleSave_calls st gen pedido m)).
    intros c [c' (? & ? & _ & ->)|c' (? & ->)]; reflexivity.
  - intros st ts s.
    apply (calls_are_writes _ _ (handleConfirmSelection_calls st ts s)).
    intros c (? & ->); reflexivity.
  - cbv zeta. eexists. vm_compute. repeat split; reflexivity.
  - cbv zeta. eexists. vm_compute. repeat split; reflexivity.
  - cbv zeta. eexists. vm_compute. repeat split; reflexivity.
Qed.

(* ------------------------------------------------------------------ *)
(** ** Grouping of the lines *)

Section Grouping.

Import Confirmados.

Lemma lookup_None {V} (key : string) (obj : list (string * V)) :
  lookup key obj = None <-> ~ In key (map fst obj).
Proof.
  induction obj as [|[k v] obj IH]; simpl.
  - tauto.
  - destruct (String.eqb_spec k key) as [->|Hne].
    + split; [discriminate|]. intros H. exfalso. apply H. now left.
    + rewrite IH. tauto.
Qed.

Lemma modify_keys (key : string) (f : Group -> Group) gs :
  map fst (modify key f gs) = map fst gs.
Proof.
  induction gs as [|[k g] gs IH]; simpl; [reflexivity|].
  destruct (String.eqb k key); simpl; congruence.
Qed.

Lemma modify_Forall (P : string * Group -> Prop) key f gs :
  (forall g, P (key, g) -> P (key, f g)) ->
  Forall P gs -> Forall P (modify key f gs).
Proof.
  intros Hf. induction 1 as [|[k g] gs Hx Hgs IH]; simpl; [constructor|].
  destruct (String.eqb_spec k key) as [->|Hne]; constructor; auto.
Qed.

Lemma modify_members key record gs :
  In key (map fst gs) ->
  Permutation (members (map snd (modify key (addRecord record) gs)))
              (members (map snd gs) ++ [record]).
Proof.
  unfold members. induction gs as [|[k g] gs IH]; simpl; [tauto|].
  intros Hin. destruct (String.eqb_spec k key) as [->|Hne]; simpl.
  - rewrite <- !app_assoc. apply Permutation_app_head.
    apply Permutation_app_comm.
  - destruct Hin as [Hk|Hin]; [contradiction|].
    rewrite <- app_assoc. apply Permutation_app_head. now apply IH.
Qed.

Lemma sumCosto_app l1 l2 : sumCosto (l1 ++ l2) = sumCosto l1 + sumCosto l2.
Proof. unfold sumCosto. now rewrite map_app, sum_app. Qed.

Lemma sumCosto_perm l1 l2 : Permutation l1 l2 -> sumCosto l1 = sumCosto l2.
Proof.
  unfold sumCosto. induction 1; simpl; lia.
Qed.

Lemma groupStep_inv gs ls record :
  GroupsInv gs ls -> GroupsInv (groupStep gs record) (ls ++ [record]).
Proof.
  intros [Hk He Hp]. unfold groupStep.
  set (key := groupKey (recordPedidoNum record) (lin_linea record)).
  set (fresh := {| pedidoNum := recordPedidoNum record;
                   linea := lin_linea record;
                   records := []; totalCosto := 0 |}).
  set (groups1 := match lookup key gs with
                  | Some _ => gs
                  | None => gs ++ [(key, fresh)]
                  end).
  assert (H1 : GroupsInv groups1 ls /\ In key (map fst groups1)).
  { subst groups1. destruct (lookup key gs) eqn:E.
    - split; [now constructor|].
      destruct (in_dec string_dec key (map fst gs)) as [Hin|Hout]; auto.
      apply lookup_None in Hout. congruence.
    - apply lookup_None in E. split.
      + constructor.
        * rewrite map_app. simpl.
          apply NoDup_app; [assumption|repeat constructor; tauto|].
          intros x Hx [<-|[]]. contradiction.
        * apply Forall_app. split; [assumption|].
          constructor; [|constructor]. simpl. repeat split. constructor.
        * unfold members in *. rewrite !map_app, concat_app. simpl.
          now rewrite app_nil_r.
      + rewrite map_app. apply in_or_app. right. now left. }
  destruct H1 as [[Hk1 He1 Hp1] Hin1]. constructor.
  - now rewrite modify_keys.
  - apply modify_Forall; [|assumption].
    intros g (Hkey & Hrec & Hsum). simpl in *. repeat split.
    + exact Hkey.
    + apply Forall_app. split; [assumption|]. now repeat constructor.
    + rewrite sumCosto_app, Hsum. unfold sumCosto. simpl. lia.
  - rewrite modify_members by assumption.
    now apply Permutation_app_tail.
Qed.

Lemma fold_groupStep_inv rs gs ls :
  GroupsInv gs ls -> GroupsInv (fold_left groupStep rs gs) (ls ++ rs).
Proof.
  revert gs ls. induction rs as [|r rs IH]; intros gs ls H; simpl.
  - now rewrite app_nil_r.
  - replace (ls ++ r :: rs) with ((ls ++ [r]) ++ rs)
      by now rewrite <- app_assoc.
    apply IH. now apply groupStep_inv.
Qed.

Lemma recordsByPedido_inv (lines : list Linea) :
  GroupsInv (recordsByPedido lines) lines.
Proof.
  apply (fold_groupStep_inv lines [] []).
  constructor; simpl; constructor.
Qed.

Lemma NoDup_keys_functional {V} (l : list (string * V)) k (a b : V) :
  NoDup (map fst l) -> In (k, a) l -> In (k, b) l -> a = b.
Proof.
  induction l as [|[k' v] l IH]; simpl; [tauto|].
  intros Hnd Ha Hb. inversion Hnd as [|? ? Hout Hnd']; subst.
  destruct Ha as [Ha|Ha], Hb as [Hb|Hb].
  - congruence.
  - inversion Ha; subst. exfalso. apply Hout.
    change k with (fst (k, b)). now apply in_map.
  - inversion Hb; subst. exfalso. apply Hout.
    change k with (fst (k, a)). now apply in_map.
  - now apply IH.
Qed.

Lemma sum_totalCosto_members (gs : list (string * Group)) :
  Forall (fun kg => totalCosto (snd kg) = sumCosto (records (snd kg))) gs ->
  Spec.sum (map totalCosto (map snd gs)) = sumCosto (members (map snd gs)).
Proof.
  unfold members. induction 1 as [|[k g] gs Hg Hgs IH]; simpl in *.
  - reflexivity.
  - rewrite sumCosto_app, IH, Hg. reflexivity.
Qed.

(** The group of a line is the one stored under the key of the line. *)
Lemma member_group (lines : list Linea) (g : Group) (r : Linea) :
  In g (groupedByPedido lines) -> In r (records g) ->
  In (recordKey r, g) (recordsByPedido lines).
Proof.
  unfold groupedByPedido. intros Hg Hr.
  apply in_map_iff in Hg. destruct Hg as ([k g'] & Heq & Hin).
  simpl in Heq. subst g'.
  destruct (recordsByPedido_inv lines) as [_ He _].
  rewrite Forall_forall in He. destruct (He _ Hin) as (_ & Hrec & _).
  rewrite Forall_forall in Hrec. simpl in Hrec.
  now rewrite (Hrec r Hr).
Qed.

Lemma line_has_group (lines : list Linea) (r : Linea) :
  In r lines ->
  exists g, In g (groupedByPedido lines) /\ In r (records g).
Proof.
  intros Hr. destruct (recordsByPedido_inv lines) as [_ _ Hp].
  apply (Permutation_in _ (Permutation_sym Hp)) in Hr.
  unfold members in Hr. apply in_concat in Hr.
  destruct Hr as (rs & Hrs & Hr). apply in_map_iff in Hrs.
  destruct Hrs as (g & <- & Hg). now exists g.
Qed.

End Grouping.

(** C8: the lines are not grouped by the pair of order number and
    brand but by the string [`${pedidoNum}-${linea}`], which two
    different pairs can share.  A line of order "A-B" and brand "C" and a
    line of order "A" and brand "B-C" both have the key "A-B-C" and fall
    into one group, shown under the order number and brand of the first,
    although they agree neither on the order number nor on the brand. *)
Lemma C8_distinct_pairs_share_a_group :
  let a := mkLinea "rec1" "Confirmar y Monitorear" "A-B" "C" (Some 1) in
  let b := mkLinea "rec2" "Confirmar y Monitorear" "A" "B-C" (Some 2) in
  sameGroup (Confirmados.groupedByPedido [a; b]) a b
  /\ ~ Spec.sameKeyPair a b
  /\ ~ (sameGroup (Confirmados.groupedByPedido [a; b]) a b
        <-> Spec.sameKeyPair a b)
  /\ Confirmados.groupedByPedido [a; b]
     = [{| Confirmados.pedidoNum := "A-B";
           Confirmados.linea := "C";
           Confirmados.records := [a; b];
           Confirmados.totalCosto := 3 |}].
Proof.
  cbv zeta.
  assert (Hs : sameGroup
                 (Confirmados.groupedByPedido
                    [mkLinea "rec1" "Confirmar y Monitorear" "A-B" "C" (Some 1);
                     mkLinea "rec2" "Confirmar y Monitorear" "A" "B-C" (Some 2)])
                 (mkLinea "rec1" "Confirmar y Monitorear" "A-B" "C" (Some 1))
                 (mkLinea "rec2" "Confirmar y Monitorear" "A" "B-C" (Some 2))).
  { eexists. split; [left; reflexivity|]. simpl. auto. }
  assert (Hp : ~ Spec.sameKeyPair
                 (mkLinea "rec1" "Confirmar y Monitorear" "A-B" "C" (Some 1))
                 (mkLinea "rec2" "Confirmar y Monitorear" "A" "B-C" (Some 2))).
  { intros [_ H]. discriminate H. }
  repeat split; auto. intros [H _]. auto.
Qed.

(* ------------------------------------------------------------------ *)
(** ** Adding a payment to an existing order *)

(** C7, as stated, fails: a requested amount above 0 is not added when no
    payment method is selected.  On an order of 50 with 20 paid, asking
    for 5 with no method selected ends in the validation alert and queues
    nothing, where the statement has it added with amount min(5, 30). *)
Lemma C7_positive_amount_without_method_is_rejected :
  let pedido := mkPedido "recP" (Some 50) (Some 20) in
  let m := mkPagar None (Some 5) [] in
  Solicitados.handleAddPayment [] pedido m = inr AlertInvalidPayment
  /\ 0 < 5
  /\ Spec.clampPayment 5 (Spec.remaining 50 (20 + Spec.sum [])) = 5.
Proof. repeat split. Qed.

(** C7 (amended): in the payment modal, a requested amount that is not a
    number or is <= 0 is rejected with the validation alert and the queue
    of payments is left as it was, and so is any request made with no
    payment method selected; with a payment method selected, a requested
    amount x > 0 is appended to the queue, by that method, with amount
    min(x, remaining), where remaining is max(total due - amount already
    paid - sum of the payments already queued, 0), the total due and the
    amount already paid being the two cells of the order (0 when
    empty). *)
Theorem C7_add_payment_clamps
        (metodos : list Solicitados.MetodoPago)
        (pedido : Solicitados.Pedido) (m : Solicitados.Modal) :
  let remaining :=
    Z.max (JS.or0 (Solicitados.ped_totalCostoPedido pedido)
           - JS.or0 (Solicitados.ped_montoCompilacion pedido)
           - fold_left (fun sum p => sum + Solicitados.amount p)
                       (Solicitados.payments m) 0) 0 in
  (Solicitados.abono m = None ->
   Solicitados.handleAddPayment metodos pedido m = inr AlertInvalidPayment)
  /\ (forall x, Solicitados.abono m = Some x -> x <= 0 ->
        Solicitados.handleAddPayment metodos pedido m = inr AlertInvalidPayment)
  /\ (Solicitados.metodoPagoId m = None
      \/ Solicitados.metodoPagoId m = Some "" ->
      Solicitados.handleAddPayment metodos pedido m = inr AlertInvalidPayment)
  /\ (forall method x,
        Solicitados.metodoPagoId m = Some method -> method <> "" ->
        Solicitados.abono m = Some x -> 0 < x ->
        exists m' p,
          Solicitados.handleAddPayment metodos pedido m = inl m'
          /\ Solicitados.payments m' = Solicitados.payments m ++ [p]
          /\ Solicitados.metodoId p = method
          /\ Solicitados.amount p = Spec.clampPayment x remaining).
Proof.
  cbv zeta. unfold Solicitados.handleAddPayment. repeat apply conj.
  - intros ->. destruct (Solicitados.metodoPagoId m); reflexivity.
  - intros x -> Hx. destruct (Solicitados.metodoPagoId m); [|reflexivity].
    destruct (Z.eqb_spec x 0), (Z.leb_spec x 0);
      rewrite ?orb_true_r; try reflexivity; lia.
  - intros [-> | ->]; [reflexivity|].
    destruct (Solicitados.abono m); reflexivity.
  - intros method x -> Hne -> Hx.
    destruct method as [|c method]; [congruence|]. simpl.
    destruct (Z.eqb_spec x 0); [lia|].
    destruct (Z.leb_spec x 0); [lia|]. simpl.
    eexists. eexists. split; [reflexivity|]. simpl.
    split; [reflexivity|]. split; [reflexivity|].
    unfold Spec.clampPayment, Solicitados.remaining, Solicitados.totalCosto,
      Solicitados.alreadyPaid, Solicitados.addedPaymentsTotal,
      Solicitados.newPayment; simpl.
    match goal with |- context [?r <? x] => destruct (Z.ltb_spec r x) end; lia.
Qed.

Lemma C7_add_payment_clamps_witness :
  exists m' p,
    Solicitados.handleAddPayment []
      (mkPedido "recP" (Some 50) (Some 20))
      (mkPagar (Some "m1") (Some 70) [mkPayment "m0" 10])
    = inl m'
    /\ Solicitados.payments m' = [mkPayment "m0" 10; p]
    /\ Solicitados.amount p = 20.
Proof.
  destruct (C7_add_payment_clamps []
              (mkPedido "recP" (Some 50) (Some 20))
              (mkPagar (Some "m1") (Some 70) [mkPayment "m0" 10]))
    as (_ & _ & _ & H).
  destruct (H "m1" 70) as (m' & p & H1 & H2 & _ & H4).
  - reflexivity.
  - discriminate.
  - reflexivity.
  - lia.
  - exists m', p. repeat split; assumption.
Defined.

(* ------------------------------------------------------------------ *)
(** ** Optional fields of a payment record *)

(** C10, as stated, fails for the settlement: its payment records always
    carry "ID Pago", "Fecha Pago", "Descripción" and "Notas", as [null]
    when the answer was empty.  A payment added with the four prompts left
    empty is created with the four fields set to [null]. *)
Lemma C10_settlement_writes_null_fields :
  let group := mkGroup "Otros" [mkLinea "rec1" "Confirmar y Monitorear" ""
                                        "Otros" (Some 10)] 10 in
  let typed :=
    {| Confirmados.pedidoNumero := "P-3";
       Confirmados.pedidoFecha := "";
       Confirmados.costosAdicionales := None;
       Confirmados.gastosAdicionales := None;
       Confirmados.paymentMethodId := Some "m1";
       Confirmados.paymentAmount := Some 10;
       Confirmados.payments := [] |} in
  let answers :=
    {| Confirmados.ask_idPago := ""; Confirmados.ask_fechaPago := "";
       Confirmados.ask_descripcion := ""; Confirmados.ask_notas := "" |} in
  exists m fields,
    Confirmados.handleAddPayment group typed answers = inl m
    /\ nth_error (snd (Confirmados.handleConfirm (openStore allStatuses)
                         "2024-01-01T00:00:00.000Z" group m)) 1
       = Some (CreateRecordAsync PAGOS_TABLE_NAME fields)
    /\ nullFields fields = ["ID Pago"; "Fecha Pago"; "Descripción"; "Notas"]
    /\ In ("ID Pago", VNull) fields.
Proof.
  cbv zeta. eexists. eexists.
  split; [reflexivity|].
  split; [vm_compute; reflexivity|].
  split; [reflexivity|].
  simpl. auto.
Qed.

Lemma pagoRecord_fields (pedido : Solicitados.Pedido) (idPago : string)
      (p : Solicitados.Payment) :
  let fields := Solicitados.pagoRecord pedido idPago p in
  nullFields fields = []
  /\ hasField "Quién Realizó Pago" fields
     = JS.truthyOpt (Solicitados.quienPago p)
  /\ hasField "Número de Referencia" fields
     = JS.truthyOpt (Solicitados.referencia p)
  /\ hasField "Tarjeta de Débito" fields
     = JS.truthyOpt (Solicitados.tarjeta p).
Proof.
  unfold Solicitados.pagoRecord.
  destruct (Solicitados.quienPago p) as [[|? ?]|],
           (Solicitados.referencia p) as [[|? ?]|],
           (Solicitados.tarjeta p) as [[|? ?]|];
    repeat split; reflexivity.
Qed.

Lemma pagoFields_fields (newPedidoId : string) (p : Confirmados.Payment) :
  let fields := Confirmados.pagoFields newPedidoId p in
  map fst fields
  = ["Pedido"; "Método de Pago Admin"; "Abono"; "ID Pago"; "Fecha Pago";
     "Descripción"; "Notas"]
  /\ JS.includes (nullFields fields) "ID Pago"
     = negb (JS.truthy (Confirmados.idPago p))
  /\ JS.includes (nullFields fields) "Fecha Pago"
     = negb (JS.truthy (Confirmados.fechaPago p))
  /\ JS.includes (nullFields fields) "Descripción"
     = negb (JS.truthy (Confirmados.descripcion p))
  /\ JS.includes (nullFields fields) "Notas"
     = negb (JS.truthy (Confirmados.notas p)).
Proof.
  unfold Confirmados.pagoFields, Confirmados.orNull.
  destruct (Confirmados.idPago p), (Confirmados.fechaPago p),
           (Confirmados.descripcion p), (Confirmados.notas p);
    repeat split; reflexivity.
Qed.

Lemma isType_eq (t : option string) (tag : string) :
  Solicitados.isType t tag = true -> t = Some tag.
Proof.
  destruct t as [s|]; simpl; [|discriminate].
  intros H. apply String.eqb_eq in H. now subst.
Qed.

(* ------------------------------------------------------------------ *)
(** ** Sequences of awaited calls *)

Lemma attempted_app (st : Store) (p1 p2 : list StoreCall) :
  attempted st (p1 ++ p2)
  = attempted st p1
    ++ (if forallb (accepts st) p1 then attempted st p2 else []).
Proof.
  induction p1 as [|c p1 IH]; simpl; [reflexivity|].
  destruct (accepts st c); simpl; [now rewrite IH|reflexivity].
Qed.

Lemma firstRejected_app (st : Store) (p1 p2 : list StoreCall) :
  firstRejected st (p1 ++ p2)
  = match firstRejected st p1 with
    | Some c => Some c
    | None => firstRejected st p2
    end.
Proof.
  unfold firstRejected. induction p1 as [|c p1 IH]; simpl; [reflexivity|].
  destruct (accepts st c); simpl; [exact IH|reflexivity].
Qed.

Lemma firstRejected_None (st : Store) (plan : list StoreCall) :
  firstRejected st plan = None <-> forallb (accepts st) plan = true.
Proof.
  unfold firstRejected. induction plan as [|c plan IH]; simpl; [tauto|].
  destruct (accepts st c); simpl; [exact IH|]. split; discriminate.
Qed.

Lemma attempted_all (st : Store) (plan : list StoreCall) :
  forallb (accepts st) plan = true -> attempted st plan = plan.
Proof.
  induction plan as [|c plan IH]; simpl; [reflexivity|].
  destruct (accepts st c); simpl; [|discriminate].
  intros H. now rewrite IH.
Qed.

(** What was attempted is a prefix of the plan; it stops right after the
    first rejected call. *)
Lemma attempted_prefix (st : Store) (plan : list StoreCall) :
  exists rest, plan = attempted st plan ++ rest
               /\ (rest <> [] -> firstRejected st plan <> None).
Proof.
  unfold firstRejected. induction plan as [|c plan IH]; simpl.
  - exists []. split; [reflexivity|congruence].
  - destruct (accepts st c); simpl.
    + destruct IH as (rest & H1 & H2). exists rest.
      split; [now rewrite <- H1|exact H2].
    + exists plan. split; [reflexivity|discriminate].
Qed.

Lemma firstRejected_last (st : Store) (plan : list StoreCall) (c : StoreCall) :
  firstRejected st plan = Some c ->
  accepts st c = false
  /\ exists before, attempted st plan = before ++ [c]
                    /\ forallb (accepts st) before = true.
Proof.
  unfold firstRejected. induction plan as [|d plan IH]; simpl; [discriminate|].
  destruct (accepts st d) eqn:E; simpl.
  - intros H. destruct (IH H) as (Hc & before & Hb & Hall).
    split; [exact Hc|]. exists (d :: before). simpl.
    now rewrite Hb, E, Hall.
  - intros H. inversion H; subst. split; [exact E|].
    exists []. split; reflexivity.
Qed.

(** A loop of awaited record creations issues its calls in order and
    stops at the first rejection. *)
Lemma forOf_creates {A} (table : string) (f : A -> Fields) (xs : list A)
      (st : Store) (tr : Trace) :
  forOf xs (fun x => _ <- createRecordAsync table (f x) ;; ret tt) st tr
  = (match firstRejected st (map (fun x => CreateRecordAsync table (f x)) xs) with
     | Some c => Throw c
     | None => Ok tt
     end,
     tr ++ attempted st (map (fun x => CreateRecordAsync table (f x)) xs)).
Proof.
  revert tr. induction xs as [|x xs IH]; intro tr; simpl.
  - unfold ret. now rewrite app_nil_r.
  - unfold bind at 1. unfold bind at 1.
    unfold createRecordAsync, issue, firstRejected. simpl.
    destruct (accepts st (CreateRecordAsync table (f x))) eqn:E; simpl.
    + unfold ret at 1. rewrite IH. unfold firstRejected.
      now rewrite <- app_assoc.
    + reflexivity.
Qed.

Lemma forOf_ext {A} (body1 body2 : A -> Async unit) (xs : list A)
      (st : Store) (tr : Trace) :
  (forall x st0 tr0, body1 x st0 tr0 = body2 x st0 tr0) ->
  forOf xs body1 st tr = forOf xs body2 st tr.
Proof.
  intros H. revert tr. induction xs as [|x xs IH]; intro tr; simpl.
  - reflexivity.
  - unfold bind. rewrite H.
    destruct (body2 x st tr) as [[u|c] tr1]; [apply IH|reflexivity].
Qed.

Lemma confirmWrites_run st timestamp group m :
  Confirmados.confirmWrites group m timestamp st []
  = (match firstRejected st (ConfirmadosView.plan st timestamp group m) with
     | Some c => Throw c
     | None =>
         Ok {| Confirmados.ok_linea := Confirmados.linea group;
               Confirmados.ok_cantidad :=
                 List.length (Confirmados.records group);
               Confirmados.ok_costo := Confirmados.totalCosto group |}
     end,
     attempted st (ConfirmadosView.plan st timestamp group m)).
Proof.
  unfold Confirmados.confirmWrites, ConfirmadosView.plan.
  cbv zeta.
  set (ps := Confirmados.pedidoStatus _ _).
  set (sp := Confirmados.safePedidoStatus _ _).
  set (sl := Confirmados.safeLineaStatus _ _).
  unfold bind at 1. unfold createRecordAsync at 1. unfold issue. simpl.
  unfold firstRejected. simpl.
  destruct (accepts st (CreateRecordAsync PEDIDOS_TABLE_NAME _)) eqn:E0; simpl;
    [|reflexivity].
  unfold bind at 1. rewrite forOf_creates.
  fold (firstRejected st
          (map (fun payment =>
                  CreateRecordAsync PAGOS_TABLE_NAME
                    (Confirmados.pagoFields (newRecordId st 0) payment))
               (Confirmados.payments m) ++
           [UpdateRecordsAsync LPO_TABLE_NAME
              (map (Confirmados.lineaUpdate m timestamp sl)
                   (Confirmados.records group))])).
  rewrite firstRejected_app, attempted_app.
  destruct (firstRejected st (map _ (Confirmados.payments m))) as [c|] eqn:E1.
  - assert (Hf : forallb (accepts st)
                   (map (fun payment =>
                           CreateRecordAsync PAGOS_TABLE_NAME
                             (Confirmados.pagoFields (newRecordId st 0) payment))
                        (Confirmados.payments m)) = false).
    { destruct (forallb _ _) eqn:F; [|reflexivity].
      apply firstRejected_None in F. congruence. }
    rewrite Hf, app_nil_r. reflexivity.
  - apply firstRejected_None in E1. rewrite E1.
    unfold bind, updateRecordsAsync, issue, ret, firstRejected. simpl.
    destruct (accepts st (UpdateRecordsAsync LPO_TABLE_NAME _)); reflexivity.
Qed.

Lemma saveWrites_run st gen pedido m :
  Solicitados.saveWrites gen pedido m st []
  = (match firstRejected st (SolicitadosView.plan gen pedido m) with
     | Some c => Throw c
     | None => Ok tt
     end,
     attempted st (SolicitadosView.plan gen pedido m)).
Proof.
  unfold Solicitados.saveWrites, SolicitadosView.plan. cbv zeta.
  unfold bind at 1.
  rewrite (forOf_ext _
             (fun kp : nat * Solicitados.Payment =>
                _ <- createRecordAsync PAGOS_TABLE_NAME
                       (Solicitados.pagoRecord pedido (gen (fst kp)) (snd kp)) ;;
                ret tt))
    by (intros [k payment] st0 tr0; reflexivity).
  rewrite (forOf_creates PAGOS_TABLE_NAME
             (fun kp => Solicitados.pagoRecord pedido (gen (fst kp)) (snd kp))).
  rewrite firstRejected_app, attempted_app. simpl.
  destruct (firstRejected st (map _ _)) as [c|] eqn:E1.
  - match goal with |- context [forallb ?f ?l] =>
      assert (Hf : forallb f l = false) end.
    { destruct (forallb _ _) eqn:F; [|reflexivity].
      apply firstRejected_None in F. congruence. }
    rewrite Hf, app_nil_r. reflexivity.
  - apply firstRejected_None in E1. rewrite E1.
    unfold updateRecordAsync, issue, firstRejected. simpl.
    destruct (accepts st (UpdateRecordAsync _ _ _)); reflexivity.
Qed.

(* ------------------------------------------------------------------ *)
(** ** The settlement, call by call *)

Lemma attempted_incl (st : Store) (plan : list StoreCall) (c : StoreCall) :
  In c (attempted st plan) -> In c plan.
Proof.
  induction plan as [|d plan IH]; simpl; [tauto|].
  intros [H|H]; [now left|]. right.
  destruct (accepts st d); [now apply IH|contradiction].
Qed.

Lemma handleConfirm_validation st timestamp group m :
  Confirmados.handleConfirm st timestamp group m
  = if ConfirmadosView.solicitarDisabled group m
    then (Rejected (if JS.truthy (JS.trim (Confirmados.pedidoNumero m))
                    then AlertDebesCubrirTotal else AlertNumeroRequerido), [])
    else tryCatch (Confirmados.confirmWrites group m timestamp) st.
Proof.
  unfold Confirmados.handleConfirm, ConfirmadosView.solicitarDisabled.
  destruct (Confirmados.pedidoNumero m) as [|ch rest] eqn:E.
  - simpl. now rewrite orb_true_r.
  - cbn [JS.truthy negb orb].
    destruct (JS.truthy (JS.trim (String ch rest))); cbn [negb orb].
    + rewrite andb_comm, orb_false_r.
      destruct (negb (Confirmados.canLeavePending group)
                && (0 <? Confirmados.remaining group m)); reflexivity.
    + now rewrite orb_true_r.
Qed.

Lemma handleConfirm_run st timestamp group m :
  ConfirmadosView.solicitarDisabled group m = false ->
  Confirmados.handleConfirm st timestamp group m
  = (match firstRejected st (ConfirmadosView.plan st timestamp group m) with
     | Some c => Failed c
     | None =>
         Succeeded {| Confirmados.ok_linea := Confirmados.linea group;
                      Confirmados.ok_cantidad :=
                        List.length (Confirmados.records group);
                      Confirmados.ok_costo := Confirmados.totalCosto group |}
     end,
     attempted st (ConfirmadosView.plan st timestamp group m)).
Proof.
  intros H. rewrite handleConfirm_validation, H.
  unfold tryCatch. rewrite confirmWrites_run.
  destruct (firstRejected st _); reflexivity.
Qed.

Lemma handleConfirm_trace_in_plan st timestamp group m c :
  In c (snd (Confirmados.handleConfirm st timestamp group m)) ->
  ConfirmadosView.solicitarDisabled group m = false
  /\ In c (ConfirmadosView.plan st timestamp group m).
Proof.
  destruct (ConfirmadosView.solicitarDisabled group m) eqn:E.
  - rewrite handleConfirm_validation, E. simpl. contradiction.
  - rewrite (handleConfirm_run _ _ _ _ E). cbn [snd].
    intros H. split; [reflexivity|]. now apply (attempted_incl st).
Qed.

(** X1: the "Solicitar" button is disabled exactly when [handleConfirm]
    would end in a validation alert; in that case no call reaches the
    base. *)
Theorem X1_solicitar_button_matches_validation
        (st : Store) (timestamp : string)
        (group : Confirmados.Group) (m : Confirmados.Modal) :
  (ConfirmadosView.solicitarDisabled group m = true
   <-> exists a, fst (Confirmados.handleConfirm st timestamp group m)
                 = Rejected a)
  /\ (ConfirmadosView.solicitarDisabled group m = true ->
      snd (Confirmados.handleConfirm st timestamp group m) = []).
Proof.
  rewrite handleConfirm_validation.
  destruct (ConfirmadosView.solicitarDisabled group m); simpl.
  - split; [|reflexivity]. split; [eauto|reflexivity].
  - split; [|discriminate]. split; [discriminate|].
    intros (a & Ha). unfold tryCatch in Ha.
    destruct (Confirmados.confirmWrites group m timestamp st [])
      as [[d|c] tr]; discriminate.
Qed.

Lemma X1_solicitar_button_matches_validation_witness :
  snd (Confirmados.handleConfirm (openStore allStatuses)
         "2024-01-01T00:00:00.000Z"
         (mkGroup "Andrea" [] 10) (mkModal "P-1" None None [])) = [].
Proof.
  apply (X1_solicitar_button_matches_validation
           (openStore allStatuses) "2024-01-01T00:00:00.000Z"
           (mkGroup "Andrea" [] 10) (mkModal "P-1" None None [])).
  reflexivity.
Defined.

(** X2: once the validation has passed, [handleConfirm] issues the
    creation of the order, then one creation per queued payment, then the
    batch update of the lines, and stops at the first call the base
    rejects: it succeeds exactly when every call is accepted, and
    otherwise reports the rejected call, which is the last one issued,
    every earlier one having been accepted (nothing is rolled back and
    nothing later is attempted). *)
Theorem X2_settlement_stops_at_first_failure
        (st : Store) (timestamp : string)
        (group : Confirmados.Group) (m : Confirmados.Modal) :
  ConfirmadosView.solicitarDisabled group m = false ->
  let p := ConfirmadosView.plan st timestamp group m in
  let run := Confirmados.handleConfirm st timestamp group m in
  snd run = attempted st p
  /\ (exists rest, p = snd run ++ rest)
  /\ (forallb (accepts st) p = true <-> exists d, fst run = Succeeded d)
  /\ (forallb (accepts st) p = true -> snd run = p)
  /\ (forall c, fst run = Failed c ->
        accepts st c = false
        /\ exists before, snd run = before ++ [c]
                          /\ forallb (accepts st) before = true).
Proof.
  intros H. cbv zeta. rewrite (handleConfirm_run _ _ _ _ H). cbn [fst snd].
  split; [reflexivity|].
  split.
  { destruct (attempted_prefix st (ConfirmadosView.plan st timestamp group m))
      as (rest & Hr & _). now exists rest. }
  split.
  { rewrite <- firstRejected_None.
    destruct (firstRejected st _); split; try eauto; try discriminate.
    intros (d & Hd). discriminate. }
  split; [apply attempted_all|].
  intros c Hc.
  destruct (firstRejected st _) as [c'|] eqn:E; [|discriminate].
  inversion Hc; subst. now apply firstRejected_last.
Qed.

Lemma X2_settlement_stops_at_first_failure_witness :
  let st := readOnlyStore allStatuses in
  let group := mkGroup "Otros" (openLines 2) 2 in
  let m := mkModal "P-1" None None [mkConfPayment "m1" 1] in
  snd (Confirmados.handleConfirm st "2024-01-01T00:00:00.000Z" group m)
  = attempted st (ConfirmadosView.plan st "2024-01-01T00:00:00.000Z" group m).
Proof.
  cbv zeta.
  apply (X2_settlement_stops_at_first_failure
           (readOnlyStore allStatuses) "2024-01-01T00:00:00.000Z"
           (mkGroup "Otros" (openLines 2) 2)
           (mkModal "P-1" None None [mkConfPayment "m1" 1])).
  reflexivity.
Defined.

(** X3: whatever a settlement writes is consistent: the order number of
    the created order and of every updated line is the same trimmed,
    non-empty string; the order links exactly the lines of the batch
    update, in the same order; and every payment record links to the id
    the base returned for the new order. *)
Theorem X3_settlement_writes_are_consistent
        (st : Store) (timestamp : string)
        (group : Confirmados.Group) (m : Confirmados.Modal) (c : StoreCall) :
  In c (snd (Confirmados.handleConfirm st timestamp group m)) ->
  let numero := JS.trim (Confirmados.pedidoNumero m) in
  let ids := map lin_id (Confirmados.records group) in
  numero <> ""
  /\ match c with
     | CreateRecordAsync table fields =>
         (table = PEDIDOS_TABLE_NAME
          /\ fieldOf "No. de Pedido" fields = Some (VString numero)
          /\ fieldOf "Productos" fields = Some (VLinks ids))
         \/ (table = PAGOS_TABLE_NAME
             /\ fieldOf "Pedido" fields = Some (VLinks [newRecordId st 0]))
     | UpdateRecordsAsync table updates =>
         table = LPO_TABLE_NAME
         /\ map fst updates = ids
         /\ Forall (fun u => fieldOf "No. de Pedido" (snd u)
                             = Some (VString numero)) updates
     | _ => False
     end.
Proof.
  intros Hin. cbv zeta.
  destruct (handleConfirm_trace_in_plan _ _ _ _ _ Hin) as (Hd & Hp).
  split.
  { intro Hempty. unfold ConfirmadosView.solicitarDisabled in Hd.
    rewrite Hempty in Hd. simpl in Hd. now rewrite orb_true_r in Hd. }
  unfold ConfirmadosView.plan in Hp. cbv zeta in Hp.
  destruct Hp as [Hp|Hp].
  - subst c. left. repeat split; reflexivity.
  - apply in_app_or in Hp. destruct Hp as [Hp|[Hp|[]]].
    + apply in_map_iff in Hp. destruct Hp as (p & <- & _).
      right. split; reflexivity.
    + subst c. split; [reflexivity|]. split.
      * rewrite map_map. reflexivity.
      * apply Forall_map. apply Forall_forall. intros r _. reflexivity.
Qed.

Lemma X3_settlement_writes_are_consistent_witness :
  JS.trim "  P-1 " <> "".
Proof.
  apply (X3_settlement_writes_are_consistent
           (openStore allStatuses) "2024-01-01T00:00:00.000Z"
           (mkGroup "Otros" (openLines 1) 1)
           (mkModal "  P-1 " None None [])
           (CreateRecordAsync PEDIDOS_TABLE_NAME
              (Confirmados.pedidoFields (mkGroup "Otros" (openLines 1) 1)
                 (mkModal "  P-1 " None None [])
                 "2024-01-01T00:00:00.000Z" "Pendiente de Pago"))).
  vm_compute. left. reflexivity.
Defined.

Lemma lookup_Some_In {V} (key : string) (obj : list (string * V)) (v : V) :
  Confirmados.lookup key obj = Some v -> In (key, v) obj.
Proof.
  induction obj as [|[k w] obj IH]; simpl; [discriminate|].
  destruct (String.eqb_spec k key) as [->|Hne].
  - intros H. inversion H. now left.
  - intros H. right. now apply IH.
Qed.

Lemma preferredStatus_cases (group : Confirmados.Group) :
  Confirmados.preferredStatus group = "Pagado"
  \/ Confirmados.preferredStatus group = "Pendiente de Pago".
Proof.
  unfold Confirmados.preferredStatus.
  destruct (Confirmados.lookup _ _) as [s|] eqn:E; [|now right].
  apply lookup_Some_In in E.
  assert (Hall : Forall (fun kv : string * string =>
                           snd kv = "Pagado" \/ snd kv = "Pendiente de Pago")
                        Confirmados.brandStatus).
  { unfold Confirmados.brandStatus.
    repeat (apply Forall_cons; [simpl; auto|]). apply Forall_nil. }
  rewrite Forall_forall in Hall. destruct (Hall _ E) as [H|H];
    simpl in H; subst s; [now left|now right].
Qed.

Lemma rawLineaStatus_preferred (group : Confirmados.Group) (s : string) :
  Confirmados.rawLineaStatus group s = Confirmados.preferredStatus group.
Proof.
  unfold Confirmados.rawLineaStatus, JS.orStr.
  now rewrite preferredStatus_truthy.
Qed.

Lemma estatusOf_pagoFields (newPedidoId : string) (p : Confirmados.Payment) :
  estatusOf (Confirmados.pagoFields newPedidoId p) = [].
Proof.
  unfold Confirmados.pagoFields, Confirmados.orNull.
  destruct (JS.truthy (Confirmados.idPago p)),
           (JS.truthy (Confirmados.fechaPago p)),
           (JS.truthy (Confirmados.descripcion p)),
           (JS.truthy (Confirmados.notas p)); reflexivity.
Qed.

Lemma estatusOf_pedidoFields group m timestamp status :
  estatusOf (Confirmados.pedidoFields group m timestamp status) = [status].
Proof.
  unfold Confirmados.pedidoFields, Confirmados.orNull.
  destruct (JS.truthy (Confirmados.pedidoFecha m)); reflexivity.
Qed.

(** The statuses a call of the plan writes: the validated status of the
    order on "Pedidos", the validated status of the lines on "Líneas de
    Pedido", none on "Pagos". *)
Lemma plan_estatus st timestamp group m c s :
  In c (ConfirmadosView.plan st timestamp group m) ->
  In s (estatusWritten c) ->
  let pedidoStatus :=
    Confirmados.pedidoStatus (Confirmados.remaining group m)
      (Confirmados.totalPaid (Confirmados.payments m)) in
  (tableOf c = PEDIDOS_TABLE_NAME
   /\ s = Confirmados.safePedidoStatus
            (Confirmados.statusChoices st PEDIDOS_TABLE_NAME) pedidoStatus)
  \/ (tableOf c = LPO_TABLE_NAME
      /\ s = Confirmados.safeLineaStatus
               (Confirmados.statusChoices st LPO_TABLE_NAME)
               (Confirmados.rawLineaStatus group pedidoStatus)).
Proof.
  unfold ConfirmadosView.plan. cbv zeta. intros Hc Hs.
  apply in_inv in Hc. destruct Hc as [Hc|Hc].
  - subst c. cbn [estatusWritten] in Hs. rewrite estatusOf_pedidoFields in Hs.
    destruct Hs as [<-|[]]. left. split; reflexivity.
  - apply in_app_or in Hc. destruct Hc as [Hc|[Hc|[]]].
    + apply in_map_iff in Hc. destruct Hc as (p & <- & _).
      cbn [estatusWritten] in Hs. now rewrite estatusOf_pagoFields in Hs.
    + subst c. right. split; [reflexivity|].
      simpl in Hs. apply in_flat_map in Hs.
      destruct Hs as (u & Hu & Hs). apply in_map_iff in Hu.
      destruct Hu as (r & <- & _). simpl in Hs. destruct Hs as [<-|[]].
      reflexivity.
Qed.

(** X4: when the "Estatus" fields of "Pedidos" and of "Líneas de Pedido"
    have choices (none with an empty name), every status a settlement
    writes, to the order or to a line, is one of the choices of the field
    it is written to. *)
Theorem X4_settlement_statuses_are_choices
        (st : Store) (timestamp : string)
        (group : Confirmados.Group) (m : Confirmados.Modal)
        (c : StoreCall) (s : string) :
  Confirmados.statusChoices st PEDIDOS_TABLE_NAME <> [] ->
  Forall (fun n => n <> "") (Confirmados.statusChoices st PEDIDOS_TABLE_NAME) ->
  Confirmados.statusChoices st LPO_TABLE_NAME <> [] ->
  Forall (fun n => n <> "") (Confirmados.statusChoices st LPO_TABLE_NAME) ->
  In c (snd (Confirmados.handleConfirm st timestamp group m)) ->
  In s (estatusWritten c) ->
  In s (Confirmados.statusChoices st (tableOf c)).
Proof.
  intros Hp1 Hp2 Hl1 Hl2 Hc Hs.
  apply handleConfirm_trace_in_plan in Hc. destruct Hc as (_ & Hc).
  destruct (plan_estatus _ _ _ _ _ _ Hc Hs) as [(Ht & ->)|(Ht & ->)];
    rewrite Ht.
  - now apply safePedidoStatus_allowed.
  - now apply safeLineaStatus_allowed.
Qed.

Lemma X4_settlement_statuses_are_choices_witness :
  In "Pagado" (Confirmados.statusChoices (openStore allStatuses)
                 PEDIDOS_TABLE_NAME).
Proof.
  apply (X4_settlement_statuses_are_choices
           (openStore allStatuses) "2024-01-01T00:00:00.000Z"
           (mkGroup "Andrea" (openLines 1) 1)
           (mkModal "P-1" None None [mkConfPayment "m1" 1])
           (CreateRecordAsync PEDIDOS_TABLE_NAME
              (Confirmados.pedidoFields (mkGroup "Andrea" (openLines 1) 1)
                 (mkModal "P-1" None None [mkConfPayment "m1" 1])
                 "2024-01-01T00:00:00.000Z" "Pagado"))
           "Pagado").
  - discriminate.
  - repeat constructor; discriminate.
  - discriminate.
  - repeat constructor; discriminate.
  - vm_compute. left. reflexivity.
  - simpl. left. reflexivity.
Defined.

(** X5: when the "Estatus" field of the lines offers "Pendiente de Pago",
    a settlement only ever gives its lines the status "Pagado" or
    "Pendiente de Pago": a line never becomes "Pago Incompleto", also
    when its order does. *)
Theorem X5_lines_never_partially_paid
        (st : Store) (timestamp : string)
        (group : Confirmados.Group) (m : Confirmados.Modal)
        (c : StoreCall) (s : string) :
  JS.includes (Confirmados.statusChoices st LPO_TABLE_NAME)
              "Pendiente de Pago" = true ->
  In c (snd (Confirmados.handleConfirm st timestamp group m)) ->
  tableOf c = LPO_TABLE_NAME ->
  In s (estatusWritten c) ->
  s = "Pagado" \/ s = "Pendiente de Pago".
Proof.
  intros Hinc Hc Ht Hs.
  apply handleConfirm_trace_in_plan in Hc. destruct Hc as (_ & Hc).
  destruct (plan_estatus _ _ _ _ _ _ Hc Hs) as [(Ht' & _)|(_ & ->)].
  - rewrite Ht in Ht'. discriminate.
  - unfold Confirmados.safeLineaStatus. rewrite Hinc.
    destruct (_ && _).
    + rewrite rawLineaStatus_preferred.
      apply preferredStatus_cases.
    + now right.
Qed.

Lemma X5_lines_never_partially_paid_witness :
  "Pendiente de Pago" = "Pagado" \/ "Pendiente de Pago" = "Pendiente de Pago".
Proof.
  apply (X5_lines_never_partially_paid
           (openStore allStatuses) "2024-01-01T00:00:00.000Z"
           (mkGroup "Otros" [mkLinea "rec1" "Confirmar y Monitorear" ""
                                     "Otros" (Some 10)] 10)
           (mkModal "P-1" None None [mkConfPayment "m1" 4])
           (UpdateRecordsAsync LPO_TABLE_NAME
              [Confirmados.lineaUpdate
                 (mkModal "P-1" None None [mkConfPayment "m1" 4])
                 "2024-01-01T00:00:00.000Z" "Pendiente de Pago"
                 (mkLinea "rec1" "Confirmar y Monitorear" "" "Otros" (Some 10))])).
  - reflexivity.
  - vm_compute. right. right. left. reflexivity.
  - reflexivity.
  - simpl. left. reflexivity.
Defined.




(* ------------------------------------------------------------------ *)
(** ** The queue of payments of the two modals *)

Lemma filterIndex_Forall {A} (P : A -> Prop) keep (i : nat) (l : list A) :
  Forall P l -> Forall P (filterIndex keep i l).
Proof.
  intros H. revert i. induction H as [|x l Hx Hl IH]; intro i; simpl.
  - constructor.
  - destruct (keep i); [constructor|]; auto.
Qed.

(** Removing by index keeps the elements before the index and after it. *)
Lemma filterIndex_remove {A} (index i : nat) (l : list A) :
  filterIndex (fun idx => negb (idx =? i + index)%nat) i l
  = firstn index l ++ skipn (S index) l.
Proof.
  revert i index. induction l as [|x l IH]; intros i index; simpl.
  - now destruct index.
  - destruct index as [|index]; simpl.
    + rewrite Nat.add_0_r, Nat.eqb_refl. simpl.
      clear IH. generalize (Nat.lt_succ_diag_r i). generalize (S i) as j.
      induction l as [|y l IHl]; intros j Hj; simpl; [reflexivity|].
      destruct (Nat.eqb_spec j i); [lia|]. simpl. f_equal.
      apply IHl. lia.
    + destruct (Nat.eqb_spec i (i + S index)); [lia|]. simpl. f_equal.
      replace (i + S index)%nat with (S i + index)%nat by lia.
      apply IH.
Qed.

Lemma removeAt_spec {A} (index : nat) (l : list A) :
  filterIndex (fun idx => negb (idx =? index)%nat) 0 l
  = firstn index l ++ skipn (S index) l.
Proof. exact (filterIndex_remove index 0 l). Qed.

Lemma sum_pos (l : list Z) :
  Forall (fun z => 0 < z) l -> l <> [] -> 0 < Spec.sum l.
Proof.
  induction 1 as [|x l Hx Hl IH]; [congruence|]. intros _. simpl.
  destruct l as [|y l]; simpl in *; [lia|].
  assert (0 < y + Spec.sum l) by (apply IH; discriminate). lia.
Qed.

Lemma sum_nonneg (l : list Z) :
  Forall (fun z => 0 < z) l -> 0 <= Spec.sum l.
Proof. induction 1; simpl; lia. Qed.

(** X7: [handleAddPayment] of the settlement modal asks for a method
    first (also when the amount is invalid too), then for an amount that
    is a number above 0; otherwise it appends to the queue a payment of
    min(x, remaining) by the selected method, with the four prompt
    answers, clears the amount field and leaves the rest of the form as it
    is. *)
Theorem X7_settlement_add_payment
        (group : Confirmados.Group) (m : Confirmados.Modal)
        (answers : Confirmados.Prompts) :
  (Confirmados.paymentMethodId m = None
   \/ Confirmados.paymentMethodId m = Some "" ->
   Confirmados.handleAddPayment group m answers = inr AlertSeleccionaMetodo)
  /\ (forall method,
         Confirmados.paymentMethodId m = Some method -> method <> "" ->
         (Confirmados.paymentAmount m = None
          \/ exists x, Confirmados.paymentAmount m = Some x /\ x <= 0) ->
         Confirmados.handleAddPayment group m answers = inr AlertMontoValido)
  /\ (forall method x,
         Confirmados.paymentMethodId m = Some method -> method <> "" ->
         Confirmados.paymentAmount m = Some x -> 0 < x ->
         Confirmados.handleAddPayment group m answers
         = inl {| Confirmados.pedidoNumero := Confirmados.pedidoNumero m;
                  Confirmados.pedidoFecha := Confirmados.pedidoFecha m;
                  Confirmados.costosAdicionales :=
                    Confirmados.costosAdicionales m;
                  Confirmados.gastosAdicionales :=
                    Confirmados.gastosAdicionales m;
                  Confirmados.paymentMethodId := Some method;
                  Confirmados.paymentAmount := None;
                  Confirmados.payments :=
                    Confirmados.payments m ++
                    [{| Confirmados.methodId := method;
                        Confirmados.amount :=
                          Z.min x (Confirmados.remaining group m);
                        Confirmados.idPago := Confirmados.ask_idPago answers;
                        Confirmados.fechaPago :=
                          Confirmados.ask_fechaPago answers;
                        Confirmados.descripcion :=
                          Confirmados.ask_descripcion answers;
                        Confirmados.notas := Confirmados.ask_notas answers |}]
               |}).
Proof.
  unfold Confirmados.handleAddPayment. repeat apply conj.
  - intros [-> | ->]; reflexivity.
  - intros method -> Hne H.
    destruct method as [|ch rest]; [congruence|]. simpl.
    destruct H as [-> | (x & -> & Hx)]; [reflexivity|].
    destruct (Z.eqb_spec x 0), (Z.leb_spec x 0); simpl; try reflexivity; lia.
  - intros method x Hm Hne -> Hx. rewrite Hm.
    destruct method as [|ch rest]; [congruence|]. simpl.
    destruct (Z.eqb_spec x 0); [lia|]. destruct (Z.leb_spec x 0); [lia|].
    simpl.
    destruct (Z.ltb_spec (Confirmados.remaining group m) x).
    + rewrite Z.min_r by lia. reflexivity.
    + rewrite Z.min_l by lia. reflexivity.
Qed.

Lemma X7_settlement_add_payment_witness :
  exists m',
    Confirmados.handleAddPayment (mkGroup "Otros" [] 50)
      {| Confirmados.pedidoNumero := "P-1";
         Confirmados.pedidoFecha := "";
         Confirmados.costosAdicionales := None;
         Confirmados.gastosAdicionales := None;
         Confirmados.paymentMethodId := Some "m1";
         Confirmados.paymentAmount := Some 70;
         Confirmados.payments := [] |}
      {| Confirmados.ask_idPago := ""; Confirmados.ask_fechaPago := "";
         Confirmados.ask_descripcion := ""; Confirmados.ask_notas := "" |}
    = inl m'
    /\ map Confirmados.amount (Confirmados.payments m') = [50].
Proof.
  destruct (X7_settlement_add_payment (mkGroup "Otros" [] 50)
              {| Confirmados.pedidoNumero := "P-1";
                 Confirmados.pedidoFecha := "";
                 Confirmados.costosAdicionales := None;
                 Confirmados.gastosAdicionales := None;
                 Confirmados.paymentMethodId := Some "m1";
                 Confirmados.paymentAmount := Some 70;
                 Confirmados.payments := [] |}
              {| Confirmados.ask_idPago := ""; Confirmados.ask_fechaPago := "";
                 Confirmados.ask_descripcion := "";
                 Confirmados.ask_notas := "" |}) as (_ & _ & H).
  eexists. split.
  - apply (H "m1" 70).
    + reflexivity.
    + discriminate.
    + reflexivity.
    + lia.
  - reflexivity.
Defined.

Lemma confirmados_dispatch_positive options group m e :
  Forall (fun p => 0 < Confirmados.amount p) (Confirmados.payments m) ->
  Forall (fun p => 0 < Confirmados.amount p)
         (Confirmados.payments (ConfirmadosView.dispatch options group m e)).
Proof.
  intros H. destruct e; simpl; try exact H.
  - unfold ConfirmadosView.agregarDisabled.
    destruct (Z.eqb_spec (Confirmados.remaining group m) 0) as [|Hrem];
      simpl; [exact H|].
    destruct (_ =? 0)%nat; [exact H|].
    unfold Confirmados.handleAddPayment.
    destruct (Confirmados.paymentMethodId m) as [method|]; [|exact H].
    destruct (negb (JS.truthy method)); [exact H|].
    destruct (Confirmados.paymentAmount m) as [x|]; [|exact H].
    destruct (Z.eqb_spec x 0); simpl; [exact H|].
    destruct (Z.leb_spec x 0); simpl; [exact H|].
    apply Forall_app. split; [exact H|]. constructor; [|constructor]. simpl.
    assert (0 <= Confirmados.remaining group m)
      by (unfold Confirmados.remaining; lia).
    destruct (Z.ltb_spec (Confirmados.remaining group m) x); lia.
  - now apply filterIndex_Forall.
Qed.

(** X8: whatever the user does in the settlement modal (typing,
    changing the adjustments, adding and removing payments), every queued
    payment has an amount above 0; hence, as soon as a payment is queued,
    the order is not created as "Pendiente de Pago". *)
Theorem X8_settlement_queue_is_positive
        (options : list (string * string)) (group : Confirmados.Group)
        (events : list ConfirmadosView.Event) :
  let m := ConfirmadosView.session options group events in
  Forall (fun p => 0 < Confirmados.amount p) (Confirmados.payments m)
  /\ (Confirmados.payments m <> [] ->
      0 < Confirmados.totalPaid (Confirmados.payments m)
      /\ Confirmados.pedidoStatus (Confirmados.remaining group m)
           (Confirmados.totalPaid (Confirmados.payments m))
         <> "Pendiente de Pago").
Proof.
  cbv zeta.
  assert (Hpos : Forall (fun p => 0 < Confirmados.amount p)
                   (Confirmados.payments
                      (ConfirmadosView.session options group events))).
  { unfold ConfirmadosView.session.
    assert (H0 : Forall (fun p => 0 < Confirmados.amount p)
                   (Confirmados.payments (ConfirmadosView.initialModal group)))
      by constructor.
    revert H0. generalize (ConfirmadosView.initialModal group) as m0.
    induction events as [|e events IH]; intros m0 H0; simpl; [exact H0|].
    apply IH. now apply confirmados_dispatch_positive. }
  split; [exact Hpos|]. intros Hne.
  assert (Hpaid : 0 < Confirmados.totalPaid
                        (Confirmados.payments
                           (ConfirmadosView.session options group events))).
  { rewrite totalPaid_sum. apply sum_pos.
    - apply Forall_map. exact Hpos.
    - intro Hc. apply map_eq_nil in Hc. contradiction. }
  split; [exact Hpaid|].
  unfold Confirmados.pedidoStatus.
  apply Z.ltb_lt in Hpaid. rewrite Hpaid.
  destruct (0 <? Confirmados.remaining _ _); intro Hc; discriminate Hc.
Qed.

Lemma X8_settlement_queue_is_positive_witness :
  let m := ConfirmadosView.session [("m1", "Caja")] (mkGroup "Otros" [] 50)
             [ConfirmadosView.SetPaymentMethodId (Some "m1");
              ConfirmadosView.SetPaymentAmount (Some 70);
              ConfirmadosView.ClickAgregar
                {| Confirmados.ask_idPago := "";
                   Confirmados.ask_fechaPago := "";
                   Confirmados.ask_descripcion := "";
                   Confirmados.ask_notas := "" |}] in
  0 < Confirmados.totalPaid (Confirmados.payments m).
Proof.
  cbv zeta.
  apply (X8_settlement_queue_is_positive [("m1", "Caja")]
           (mkGroup "Otros" [] 50)
           [ConfirmadosView.SetPaymentMethodId (Some "m1");
            ConfirmadosView.SetPaymentAmount (Some 70);
            ConfirmadosView.ClickAgregar
              {| Confirmados.ask_idPago := "";
                 Confirmados.ask_fechaPago := "";
                 Confirmados.ask_descripcion := "";
                 Confirmados.ask_notas := "" |}]).
  vm_compute. discriminate.
Defined.

(* ------------------------------------------------------------------ *)
(** ** The payment registration, call by call *)

Lemma handleSave_run st gen pedido m :
  Solicitados.payments m <> [] ->
  Solicitados.handleSave st gen pedido m
  = (match firstRejected st (SolicitadosView.plan gen pedido m) with
     | Some c => Failed c
     | None => Succeeded tt
     end,
     attempted st (SolicitadosView.plan gen pedido m)).
Proof.
  intros Hne. unfold Solicitados.handleSave.
  destruct (Solicitados.payments m) as [|q qs] eqn:E; [congruence|].
  unfold tryCatch. rewrite saveWrites_run.
  destruct (firstRejected st _); reflexivity.
Qed.

Lemma handleSave_trace_in_plan st gen pedido m c :
  In c (snd (Solicitados.handleSave st gen pedido m)) ->
  Solicitados.payments m <> []
  /\ In c (SolicitadosView.plan gen pedido m).
Proof.
  destruct (Solicitados.payments m) as [|q qs] eqn:E.
  - unfold Solicitados.handleSave. rewrite E. simpl. contradiction.
  - assert (Hne : Solicitados.payments m <> []) by (rewrite E; discriminate).
    rewrite (handleSave_run _ _ _ _ Hne). cbn [snd]. intros H.
    split; [discriminate|]. now apply (attempted_incl st).
Qed.

Lemma combine_seq_snd {A} (l : list A) (i : nat) :
  map snd (combine (seq i (List.length l)) l) = l.
Proof.
  revert i. induction l as [|x l IH]; intro i; simpl; [reflexivity|].
  now rewrite IH.
Qed.

Lemma abonosWritten_app (t1 t2 : Trace) :
  abonosWritten (t1 ++ t2) = abonosWritten t1 ++ abonosWritten t2.
Proof. unfold abonosWritten. apply flat_map_app. Qed.

Lemma abonosWritten_pagoRecords pedido gen (l : list (nat * Solicitados.Payment)) :
  abonosWritten
    (map (fun kp => CreateRecordAsync PAGOS_TABLE_NAME
                      (Solicitados.pagoRecord pedido (gen (fst kp)) (snd kp))) l)
  = map Solicitados.amount (map snd l).
Proof.
  induction l as [|[k p] l IH]; simpl; [reflexivity|]. now rewrite IH.
Qed.

(** X9: [handleSave] with a non-empty queue creates one payment record
    per queued payment, in order, and then updates the status of the
    order, stopping at the first call the base rejects: it succeeds
    exactly when every call is accepted, the status of the order is
    updated only after every payment record was accepted, a failure
    reports the rejected call with every earlier one accepted, and on
    success the "Abono" amounts written are the queued amounts, in
    order. *)
Theorem X9_registration_stops_at_first_failure
        (st : Store) (gen : nat -> string)
        (pedido : Solicitados.Pedido) (m : Solicitados.Modal) :
  Solicitados.payments m <> [] ->
  let p := SolicitadosView.plan gen pedido m in
  let run := Solicitados.handleSave st gen pedido m in
  snd run = attempted st p
  /\ (exists rest, p = snd run ++ rest)
  /\ (forallb (accepts st) p = true <-> fst run = Succeeded tt)
  /\ (forall c, fst run = Failed c ->
        accepts st c = false
        /\ exists before, snd run = before ++ [c]
                          /\ forallb (accepts st) before = true)
  /\ (forall recordId fields,
        In (UpdateRecordAsync PEDIDOS_TABLE_NAME recordId fields) (snd run) ->
        abonosWritten (snd run)
        = map Solicitados.amount (Solicitados.payments m))
  /\ (fst run = Succeeded tt ->
      abonosWritten (snd run) = map Solicitados.amount (Solicitados.payments m)
      /\ Spec.sum (abonosWritten (snd run))
         = Solicitados.addedPaymentsTotal (Solicitados.payments m)).
Proof.
  intros Hne. cbv zeta. rewrite (handleSave_run _ _ _ _ Hne). cbn [fst snd].
  assert (Hfull : abonosWritten (SolicitadosView.plan gen pedido m)
                  = map Solicitados.amount (Solicitados.payments m)).
  { unfold SolicitadosView.plan. cbv zeta.
    rewrite abonosWritten_app, abonosWritten_pagoRecords, combine_seq_snd.
    simpl. now rewrite app_nil_r. }
  split; [reflexivity|].
  split.
  { destruct (attempted_prefix st (SolicitadosView.plan gen pedido m))
      as (rest & Hr & _). now exists rest. }
  split.
  { rewrite <- firstRejected_None.
    destruct (firstRejected st _); split; congruence. }
  split.
  { intros c Hc.
    destruct (firstRejected st _) as [c'|] eqn:E; [|discriminate].
    inversion Hc; subst. now apply firstRejected_last. }
  split.
  { intros recordId fields Hin.
    unfold SolicitadosView.plan in *. cbv zeta in *.
    rewrite attempted_app in *.
    destruct (forallb (accepts st) (map _ _)) eqn:F.
    - rewrite (attempted_all _ _ F) in *.
      rewrite abonosWritten_app, abonosWritten_pagoRecords, combine_seq_snd.
      simpl. destruct (accepts st _); simpl; now rewrite app_nil_r.
    - rewrite app_nil_r in Hin. apply attempted_incl in Hin.
      apply in_map_iff in Hin. destruct Hin as (kp & Hkp & _). discriminate. }
  intros Hs.
  assert (Hall : forallb (accepts st) (SolicitadosView.plan gen pedido m) = true).
  { apply firstRejected_None. destruct (firstRejected st _); congruence. }
  rewrite (attempted_all _ _ Hall), Hfull.
  split; [reflexivity|]. now rewrite addedPaymentsTotal_sum.
Qed.

Lemma X9_registration_stops_at_first_failure_witness :
  let st := openStore allStatuses in
  let m := mkPagar None None [mkPayment "m1" 30; mkPayment "m2" 20] in
  abonosWritten (snd (Solicitados.handleSave st (fun _ => "PAY-1")
                        (mkPedido "recP" (Some 110) None) m)) = [30; 20].
Proof.
  cbv zeta.
  destruct (X9_registration_stops_at_first_failure
              (openStore allStatuses) (fun _ => "PAY-1")
              (mkPedido "recP" (Some 110) None)
              (mkPagar None None [mkPayment "m1" 30; mkPayment "m2" 20]))
    as (_ & _ & _ & _ & _ & H).
  - discriminate.
  - apply H. reflexivity.
Defined.

Lemma solicitados_dispatch_positive metodos pedido m e :
  Forall (fun p => 0 < Solicitados.amount p) (Solicitados.payments m) ->
  Forall (fun p => 0 < Solicitados.amount p)
         (Solicitados.payments (SolicitadosView.dispatch metodos pedido m e)).
Proof.
  intros Hpos. destruct e; simpl; try exact Hpos.
  - unfold SolicitadosView.agregarDisabled.
    destruct (Z.eqb_spec (Solicitados.remaining pedido (Solicitados.payments m)) 0)
      as [|Hrem]; [exact Hpos|].
    unfold Solicitados.handleAddPayment.
    destruct (Solicitados.metodoPagoId m) as [method|]; [|exact Hpos].
    destruct (Solicitados.abono m) as [x|]; [|exact Hpos].
    destruct (negb (JS.truthy method)); simpl; [exact Hpos|].
    destruct (Z.eqb_spec x 0); simpl; [exact Hpos|].
    destruct (Z.leb_spec x 0); simpl; [exact Hpos|].
    apply Forall_app. split; [exact Hpos|]. constructor; [|constructor].
    simpl.
    assert (0 <= Solicitados.remaining pedido (Solicitados.payments m))
      by (unfold Solicitados.remaining; lia).
    destruct (Z.ltb_spec (Solicitados.remaining pedido (Solicitados.payments m)) x);
      lia.
  - now apply filterIndex_Forall.
Qed.

Lemma solicitados_session_positive metodos pedido events :
  Forall (fun p => 0 < Solicitados.amount p)
         (Solicitados.payments (SolicitadosView.session metodos pedido events)).
Proof.
  unfold SolicitadosView.session.
  assert (H0 : Forall (fun p => 0 < Solicitados.amount p)
                 (Solicitados.payments SolicitadosView.initialModal))
    by constructor.
  revert H0. generalize SolicitadosView.initialModal as m0.
  induction events as [|e events IH]; intros m0 H0; simpl; [exact H0|].
  apply IH. now apply solicitados_dispatch_positive.
Qed.

(** X10: whatever the user does in the payment modal (choosing a method,
    typing, adding and removing payments), every queued payment has an
    amount above 0, and the total queued is above 0 as soon as a payment
    is queued. *)
Theorem X10_registration_queue_is_positive
        (metodos : list Solicitados.MetodoPago)
        (pedido : Solicitados.Pedido) (events : list SolicitadosView.Event) :
  let m := SolicitadosView.session metodos pedido events in
  Forall (fun p => 0 < Solicitados.amount p) (Solicitados.payments m)
  /\ (Solicitados.payments m <> [] ->
      0 < Solicitados.addedPaymentsTotal (Solicitados.payments m)).
Proof.
  cbv zeta.
  pose proof (solicitados_session_positive metodos pedido events) as Hpos.
  split; [exact Hpos|]. intros Hne.
  rewrite addedPaymentsTotal_sum. apply sum_pos.
  - apply Forall_map. exact Hpos.
  - intro H. apply map_eq_nil in H. contradiction.
Qed.

Lemma X10_registration_queue_is_positive_witness :
  0 < Solicitados.addedPaymentsTotal
        (Solicitados.payments
           (SolicitadosView.session [] (mkPedido "recP" (Some 50) (Some 20))
              [SolicitadosView.SetMetodoPagoId (Some "m1");
               SolicitadosView.SetAbono (Some 70);
               SolicitadosView.ClickAgregar])).
Proof.
  apply (X10_registration_queue_is_positive []
           (mkPedido "recP" (Some 50) (Some 20))
           [SolicitadosView.SetMetodoPagoId (Some "m1");
            SolicitadosView.SetAbono (Some 70);
            SolicitadosView.ClickAgregar]).
  vm_compute. discriminate.
Defined.

Lemma newStatus_estatus gen pedido m c s :
  In c (SolicitadosView.plan gen pedido m) ->
  In s (estatusWritten c) ->
  s = Solicitados.newStatus
        (Z.max (Solicitados.totalCosto pedido
                - (Solicitados.alreadyPaid pedido
                   + Solicitados.addedPaymentsTotal (Solicitados.payments m))) 0)
        (Solicitados.alreadyPaid pedido
         + Solicitados.addedPaymentsTotal (Solicitados.payments m)).
Proof.
  unfold SolicitadosView.plan. cbv zeta. intros Hc Hs.
  apply in_app_or in Hc. destruct Hc as [Hc|[Hc|[]]].
  - apply in_map_iff in Hc. destruct Hc as (kp & <- & _).
    cbn [estatusWritten] in Hs.
    exfalso. revert Hs. unfold Solicitados.pagoRecord.
    destruct (Solicitados.quienPago (snd kp)) as [[|? ?]|],
             (Solicitados.referencia (snd kp)) as [[|? ?]|],
             (Solicitados.tarjeta (snd kp)) as [[|? ?]|];
      simpl; tauto.
  - subst c. simpl in Hs. destruct Hs as [<-|[]]. reflexivity.
Qed.

(** X11: when the amount already paid is not negative, a payment
    registration prepared in the modal never writes "Pendiente de Pago":
    with newPaidTotal the amount already paid plus the running sum of the
    queued amounts, the status it gives the order is "Pagado" when the
    total of the order is at most newPaidTotal and "Pago Incompleto" when
    it is above. *)
Theorem X11_registration_status_after_session
        (st : Store) (gen : nat -> string)
        (metodos : list Solicitados.MetodoPago)
        (pedido : Solicitados.Pedido) (events : list SolicitadosView.Event)
        (c : StoreCall) (s : string) :
  0 <= JS.or0 (Solicitados.ped_montoCompilacion pedido) ->
  let m := SolicitadosView.session metodos pedido events in
  let newPaidTotal :=
    JS.or0 (Solicitados.ped_montoCompilacion pedido)
    + fold_left (fun sum p => sum + Solicitados.amount p)
                (Solicitados.payments m) 0 in
  let total := JS.or0 (Solicitados.ped_totalCostoPedido pedido) in
  In c (snd (Solicitados.handleSave st gen pedido m)) ->
  In s (estatusWritten c) ->
  0 < newPaidTotal
  /\ ((s = "Pagado" /\ total <= newPaidTotal)
      \/ (s = "Pago Incompleto" /\ newPaidTotal < total)).
Proof.
  intros Hpaid. cbv zeta. intros Hc Hs.
  apply handleSave_trace_in_plan in Hc. destruct Hc as (Hne & Hc).
  rewrite (newStatus_estatus _ _ _ _ _ Hc Hs).
  pose proof (solicitados_session_positive metodos pedido events) as Hpos.
  assert (Hadd : 0 < Solicitados.addedPaymentsTotal
                       (Solicitados.payments
                          (SolicitadosView.session metodos pedido events))).
  { rewrite addedPaymentsTotal_sum. apply sum_pos.
    - apply Forall_map. exact Hpos.
    - intro H. apply map_eq_nil in H. contradiction. }
  unfold Solicitados.alreadyPaid, Solicitados.totalCosto,
    Solicitados.addedPaymentsTotal in *.
  split; [lia|].
  unfold Solicitados.newStatus.
  match goal with |- context [?r <=? 0] => destruct (Z.leb_spec r 0) end.
  - left. split; [reflexivity|]. lia.
  - match goal with |- context [0 <? ?t] => destruct (Z.ltb_spec 0 t) end.
    + right. split; [reflexivity|]. lia.
    + lia.
Qed.

Lemma X11_registration_status_after_session_witness :
  0 < 20 + fold_left (fun sum p => sum + Solicitados.amount p)
             (Solicitados.payments
                (SolicitadosView.session []
                   (mkPedido "recP" (Some 50) (Some 20))
                   [SolicitadosView.SetMetodoPagoId (Some "m1");
                    SolicitadosView.SetAbono (Some 70);
                    SolicitadosView.ClickAgregar])) 0.
Proof.
  apply (X11_registration_status_after_session
           (openStore allStatuses) (fun _ => "PAY-1") []
           (mkPedido "recP" (Some 50) (Some 20))
           [SolicitadosView.SetMetodoPagoId (Some "m1");
            SolicitadosView.SetAbono (Some 70);
            SolicitadosView.ClickAgregar]
           (UpdateRecordAsync PEDIDOS_TABLE_NAME "recP"
              [("Estatus", VSelect "Pagado")])
           "Pagado").
  - vm_compute. discriminate.
  - vm_compute. right. left. reflexivity.
  - simpl. left. reflexivity.
Defined.

(** X12: [handleRemovePayment], in both modals, removes exactly the
    payment at the given index, keeps the others in order and leaves
    every form field as it is, whatever the index; an index beyond the
    queue changes nothing at all; and removing the payment that
    [handleAddPayment] has just appended gives the queue back as it
    was. *)
Theorem X12_remove_payment
        (metodos : list Solicitados.MetodoPago) (pedido : Solicitados.Pedido)
        (m : Solicitados.Modal)
        (group : Confirmados.Group) (c : Confirmados.Modal)
        (answers : Confirmados.Prompts) (index : nat) :
  SolicitadosView.handleRemovePayment index m
  = {| Solicitados.metodoPagoId := Solicitados.metodoPagoId m;
       Solicitados.abono := Solicitados.abono m;
       Solicitados.form_quienPago := Solicitados.form_quienPago m;
       Solicitados.form_referencia := Solicitados.form_referencia m;
       Solicitados.form_tarjeta := Solicitados.form_tarjeta m;
       Solicitados.payments :=
         firstn index (Solicitados.payments m)
         ++ skipn (S index) (Solicitados.payments m) |}
  /\ ConfirmadosView.handleRemovePayment index c
     = {| Confirmados.pedidoNumero := Confirmados.pedidoNumero c;
          Confirmados.pedidoFecha := Confirmados.pedidoFecha c;
          Confirmados.costosAdicionales := Confirmados.costosAdicionales c;
          Confirmados.gastosAdicionales := Confirmados.gastosAdicionales c;
          Confirmados.paymentMethodId := Confirmados.paymentMethodId c;
          Confirmados.paymentAmount := Confirmados.paymentAmount c;
          Confirmados.payments :=
            firstn index (Confirmados.payments c)
            ++ skipn (S index) (Confirmados.payments c) |}
  /\ ((List.length (Solicitados.payments m) <= index)%nat ->
      SolicitadosView.handleRemovePayment index m = m)
  /\ ((List.length (Confirmados.payments c) <= index)%nat ->
      ConfirmadosView.handleRemovePayment index c = c)
  /\ (forall m',
         Solicitados.handleAddPayment metodos pedido m = inl m' ->
         SolicitadosView.handleRemovePayment
           (List.length (Solicitados.payments m)) m'
         = Solicitados.resetForm m)
  /\ (forall c',
         Confirmados.handleAddPayment group c answers = inl c' ->
         Confirmados.payments
           (ConfirmadosView.handleRemovePayment
              (List.length (Confirmados.payments c)) c')
         = Confirmados.payments c
         /\ Confirmados.pedidoNumero
              (ConfirmadosView.handleRemovePayment
                 (List.length (Confirmados.payments c)) c')
            = Confirmados.pedidoNumero c
         /\ Confirmados.costosAdicionales
              (ConfirmadosView.handleRemovePayment
                 (List.length (Confirmados.payments c)) c')
            = Confirmados.costosAdicionales c
         /\ Confirmados.gastosAdicionales
              (ConfirmadosView.handleRemovePayment
                 (List.length (Confirmados.payments c)) c')
            = Confirmados.gastosAdicionales c).
Proof.
  assert (Hout : forall A (l : list A) i, (List.length l <= i)%nat ->
                   firstn i l ++ skipn (S i) l = l).
  { intros A l i Hi. rewrite firstn_all2 by lia.
    rewrite skipn_all2 by lia. apply app_nil_r. }
  assert (Hlast : forall A (l : list A) x,
             firstn (List.length l) (l ++ [x])
             ++ skipn (S (List.length l)) (l ++ [x]) = l).
  { intros A l x.
    rewrite skipn_all2 by (rewrite length_app; simpl; lia).
    rewrite firstn_app, Nat.sub_diag, firstn_all. simpl.
    now rewrite !app_nil_r. }
  repeat apply conj.
  - unfold SolicitadosView.handleRemovePayment. now rewrite removeAt_spec.
  - unfold ConfirmadosView.handleRemovePayment, ConfirmadosView.setPayments.
    now rewrite removeAt_spec.
  - intros Hi. unfold SolicitadosView.handleRemovePayment.
    rewrite removeAt_spec, Hout by exact Hi. now destruct m.
  - intros Hi. unfold ConfirmadosView.handleRemovePayment,
      ConfirmadosView.setPayments.
    rewrite removeAt_spec, Hout by exact Hi. now destruct c.
  - intros m' H. unfold Solicitados.handleAddPayment in H.
    destruct (Solicitados.metodoPagoId m); [|discriminate].
    destruct (Solicitados.abono m); [|discriminate].
    destruct (_ || _); [discriminate|]. inversion H; subst; clear H.
    unfold SolicitadosView.handleRemovePayment, Solicitados.resetForm. simpl.
    now rewrite removeAt_spec, Hlast.
  - intros c' H. unfold Confirmados.handleAddPayment in H.
    destruct (Confirmados.paymentMethodId c); [|discriminate].
    destruct (negb _); [discriminate|].
    destruct (Confirmados.paymentAmount c); [|discriminate].
    destruct (_ || _); [discriminate|]. inversion H; subst; clear H.
    unfold ConfirmadosView.handleRemovePayment. simpl.
    rewrite removeAt_spec, Hlast. repeat split.
Qed.

Lemma X12_remove_payment_witness :
  SolicitadosView.handleRemovePayment 0
    (Solicitados.resetForm
       (mkPagar (Some "m1") (Some 5)
          [Solicitados.newPayment [] (mkPagar (Some "m1") (Some 5) [])
             "m1" 5]))
  = Solicitados.resetForm (mkPagar (Some "m1") (Some 5) []).
Proof.
  destruct (X12_remove_payment []
              (mkPedido "recP" (Some 50) None)
              (mkPagar (Some "m1") (Some 5) [])
              (mkGroup "Otros" [] 50) (mkModal "P-1" None None [])
              {| Confirmados.ask_idPago := ""; Confirmados.ask_fechaPago := "";
                 Confirmados.ask_descripcion := "";
                 Confirmados.ask_notas := "" |} 0)
    as (_ & _ & _ & _ & H & _).
  apply (H (Solicitados.resetForm
              (mkPagar (Some "m1") (Some 5)
                 [Solicitados.newPayment [] (mkPagar (Some "m1") (Some 5) [])
                    "m1" 5]))).
  reflexivity.
Defined.

(** X13: after [handleAddPayment] of the payment modal has queued a
    payment, the form is empty again (no method, no amount, no payer, no
    reference, no card), so that clicking "Agregar pago" once more without
    filling the form is rejected and queues nothing. *)
Theorem X13_form_is_reset_after_add
        (metodos : list Solicitados.MetodoPago) (pedido : Solicitados.Pedido)
        (m m' : Solicitados.Modal) :
  Solicitados.handleAddPayment metodos pedido m = inl m' ->
  Solicitados.metodoPagoId m' = None
  /\ Solicitados.abono m' = None
  /\ Solicitados.form_quienPago m' = None
  /\ Solicitados.form_referencia m' = ""
  /\ Solicitados.form_tarjeta m' = ""
  /\ Solicitados.handleAddPayment metodos pedido m' = inr AlertInvalidPayment
  /\ SolicitadosView.dispatch metodos pedido m' SolicitadosView.ClickAgregar
     = m'.
Proof.
  intros H. unfold Solicitados.handleAddPayment in H.
  destruct (Solicitados.metodoPagoId m); [|discriminate].
  destruct (Solicitados.abono m); [|discriminate].
  destruct (_ || _); [discriminate|]. inversion H; subst; clear H.
  repeat split. simpl.
  destruct (SolicitadosView.agregarDisabled _ _); reflexivity.
Qed.

Lemma X13_form_is_reset_after_add_witness :
  Solicitados.handleAddPayment [] (mkPedido "recP" (Some 50) None)
    (Solicitados.resetForm
       (mkPagar (Some "m1") (Some 5)
          [Solicitados.newPayment [] (mkPagar (Some "m1") (Some 5) [])
             "m1" 5]))
  = inr AlertInvalidPayment.
Proof.
  apply (X13_form_is_reset_after_add []
           (mkPedido "recP" (Some 50) None) (mkPagar (Some "m1") (Some 5) [])).
  reflexivity.
Defined.

(** X14: a row of the tab shows the "Pagar" button exactly when its
    status is not "Pagado" and its total exceeds what was paid; the modal
    it opens then starts with a remaining balance above 0, equal to the
    total minus what was paid, and with "Agregar pago" enabled. *)
Theorem X14_pagar_button_opens_payable_order (p : SolicitadosView.Row) :
  let pedido := SolicitadosView.row_pedido p in
  (SolicitadosView.needsPayment p = true
   <-> SolicitadosView.row_estatus p <> "Pagado"
       /\ Solicitados.alreadyPaid pedido < Solicitados.totalCosto pedido)
  /\ (SolicitadosView.needsPayment p = true ->
      Solicitados.remaining pedido
        (Solicitados.payments SolicitadosView.initialModal)
      = Solicitados.totalCosto pedido - Solicitados.alreadyPaid pedido
      /\ 0 < Solicitados.remaining pedido
               (Solicitados.payments SolicitadosView.initialModal)
      /\ SolicitadosView.agregarDisabled pedido SolicitadosView.initialModal
         = false).
Proof.
  cbv zeta.
  assert (Hiff : SolicitadosView.needsPayment p = true
                 <-> SolicitadosView.row_estatus p <> "Pagado"
                     /\ Solicitados.alreadyPaid (SolicitadosView.row_pedido p)
                        < Solicitados.totalCosto (SolicitadosView.row_pedido p)).
  { unfold SolicitadosView.needsPayment, Solicitados.alreadyPaid,
      Solicitados.totalCosto.
    rewrite andb_true_iff, negb_true_iff, Z.ltb_lt.
    destruct (String.eqb_spec (SolicitadosView.row_estatus p) "Pagado");
      split; intros [H1 H2]; split; try congruence; lia. }
  split; [exact Hiff|].
  intros H. apply Hiff in H. destruct H as (_ & Hlt).
  unfold SolicitadosView.agregarDisabled, Solicitados.remaining.
  change (Solicitados.addedPaymentsTotal
            (Solicitados.payments SolicitadosView.initialModal)) with 0.
  split; [lia|]. split; [lia|]. apply Z.eqb_neq. lia.
Qed.

Lemma X14_pagar_button_opens_payable_order_witness :
  let p := {| SolicitadosView.row_pedido := mkPedido "recP" (Some 50) (Some 20);
              SolicitadosView.row_numero := "P-1";
              SolicitadosView.row_marca := "Andrea";
              SolicitadosView.row_estatus := "Pago Incompleto";
              SolicitadosView.row_fecha := "2024-01-15" |} in
  Solicitados.remaining (SolicitadosView.row_pedido p) [] = 30.
Proof.
  cbv zeta.
  match goal with |- Solicitados.remaining (SolicitadosView.row_pedido ?p) [] = _ =>
    destruct (X14_pagar_button_opens_payable_order p) as (_ & H)
  end.
  destruct H as (H & _); [reflexivity|exact H].
Defined.

(** X15: every status the payment registration writes to an order is one
    of the statuses [SolicitadosWrapper] lists, so that an order stays in
    the tab after a payment was registered on it. *)
Theorem X15_registered_order_stays_listed
        (st : Store) (gen : nat -> string)
        (pedido : Solicitados.Pedido) (m : Solicitados.Modal)
        (c : StoreCall) (s : string)
        (allRecords : list SolicitadosView.Row) (row : SolicitadosView.Row) :
  In c (snd (Solicitados.handleSave st gen pedido m)) ->
  In s (estatusWritten c) ->
  In row allRecords ->
  SolicitadosView.row_estatus row = s ->
  In row (SolicitadosView.solicitados allRecords).
Proof.
  intros Hc Hs Hin Hrow.
  apply handleSave_trace_in_plan in Hc. destruct Hc as (_ & Hc).
  rewrite (newStatus_estatus _ _ _ _ _ Hc Hs) in Hrow.
  unfold SolicitadosView.solicitados. apply filter_In.
  split; [exact Hin|]. rewrite Hrow.
  unfold Solicitados.newStatus.
  destruct (_ <=? 0); [reflexivity|]. destruct (0 <? _); reflexivity.
Qed.

Lemma X15_registered_order_stays_listed_witness :
  let row := {| SolicitadosView.row_pedido := mkPedido "recP" (Some 50) None;
                SolicitadosView.row_numero := "P-1";
                SolicitadosView.row_marca := "Andrea";
                SolicitadosView.row_estatus := "Pagado";
                SolicitadosView.row_fecha := "2024-01-15" |} in
  In row (SolicitadosView.solicitados [row]).
Proof.
  cbv zeta.
  apply (X15_registered_order_stays_listed
           (openStore allStatuses) (fun _ => "PAY-1")
           (mkPedido "recP" (Some 50) None)
           (mkPagar None None [mkPayment "m1" 50])
           (UpdateRecordAsync PEDIDOS_TABLE_NAME "recP"
              [("Estatus", VSelect "Pagado")])
           "Pagado").
  - vm_compute. right. left. reflexivity.
  - simpl. left. reflexivity.
  - left. reflexivity.
  - reflexivity.
Defined.

(* ------------------------------------------------------------------ *)
(** ** The filters of the "Solicitados" tab *)

Lemma fold_setAdd (l seen : list string) :
  fold_left setAdd l seen = seen ++ firstSeen seen l.
Proof.
  revert seen. induction l as [|x l IH]; intro seen; simpl.
  - now rewrite app_nil_r.
  - unfold setAdd at 2. destruct (JS.includes seen x).
    + apply IH.
    + rewrite IH, <- app_assoc. reflexivity.
Qed.

Lemma firstSeen_In (l seen : list string) (y : string) :
  In y (firstSeen seen l) <-> In y l /\ ~ In y seen.
Proof.
  revert seen. induction l as [|x l IH]; intro seen; simpl.
  - tauto.
  - destruct (JS.includes seen x) eqn:E.
    + apply includes_In in E. rewrite IH. split.
      * intros [H1 H2]. auto.
      * intros [[->|H1] H2]; [contradiction|auto].
    + assert (Hx : ~ In x seen).
      { intro H. apply includes_In in H. congruence. }
      simpl. rewrite IH, in_app_iff. simpl. split.
      * intros [<-|[H1 H2]]; [auto|]. split; [auto|tauto].
      * intros [[<-|H1] H2]; [now left|].
        destruct (string_dec x y) as [->|Hne]; [now left|].
        right. split; [exact H1|]. intros [H|[H|[]]]; auto.
Qed.

Lemma firstSeen_NoDup (l seen : list string) : NoDup (firstSeen seen l).
Proof.
  revert seen. induction l as [|x l IH]; intro seen; simpl.
  - constructor.
  - destruct (JS.includes seen x); [apply IH|].
    constructor; [|apply IH].
    rewrite firstSeen_In, in_app_iff. simpl. tauto.
Qed.

(** A [forEach] that adds an optional value of each row to a [Set]
    collects the first occurrences of the values. *)
Lemma collect_firstSeen {A} (g : A -> option string) (ps : list A)
      (step : list string -> A -> list string) :
  (forall values p,
      step values p = match g p with
                      | Some v => setAdd values v
                      | None => values
                      end) ->
  forall seen,
    fold_left step ps seen
    = seen ++ firstSeen seen
                (flat_map (fun p => match g p with
                                    | Some v => [v]
                                    | None => []
                                    end) ps).
Proof.
  intros Hstep. induction ps as [|p ps IH]; intro seen; simpl.
  - now rewrite app_nil_r.
  - rewrite IH, Hstep. destruct (g p) as [v|]; simpl; [|reflexivity].
    unfold setAdd. destruct (JS.includes seen v); [reflexivity|].
    now rewrite <- app_assoc.
Qed.

Lemma in_optional {A} (g : A -> option string) (ps : list A) (v : string) :
  In v (flat_map (fun p => match g p with
                           | Some v => [v]
                           | None => []
                           end) ps)
  <-> exists p, In p ps /\ g p = Some v.
Proof.
  rewrite in_flat_map. split; intros (p & Hp & H); exists p; split; auto.
  - destruct (g p) as [w|]; simpl in H; [|contradiction].
    destruct H as [->|[]]. reflexivity.
  - rewrite H. now left.
Qed.

Lemma monthVal_truthy (fechaStr v : string) :
  SolicitadosView.monthVal fechaStr = Some v -> JS.truthy v = true.
Proof.
  unfold SolicitadosView.monthVal.
  destruct fechaStr as [|ch rest]; simpl; [discriminate|].
  intros H. inversion H. reflexivity.
Qed.

Lemma uniqueEstatus_firstSeen pedidos :
  SolicitadosView.uniqueEstatus pedidos
  = firstSeen []
      (flat_map (fun p => match (if JS.truthy (SolicitadosView.row_estatus p)
                                 then Some (SolicitadosView.row_estatus p)
                                 else None) with
                          | Some v => [v]
                          | None => []
                          end) pedidos).
Proof.
  unfold SolicitadosView.uniqueEstatus.
  rewrite (collect_firstSeen
             (fun p => if JS.truthy (SolicitadosView.row_estatus p)
                       then Some (SolicitadosView.row_estatus p) else None)).
  - reflexivity.
  - intros values p. cbv zeta.
    destruct (JS.truthy (SolicitadosView.row_estatus p)); reflexivity.
Qed.

Lemma uniqueMarcas_firstSeen pedidos :
  SolicitadosView.uniqueMarcas pedidos
  = firstSeen []
      (flat_map (fun p => match (if JS.truthy (SolicitadosView.row_marca p)
                                 then Some (SolicitadosView.row_marca p)
                                 else None) with
                          | Some v => [v]
                          | None => []
                          end) pedidos).
Proof.
  unfold SolicitadosView.uniqueMarcas.
  rewrite (collect_firstSeen
             (fun p => if JS.truthy (SolicitadosView.row_marca p)
                       then Some (SolicitadosView.row_marca p) else None)).
  - reflexivity.
  - intros values p. cbv zeta.
    destruct (JS.truthy (SolicitadosView.row_marca p)); reflexivity.
Qed.

Lemma uniqueMonths_firstSeen pedidos :
  SolicitadosView.uniqueMonths pedidos
  = firstSeen []
      (flat_map (fun p =>
                   match SolicitadosView.monthVal (SolicitadosView.row_fecha p) with
                   | Some v => [v]
                   | None => []
                   end) pedidos).
Proof.
  unfold SolicitadosView.uniqueMonths.
  rewrite (collect_firstSeen
             (fun p => SolicitadosView.monthVal (SolicitadosView.row_fecha p))).
  - reflexivity.
  - intros values p.
    destruct (SolicitadosView.monthVal _) as [v|] eqn:E; [|reflexivity].
    now rewrite (monthVal_truthy _ _ E).
Qed.

Lemma uniqueEstatus_In pedidos v :
  In v (SolicitadosView.uniqueEstatus pedidos)
  <-> v <> "" /\ exists p, In p pedidos /\ SolicitadosView.row_estatus p = v.
Proof.
  rewrite uniqueEstatus_firstSeen, firstSeen_In, in_optional. split.
  - intros [(p & Hp & H) _].
    destruct (JS.truthy (SolicitadosView.row_estatus p)) eqn:E;
      [|discriminate]. inversion H; subst.
    split; [|eauto]. intro Hc. rewrite Hc in E. discriminate.
  - intros (Hne & p & Hp & <-). split; [|tauto]. exists p.
    split; [exact Hp|].
    destruct (SolicitadosView.row_estatus p); [congruence|reflexivity].
Qed.

Lemma uniqueMarcas_In pedidos v :
  In v (SolicitadosView.uniqueMarcas pedidos)
  <-> v <> "" /\ exists p, In p pedidos /\ SolicitadosView.row_marca p = v.
Proof.
  rewrite uniqueMarcas_firstSeen, firstSeen_In, in_optional. split.
  - intros [(p & Hp & H) _].
    destruct (JS.truthy (SolicitadosView.row_marca p)) eqn:E;
      [|discriminate]. inversion H; subst.
    split; [|eauto]. intro Hc. rewrite Hc in E. discriminate.
  - intros (Hne & p & Hp & <-). split; [|tauto]. exists p.
    split; [exact Hp|].
    destruct (SolicitadosView.row_marca p); [congruence|reflexivity].
Qed.

Lemma uniqueMonths_In pedidos v :
  In v (SolicitadosView.uniqueMonths pedidos)
  <-> exists p, In p pedidos
                /\ SolicitadosView.monthVal (SolicitadosView.row_fecha p)
                   = Some v.
Proof.
  rewrite uniqueMonths_firstSeen, firstSeen_In, in_optional. tauto.
Qed.

Lemma monthVal_Some (fechaStr v : string) :
  SolicitadosView.monthVal fechaStr = Some v
  <-> fechaStr <> "" /\ substring 0 7 fechaStr = v.
Proof.
  unfold SolicitadosView.monthVal.
  destruct fechaStr as [|ch rest]; simpl.
  - split; [discriminate|]. intros [H _]. congruence.
  - split.
    + intros H. inversion H. split; [discriminate|reflexivity].
    + intros [_ <-]. reflexivity.
Qed.

(** X16: the options of the three filters of the tab hold no duplicate
    and no empty value, and hold exactly the values that occur: a status
    (a brand) is offered exactly when some order has it, and a month
    exactly when it is the first seven characters of the date of some
    order. *)
Theorem X16_filter_options (pedidos : list SolicitadosView.Row) :
  NoDup (SolicitadosView.uniqueEstatus pedidos)
  /\ NoDup (SolicitadosView.uniqueMonths pedidos)
  /\ NoDup (SolicitadosView.uniqueMarcas pedidos)
  /\ (forall v, In v (SolicitadosView.uniqueEstatus pedidos)
                <-> v <> "" /\ exists p, In p pedidos
                                         /\ SolicitadosView.row_estatus p = v)
  /\ (forall v, In v (SolicitadosView.uniqueMarcas pedidos)
                <-> v <> "" /\ exists p, In p pedidos
                                         /\ SolicitadosView.row_marca p = v)
  /\ (forall v, In v (SolicitadosView.uniqueMonths pedidos)
                <-> v <> ""
                    /\ exists p, In p pedidos
                                 /\ SolicitadosView.row_fecha p <> ""
                                 /\ substring 0 7 (SolicitadosView.row_fecha p)
                                    = v).
Proof.
  repeat apply conj.
  - rewrite uniqueEstatus_firstSeen. apply firstSeen_NoDup.
  - rewrite uniqueMonths_firstSeen. apply firstSeen_NoDup.
  - rewrite uniqueMarcas_firstSeen. apply firstSeen_NoDup.
  - apply uniqueEstatus_In.
  - apply uniqueMarcas_In.
  - intros v. rewrite uniqueMonths_In. split.
    + intros (p & Hp & H). pose proof (monthVal_truthy _ _ H) as Ht.
      split; [intro Hc; rewrite Hc in Ht; discriminate|].
      exists p. split; [exact Hp|]. now apply monthVal_Some.
    + intros (_ & p & Hp & H). exists p. split; [exact Hp|].
      now apply monthVal_Some.
Qed.

Lemma matchesFilters_true f p :
  SolicitadosView.matchesFilters f p = true
  <-> (SolicitadosView.estatusFilter f = "all"
       \/ SolicitadosView.row_estatus p = SolicitadosView.estatusFilter f)
      /\ (SolicitadosView.monthFilter f = "all"
          \/ SolicitadosView.monthVal (SolicitadosView.row_fecha p)
             = Some (SolicitadosView.monthFilter f))
      /\ (SolicitadosView.marcaFilter f = "all"
          \/ SolicitadosView.row_marca p = SolicitadosView.marcaFilter f).
Proof.
  unfold SolicitadosView.matchesFilters. cbv zeta.
  rewrite !andb_true_iff, !orb_true_iff, !String.eqb_eq.
  destruct (SolicitadosView.monthVal (SolicitadosView.row_fecha p)) as [v|].
  - rewrite String.eqb_eq. split.
    + intros [[H1 [H2|H2]] H3]; repeat split; auto. right. now subst.
    + intros (H1 & [H2|H2] & H3); repeat split; auto. right. congruence.
  - split.
    + intros [[H1 [H2|H2]] H3]; [auto|discriminate].
    + intros (H1 & [H2|H2] & H3); [auto|discriminate].
Qed.

(** X17: with the three filters on "all" the tab lists every order; an
    order that is listed satisfies each filter that is not on "all"; and
    each option offered by a filter, chosen with the other two on "all",
    lists at least one order. *)
Theorem X17_filtered_orders (pedidos : list SolicitadosView.Row) :
  SolicitadosView.filteredPedidos pedidos SolicitadosView.initialFilters
  = pedidos
  /\ (forall f p,
         In p (SolicitadosView.filteredPedidos pedidos f) ->
         In p pedidos
         /\ (SolicitadosView.estatusFilter f <> "all" ->
             SolicitadosView.row_estatus p = SolicitadosView.estatusFilter f)
         /\ (SolicitadosView.monthFilter f <> "all" ->
             SolicitadosView.monthVal (SolicitadosView.row_fecha p)
             = Some (SolicitadosView.monthFilter f))
         /\ (SolicitadosView.marcaFilter f <> "all" ->
             SolicitadosView.row_marca p = SolicitadosView.marcaFilter f))
  /\ (forall v, In v (SolicitadosView.uniqueEstatus pedidos) ->
        SolicitadosView.filteredPedidos pedidos
          {| SolicitadosView.estatusFilter := v;
             SolicitadosView.monthFilter := "all";
             SolicitadosView.marcaFilter := "all" |} <> [])
  /\ (forall v, In v (SolicitadosView.uniqueMonths pedidos) ->
        SolicitadosView.filteredPedidos pedidos
          {| SolicitadosView.estatusFilter := "all";
             SolicitadosView.monthFilter := v;
             SolicitadosView.marcaFilter := "all" |} <> [])
  /\ (forall v, In v (SolicitadosView.uniqueMarcas pedidos) ->
        SolicitadosView.filteredPedidos pedidos
          {| SolicitadosView.estatusFilter := "all";
             SolicitadosView.monthFilter := "all";
             SolicitadosView.marcaFilter := v |} <> []).
Proof.
  assert (Hne : forall f p, In p pedidos ->
                  SolicitadosView.matchesFilters f p = true ->
                  SolicitadosView.filteredPedidos pedidos f <> []).
  { intros f p Hp Hm Hc.
    assert (Hin : In p (SolicitadosView.filteredPedidos pedidos f))
      by (apply filter_In; auto).
    rewrite Hc in Hin. contradiction. }
  repeat apply conj.
  - unfold SolicitadosView.filteredPedidos. clear Hne.
    induction pedidos as [|p ps IH]; simpl; [reflexivity|]. now rewrite IH.
  - intros f p Hin. apply filter_In in Hin. destruct Hin as (Hp & Hm).
    apply matchesFilters_true in Hm. destruct Hm as (H1 & H2 & H3).
    split; [exact Hp|]. repeat split; intro Hn; tauto.
  - intros v Hv. apply uniqueEstatus_In in Hv.
    destruct Hv as (_ & p & Hp & He).
    apply (Hne _ p Hp). apply matchesFilters_true. simpl. auto.
  - intros v Hv. apply uniqueMonths_In in Hv. destruct Hv as (p & Hp & He).
    apply (Hne _ p Hp). apply matchesFilters_true. simpl. auto.
  - intros v Hv. apply uniqueMarcas_In in Hv.
    destruct Hv as (_ & p & Hp & He).
    apply (Hne _ p Hp). apply matchesFilters_true. simpl. auto.
Qed.

Lemma X17_filtered_orders_witness :
  let row := {| SolicitadosView.row_pedido := mkPedido "recP" (Some 50) None;
                SolicitadosView.row_numero := "P-1";
                SolicitadosView.row_marca := "Andrea";
                SolicitadosView.row_estatus := "Pagado";
                SolicitadosView.row_fecha := "2024-01-15" |} in
  SolicitadosView.filteredPedidos [row]
    {| SolicitadosView.estatusFilter := "all";
       SolicitadosView.monthFilter := "2024-01";
       SolicitadosView.marcaFilter := "all" |} <> [].
Proof.
  cbv zeta.
  match goal with |- SolicitadosView.filteredPedidos ?l _ <> [] =>
    destruct (X17_filtered_orders l) as (_ & _ & _ & H & _)
  end.
  apply H. simpl. left. reflexivity.
Defined.

(* ------------------------------------------------------------------ *)
(** ** The selection summary *)

Lemma filter_partition_perm {A} (f : A -> bool) (l : list A) :
  Permutation (filter f l ++ filter (fun x => negb (f x)) l) l.
Proof.
  induction l as [|x l IH]; simpl; [constructor|].
  destruct (f x); simpl.
  - now constructor.
  - apply Permutation_sym. apply Permutation_cons_app.
    now apply Permutation_sym.
Qed.

Lemma handleConfirmSelection_success st timestamp s info :
  fst (snd (SelectionSummaryView.handleConfirmSelection st timestamp s))
  = Succeeded info ->
  SelectionSummaryView.info_count info
  = List.length (SelectionSummaryView.openRecords s)
  /\ SelectionSummaryView.info_totalCost info
     = SelectionSummaryView.totalCost s.
Proof.
  unfold SelectionSummaryView.handleConfirmSelection.
  destruct (SelectionSummaryView.openRecords s) as [|r rs] eqn:E;
    [discriminate|]. cbn [fst snd].
  unfold tryCatch, SelectionSummaryView.confirmWrites, bind,
    updateRecordsAsync, issue, ret.
  destruct (accepts st _); cbn [fst snd]; [|discriminate].
  intros H. inversion H; subst info; clear H. cbn.
  rewrite length_map, E. split; reflexivity.
Qed.

(** X18: the summary splits the visible records in two: the records to
    confirm are exactly those in status "Abierto", the blocked ones
    exactly the others, together they are the visible records and their
    numbers add up; the total cost is the sum of the costs of the records
    to confirm only, an empty cost counting as 0. *)
Theorem X18_summary_splits_selection (visible : list Linea) :
  let s := SelectionSummaryView.summary visible in
  Permutation (SelectionSummaryView.openRecords s
               ++ SelectionSummaryView.nonOpenRecords s) visible
  /\ (SelectionSummaryView.count s
      + List.length (SelectionSummaryView.nonOpenRecords s)
      = List.length visible)%nat
  /\ SelectionSummaryView.count s
     = List.length (SelectionSummaryView.openRecords s)
  /\ (forall r, In r (SelectionSummaryView.openRecords s)
                <-> In r visible /\ lin_estatus r = "Abierto")
  /\ (forall r, In r (SelectionSummaryView.nonOpenRecords s)
                <-> In r visible /\ lin_estatus r <> "Abierto")
  /\ SelectionSummaryView.totalCost s
     = sumCosto (SelectionSummaryView.openRecords s).
Proof.
  cbv zeta. unfold SelectionSummaryView.summary. simpl.
  pose proof (filter_partition_perm SelectionSummaryView.isAbierto visible)
    as Hperm.
  repeat apply conj.
  - exact Hperm.
  - rewrite <- length_app. now apply Permutation_length.
  - reflexivity.
  - intros r. rewrite filter_In. unfold SelectionSummaryView.isAbierto.
    now rewrite String.eqb_eq.
  - intros r. rewrite filter_In. unfold SelectionSummaryView.isAbierto.
    rewrite negb_true_iff, String.eqb_neq. reflexivity.
  - unfold sumCosto. apply reduce_sum.
Qed.

(** X19: confirming a selection only ever writes to selected lines in
    status "Abierto", and only the status "Confirmar y Monitorear"; with
    no such line it ends with the alert that counts the blocked lines and
    writes nothing; otherwise it warns exactly when some selected line is
    blocked, issues one batch update of the open lines in order, and on
    success reports their number and their total cost. *)
Theorem X19_selection_confirms_open_lines_only
        (st : Store) (timestamp : string)
        (selectedRecords : list Linea) (selectedRecordIds : list string) :
  let visible :=
    SelectionSummaryView.visibleRecords selectedRecords selectedRecordIds in
  let s := SelectionSummaryView.summary visible in
  let run := SelectionSummaryView.handleConfirmSelection st timestamp s in
  (forall c recordId,
      In c (snd (snd run)) -> In recordId (updatedIds c) ->
      In recordId selectedRecordIds
      /\ exists r, In r selectedRecords /\ lin_id r = recordId
                   /\ lin_estatus r = "Abierto")
  /\ (forall c status,
         In c (snd (snd run)) -> In status (estatusWritten c) ->
         status = "Confirmar y Monitorear")
  /\ (SelectionSummaryView.openRecords s = [] ->
      run = (None,
             (Rejected (AlertNoAbierto
                          (List.length (SelectionSummaryView.nonOpenRecords s))),
              [])))
  /\ (SelectionSummaryView.openRecords s <> [] ->
      (fst run = None <-> SelectionSummaryView.nonOpenRecords s = [])
      /\ (SelectionSummaryView.nonOpenRecords s <> [] ->
          fst run = Some (AlertWillSkip
                            (List.length
                               (SelectionSummaryView.nonOpenRecords s))))
      /\ exists updates,
           snd (snd run) = [UpdateRecordsAsync LPO_TABLE_NAME updates]
           /\ map fst updates
              = map lin_id (SelectionSummaryView.openRecords s))
  /\ (forall info,
         fst (snd run) = Succeeded info ->
         SelectionSummaryView.info_count info = SelectionSummaryView.count s
         /\ SelectionSummaryView.info_totalCost info
            = sumCosto (SelectionSummaryView.openRecords s)).
Proof.
  cbv zeta.
  set (visible := SelectionSummaryView.visibleRecords selectedRecords
                    selectedRecordIds).
  set (s := SelectionSummaryView.summary visible).
  assert (Htrace : forall c,
             In c (snd (snd (SelectionSummaryView.handleConfirmSelection
                               st timestamp s))) ->
             c = UpdateRecordsAsync LPO_TABLE_NAME
                   (map (SelectionSummaryView.lineaUpdate timestamp)
                        (SelectionSummaryView.openRecords s))).
  { intros c Hc.
    destruct (SelectionSummaryView.openRecords s) as [|r rs] eqn:E.
    - unfold SelectionSummaryView.handleConfirmSelection in Hc.
      rewrite E in Hc. contradiction.
    - rewrite handleConfirmSelection_trace in Hc by (rewrite E; discriminate).
      rewrite E in Hc. destruct Hc as [<-|[]]. reflexivity. }
  assert (Hopen : forall r, In r (SelectionSummaryView.openRecords s) ->
                    In r selectedRecords
                    /\ In (lin_id r) selectedRecordIds
                    /\ lin_estatus r = "Abierto").
  { intros r Hr. subst s. unfold SelectionSummaryView.summary in Hr.
    simpl in Hr. apply filter_In in Hr. destruct Hr as (Hv & Ha).
    subst visible. unfold SelectionSummaryView.visibleRecords in Hv.
    apply filter_In in Hv. destruct Hv as (Hs & Hi).
    apply includes_In in Hi. apply String.eqb_eq in Ha. auto. }
  repeat apply conj.
  - intros c recordId Hc Hid. rewrite (Htrace c Hc) in Hid. simpl in Hid.
    rewrite map_map in Hid. apply in_map_iff in Hid.
    destruct Hid as (r & <- & Hr). destruct (Hopen r Hr) as (H1 & H2 & H3).
    split; [exact H2|]. exists r. auto.
  - intros c status Hc Hs. rewrite (Htrace c Hc) in Hs. simpl in Hs.
    apply in_flat_map in Hs. destruct Hs as (u & Hu & Hs).
    apply in_map_iff in Hu. destruct Hu as (r & <- & _).
    simpl in Hs. destruct Hs as [<-|[]]. reflexivity.
  - intros E. unfold SelectionSummaryView.handleConfirmSelection.
    now rewrite E.
  - intros Hne. split; [|split].
    + unfold SelectionSummaryView.handleConfirmSelection.
      destruct (SelectionSummaryView.openRecords s); [congruence|].
      cbn [fst snd].
      destruct (SelectionSummaryView.nonOpenRecords s); split; intro H;
        try reflexivity; discriminate H.
    + intros Hb. unfold SelectionSummaryView.handleConfirmSelection.
      destruct (SelectionSummaryView.openRecords s); [congruence|].
      cbn [fst snd].
      destruct (SelectionSummaryView.nonOpenRecords s); [congruence|].
      reflexivity.
    + eexists. split; [now apply handleConfirmSelection_trace|].
      rewrite map_map. reflexivity.
  - intros info Hinfo.
    destruct (handleConfirmSelection_success _ _ _ _ Hinfo) as (H1 & H2).
    rewrite H1, H2. split; [reflexivity|].
    unfold sumCosto. apply reduce_sum.
Qed.

Lemma X19_selection_confirms_open_lines_only_witness :
  let lines := [mkLinea "rec1" "Abierto" "" "Otros" (Some 5);
                mkLinea "rec2" "Pagado" "" "Otros" (Some 7)] in
  SelectionSummaryView.handleConfirmSelection (openStore allStatuses)
    "2024-01-01T00:00:00.000Z"
    (SelectionSummaryView.summary
       (SelectionSummaryView.visibleRecords lines ["rec2"]))
  = (None, (Rejected (AlertNoAbierto 1), [])).
Proof.
  cbv zeta.
  destruct (X19_selection_confirms_open_lines_only
              (openStore allStatuses) "2024-01-01T00:00:00.000Z"
              [mkLinea "rec1" "Abierto" "" "Otros" (Some 5);
               mkLinea "rec2" "Pagado" "" "Otros" (Some 7)] ["rec2"])
    as (_ & _ & H & _).
  apply H. reflexivity.
Defined.

(* ------------------------------------------------------------------ *)
(** ** The status history *)

Lemma startsWith_append (p s : string) : startsWith p (p +++ s) = true.
Proof.
  induction p as [|a p IH]; simpl; [reflexivity|].
  now rewrite Ascii.eqb_refl, IH.
Qed.

Lemma historial_cases (record : Linea) (entry : string) :
  (lin_historial record = "" -> historial record entry = entry)
  /\ (lin_historial record <> "" ->
      historial record entry
      = lin_historial record +++ JS.newline +++ entry)
  /\ startsWith (lin_historial record) (historial record entry) = true.
Proof.
  unfold historial, JS.orStr.
  destruct (lin_historial record) as [|a h] eqn:E; simpl.
  - repeat split; congruence.
  - repeat split; try congruence.
    rewrite Ascii.eqb_refl. apply startsWith_append.
Qed.

(** X20: the status history is only ever appended to: the "Historial de
    Estatus" written for a line, by the selection confirmation and by the
    settlement alike, starts with the history the line had; it is the new
    entry alone when the line had none, and otherwise the old history, a
    line feed and the new entry. *)
Theorem X20_history_is_appended
        (m : Confirmados.Modal) (timestamp status : string) (record : Linea) :
  let confirmEntry := timestamp +++ " - Confirmar y Monitorear" in
  let settleEntry :=
    timestamp +++ " - Asignado No. de Pedido "
    +++ JS.trim (Confirmados.pedidoNumero m)
    +++ " y cambiado a " +++ status in
  let written entry :=
    if JS.truthy (lin_historial record)
    then lin_historial record +++ JS.newline +++ entry
    else entry in
  fieldOf "Historial de Estatus"
    (snd (SelectionSummaryView.lineaUpdate timestamp record))
  = Some (VString (written confirmEntry))
  /\ fieldOf "Historial de Estatus"
       (snd (Confirmados.lineaUpdate m timestamp status record))
     = Some (VString (written settleEntry))
  /\ startsWith (lin_historial record) (written confirmEntry) = true
  /\ startsWith (lin_historial record) (written settleEntry) = true.
Proof.
  cbv zeta.
  assert (Hw : forall entry,
             historial record entry
             = if JS.truthy (lin_historial record)
               then lin_historial record +++ JS.newline +++ entry
               else entry).
  { intros entry. destruct (historial_cases record entry) as (H1 & H2 & _).
    destruct (lin_historial record) as [|a h] eqn:E; simpl.
    - now apply H1.
    - apply H2. discriminate. }
  repeat apply conj.
  - simpl. now rewrite Hw.
  - simpl. now rewrite Hw.
  - rewrite <- Hw. apply historial_cases.
  - rewrite <- Hw. apply historial_cases.
Qed.

(* ------------------------------------------------------------------ *)
(** ** Order and shape of the groups *)

Section GroupShape.

Import Confirmados.

Lemma modify_app_fresh key f gs g :
  ~ In key (map fst gs) ->
  modify key f (gs ++ [(key, g)]) = gs ++ [(key, f g)].
Proof.
  induction gs as [|[k h] gs IH]; simpl; intros Hout.
  - now rewrite String.eqb_refl.
  - destruct (String.eqb_spec k key) as [->|Hne]; [tauto|].
    rewrite IH by tauto. reflexivity.
Qed.

Lemma groupStep_cases gs record :
  (In (recordKey record) (map fst gs)
   /\ groupStep gs record = modify (recordKey record) (addRecord record) gs)
  \/ (~ In (recordKey record) (map fst gs)
      /\ groupStep gs record
         = gs ++ [(recordKey record,
                   {| pedidoNum := recordPedidoNum record;
                      linea := lin_linea record;
                      records := [record];
                      totalCosto := 0 + JS.or0 (lin_costo record) |})]).
Proof.
  unfold groupStep. fold (recordKey record).
  destruct (lookup (recordKey record) gs) eqn:E.
  - left. split; [|reflexivity].
    destruct (in_dec string_dec (recordKey record) (map fst gs)) as [H|H];
      [exact H|]. apply lookup_None in H. congruence.
  - right. apply lookup_None in E. split; [exact E|].
    now rewrite modify_app_fresh.
Qed.

Lemma groupStep_keys gs record :
  map fst (groupStep gs record) = setAdd (map fst gs) (recordKey record).
Proof.
  unfold setAdd.
  destruct (groupStep_cases gs record) as [(Hin & ->)|(Hout & ->)].
  - rewrite modify_keys. apply includes_In in Hin. now rewrite Hin.
  - rewrite map_app. simpl.
    destruct (JS.includes (map fst gs) (recordKey record)) eqn:E;
      [|reflexivity]. apply includes_In in E. contradiction.
Qed.

Lemma recordsByPedido_keys (lines : list Linea) :
  map fst (recordsByPedido lines) = firstSeen [] (map recordKey lines).
Proof.
  unfold recordsByPedido.
  assert (H : forall gs,
             map fst (fold_left groupStep lines gs)
             = fold_left setAdd (map recordKey lines) (map fst gs)).
  { induction lines as [|r lines IH]; intro gs; simpl; [reflexivity|].
    now rewrite IH, groupStep_keys. }
  rewrite H, fold_setAdd. reflexivity.
Qed.

Lemma filter_none {A} (f : A -> bool) (l : list A) :
  (forall x, In x l -> f x = false) -> filter f l = [].
Proof.
  induction l as [|x l IH]; simpl; intros H; [reflexivity|].
  rewrite (H x) by now left. apply IH. intros y Hy. apply H. now right.
Qed.

Lemma filter_snoc {A} (f : A -> bool) (l : list A) (x : A) :
  filter f (l ++ [x]) = filter f l ++ (if f x then [x] else []).
Proof. rewrite filter_app. simpl. now destruct (f x). Qed.

Lemma keyIs_true key r : keyIs key r = true <-> recordKey r = key.
Proof. unfold keyIs. apply String.eqb_eq. Qed.

Lemma keyIs_false key r : keyIs key r = false <-> recordKey r <> key.
Proof. unfold keyIs. apply String.eqb_neq. Qed.

Lemma modify_filter record gs ls :
  NoDup (map fst gs) ->
  Forall (fun kg => records (snd kg) = filter (keyIs (fst kg)) ls) gs ->
  Forall (fun kg => records (snd kg)
                    = filter (keyIs (fst kg)) (ls ++ [record]))
         (modify (recordKey record) (addRecord record) gs).
Proof.
  induction gs as [|[k g] gs IH]; simpl; intros Hnd Hall; [constructor|].
  inversion Hnd as [|? ? Hout Hnd']; subst.
  inversion Hall as [|? ? Hg Hrest]; subst. simpl in Hg.
  destruct (String.eqb_spec k (recordKey record)) as [->|Hne].
  - constructor.
    + simpl. rewrite filter_snoc, Hg.
      now rewrite (proj2 (keyIs_true _ _) eq_refl).
    + rewrite Forall_forall in *. intros [k' g'] Hin. simpl.
      rewrite filter_snoc.
      assert (Hk : recordKey record <> k').
      { intros <-. apply Hout.
        change (recordKey record) with (fst (recordKey record, g')).
        now apply in_map. }
      rewrite (proj2 (keyIs_false _ _) Hk), app_nil_r.
      now apply (Hrest (k', g')).
  - constructor; [|now apply IH].
    simpl. rewrite filter_snoc, Hg.
    assert (Hk : recordKey record <> k) by congruence.
    now rewrite (proj2 (keyIs_false _ _) Hk), app_nil_r.
Qed.

Lemma groupStep_shape gs ls record :
  NoDup (map fst gs) ->
  Forall (fun r => In (recordKey r) (map fst gs)) ls ->
  Forall (fun kg => records (snd kg) = filter (keyIs (fst kg)) ls) gs ->
  Forall headIs gs ->
  Forall (fun r => In (recordKey r) (map fst (groupStep gs record)))
         (ls ++ [record])
  /\ Forall (fun kg => records (snd kg)
                       = filter (keyIs (fst kg)) (ls ++ [record]))
            (groupStep gs record)
  /\ Forall headIs (groupStep gs record).
Proof.
  intros Hnd Hknown Hmem Hhead.
  assert (Hkeys : forall k, In k (map fst gs) ->
                    In k (map fst (groupStep gs record))).
  { intros k Hk. rewrite groupStep_keys. unfold setAdd.
    destruct (JS.includes _ _); [exact Hk|]. apply in_or_app. now left. }
  split; [|split].
  - apply Forall_app. split.
    + eapply Forall_impl; [|exact Hknown]. intros r Hr. now apply Hkeys.
    + constructor; [|constructor]. rewrite groupStep_keys. unfold setAdd.
      destruct (JS.includes _ _) eqn:E; [now apply includes_In|].
      apply in_or_app. right. now left.
  - destruct (groupStep_cases gs record) as [(Hin & ->)|(Hout & ->)].
    + now apply modify_filter.
    + apply Forall_app. split.
      * rewrite Forall_forall in *. intros [k g] Hin.
        pose proof (Hmem _ Hin) as Hg. simpl in Hg. simpl.
        rewrite filter_snoc, Hg.
        assert (Hk : recordKey record <> k).
        { intros <-. apply Hout.
          change (recordKey record) with (fst (recordKey record, g)).
          now apply in_map. }
        now rewrite (proj2 (keyIs_false _ _) Hk), app_nil_r.
      * constructor; [|constructor]. simpl.
        rewrite filter_snoc, (proj2 (keyIs_true _ _) eq_refl).
        rewrite filter_none; [reflexivity|].
        intros x Hx. rewrite Forall_forall in Hknown.
        apply keyIs_false. intros E. apply Hout. rewrite <- E.
        now apply Hknown.
  - destruct (groupStep_cases gs record) as [(Hin & ->)|(Hout & ->)].
    + apply modify_Forall; [|exact Hhead].
      intros g Hg. unfold headIs in *. simpl in *.
      destruct (records g); [contradiction|exact Hg].
    + apply Forall_app. split; [exact Hhead|].
      constructor; [|constructor]. unfold headIs. simpl. auto.
Qed.

Lemma recordsByPedido_shape (lines : list Linea) :
  Forall (fun kg => records (snd kg) = filter (keyIs (fst kg)) lines)
         (recordsByPedido lines)
  /\ Forall headIs (recordsByPedido lines).
Proof.
  unfold recordsByPedido.
  assert (H : forall rs gs ls,
             GroupsInv gs ls ->
             Forall (fun r => In (recordKey r) (map fst gs)) ls ->
             Forall (fun kg => records (snd kg) = filter (keyIs (fst kg)) ls)
                    gs ->
             Forall headIs gs ->
             Forall (fun kg => records (snd kg)
                               = filter (keyIs (fst kg)) (ls ++ rs))
                    (fold_left groupStep rs gs)
             /\ Forall headIs (fold_left groupStep rs gs)).
  { induction rs as [|r rs IH]; intros gs ls Hinv Hk Hm Hh; simpl.
    - rewrite app_nil_r. auto.
    - replace (ls ++ r :: rs) with ((ls ++ [r]) ++ rs)
        by now rewrite <- app_assoc.
      destruct (groupStep_shape gs ls r (inv_keys _ _ Hinv) Hk Hm Hh)
        as (Hk' & Hm' & Hh').
      apply IH; auto. now apply groupStep_inv. }
  apply (H lines [] []); try constructor; simpl; constructor.
Qed.

End GroupShape.

Lemma group_entry (lines : list Linea) (g : Confirmados.Group) :
  In g (Confirmados.groupedByPedido lines) ->
  In (keyOfGroup g, g) (Confirmados.recordsByPedido lines).
Proof.
  unfold Confirmados.groupedByPedido. intros Hg.
  apply in_map_iff in Hg. destruct Hg as ([k g'] & Heq & Hin).
  simpl in Heq. subst g'.
  destruct (recordsByPedido_inv lines) as [_ He _].
  rewrite Forall_forall in He. destruct (He _ Hin) as (Hk & _).
  simpl in Hk. now rewrite <- Hk.
Qed.

Lemma group_members (lines : list Linea) (g : Confirmados.Group) :
  In g (Confirmados.groupedByPedido lines) ->
  Confirmados.records g = filter (keyIs (keyOfGroup g)) lines.
Proof.
  intros Hg. apply group_entry in Hg.
  destruct (recordsByPedido_shape lines) as (Hm & _).
  rewrite Forall_forall in Hm. exact (Hm _ Hg).
Qed.

(** X21: the members of a group are the input lines that have the key of
    the group, in the order of the input. *)
Theorem X21_group_members_in_input_order
        (lines : list Linea) (g : Confirmados.Group) :
  In g (Confirmados.groupedByPedido lines) ->
  Confirmados.records g = filter (keyIs (keyOfGroup g)) lines.
Proof. apply group_members. Qed.

Lemma X21_group_members_in_input_order_witness :
  let a := mkLinea "rec1" "Confirmar y Monitorear" "7" "Andrea" (Some 1) in
  let b := mkLinea "rec2" "Confirmar y Monitorear" "8" "Andrea" (Some 2) in
  let c := mkLinea "rec3" "Confirmar y Monitorear" "7" "Andrea" None in
  Confirmados.records
    {| Confirmados.pedidoNum := "7"; Confirmados.linea := "Andrea";
       Confirmados.records := [a; c]; Confirmados.totalCosto := 1 |}
  = filter (keyIs "7-Andrea") [a; b; c].
Proof.
  cbv zeta.
  apply (X21_group_members_in_input_order
           [mkLinea "rec1" "Confirmar y Monitorear" "7" "Andrea" (Some 1);
            mkLinea "rec2" "Confirmar y Monitorear" "8" "Andrea" (Some 2);
            mkLinea "rec3" "Confirmar y Monitorear" "7" "Andrea" None]
           {| Confirmados.pedidoNum := "7"; Confirmados.linea := "Andrea";
              Confirmados.records :=
                [mkLinea "rec1" "Confirmar y Monitorear" "7" "Andrea" (Some 1);
                 mkLinea "rec3" "Confirmar y Monitorear" "7" "Andrea" None];
              Confirmados.totalCosto := 1 |}).
  vm_compute. left. reflexivity.
Defined.

(** X22: the groups come in the order in which their keys first occur in
    the input: the keys of the output are the first occurrences of the
    keys of the input lines, in order; in particular an empty input gives
    no group. *)
Theorem X22_groups_in_first_seen_order (lines : list Linea) :
  map keyOfGroup (Confirmados.groupedByPedido lines)
  = firstSeen [] (map Confirmados.recordKey lines)
  /\ (lines = [] <-> Confirmados.groupedByPedido lines = []).
Proof.
  assert (Hkeys : map keyOfGroup (Confirmados.groupedByPedido lines)
                  = firstSeen [] (map Confirmados.recordKey lines)).
  { rewrite <- recordsByPedido_keys.
    unfold Confirmados.groupedByPedido. rewrite map_map.
    apply map_ext_in. intros kg Hin.
    destruct (recordsByPedido_inv lines) as [_ He _].
    rewrite Forall_forall in He. destruct (He kg Hin) as (E & _).
    now rewrite E. }
  split; [exact Hkeys|]. split.
  - intros ->. reflexivity.
  - intros Hnil. rewrite Hnil in Hkeys. simpl in Hkeys.
    destruct lines as [|r rest]; [reflexivity|]. simpl in Hkeys.
    discriminate.
Qed.

(** X23: no group is empty; the order number and the brand a group shows
    are those of its first member, the order number being "Sin No." when
    that line has none; the modal of such a group opens with an empty
    order number, on which [handleConfirm] asks for the order number and
    writes nothing, and the modal of any other group opens with the order
    number of the line (unless that is literally "Sin No."). *)
Theorem X23_group_shows_its_first_member
        (lines : list Linea) (g : Confirmados.Group) :
  In g (Confirmados.groupedByPedido lines) ->
  exists r rest,
    Confirmados.records g = r :: rest
    /\ In r lines
    /\ Confirmados.linea g = lin_linea r
    /\ Confirmados.pedidoNum g <> ""
    /\ (lin_pedidoNum r = "" ->
        Confirmados.pedidoNum g = "Sin No."
        /\ forall st timestamp,
             Confirmados.handleConfirm st timestamp g
               (ConfirmadosView.initialModal g)
             = (Rejected AlertNumeroRequerido, []))
    /\ (lin_pedidoNum r <> "" ->
        Confirmados.pedidoNum g = lin_pedidoNum r
        /\ (lin_pedidoNum r <> "Sin No." ->
            Confirmados.pedidoNumero (ConfirmadosView.initialModal g)
            = lin_pedidoNum r)).
Proof.
  intros Hg. pose proof (group_members lines g Hg) as Hrec.
  pose proof (group_entry lines g Hg) as He.
  destruct (recordsByPedido_shape lines) as (_ & Hh).
  rewrite Forall_forall in Hh. specialize (Hh _ He).
  unfold headIs in Hh. simpl in Hh.
  destruct (Confirmados.records g) as [|r rest] eqn:E; [contradiction|].
  destruct Hh as (Hnum & Hlin). exists r, rest.
  split; [reflexivity|]. split.
  { assert (Hin : In r (filter (keyIs (keyOfGroup g)) lines))
      by (rewrite <- Hrec; now left).
    apply filter_In in Hin. tauto. }
  split; [exact Hlin|].
  unfold Confirmados.recordPedidoNum, JS.orStr in Hnum.
  split; [|split].
  - rewrite Hnum. destruct (lin_pedidoNum r); simpl; discriminate.
  - intros Hempty. rewrite Hempty in Hnum. simpl in Hnum.
    split; [exact Hnum|]. intros st timestamp.
    unfold Confirmados.handleConfirm, ConfirmadosView.initialModal.
    rewrite Hnum. reflexivity.
  - intros Hne. destruct (lin_pedidoNum r) as [|ch tl] eqn:En; [congruence|].
    simpl in Hnum. split; [exact Hnum|]. intros Hsin.
    unfold ConfirmadosView.initialModal. simpl. rewrite Hnum.
    destruct (String.eqb_spec (String ch tl) "Sin No."); [congruence|].
    reflexivity.
Qed.

Lemma X23_group_shows_its_first_member_witness :
  let a := mkLinea "rec1" "Confirmar y Monitorear" "" "Andrea" (Some 1) in
  exists r rest,
    Confirmados.records
      {| Confirmados.pedidoNum := "Sin No."; Confirmados.linea := "Andrea";
         Confirmados.records := [a]; Confirmados.totalCosto := 1 |}
    = r :: rest /\ In r [a].
Proof.
  cbv zeta.
  destruct (X23_group_shows_its_first_member
              [mkLinea "rec1" "Confirmar y Monitorear" "" "Andrea" (Some 1)]
              {| Confirmados.pedidoNum := "Sin No.";
                 Confirmados.linea := "Andrea";
                 Confirmados.records :=
                   [mkLinea "rec1" "Confirmar y Monitorear" "" "Andrea"
                            (Some 1)];
                 Confirmados.totalCosto := 1 |})
    as (r & rest & H1 & H2 & _).
  - vm_compute. left. reflexivity.
  - exists r, rest. split; assumption.
Defined.

(** X24: the groups of the "Confirmados" tab hold exactly the lines of
    the table that are in status "Confirmar y Monitorear": every member of
    a group is such a line, and every such line is a member of a group. *)
Theorem X24_tab_groups_lines_to_confirm
        (allRecords : list Linea) (r : Linea) :
  (exists g,
      In g (Confirmados.groupedByPedido
              (ConfirmadosView.recordsToConfirm allRecords))
      /\ In r (Confirmados.records g))
  <-> In r allRecords /\ lin_estatus r = "Confirmar y Monitorear".
Proof.
  assert (Hf : In r (ConfirmadosView.recordsToConfirm allRecords)
               <-> In r allRecords
                   /\ lin_estatus r = "Confirmar y Monitorear").
  { unfold ConfirmadosView.recordsToConfirm.
    now rewrite filter_In, String.eqb_eq. }
  rewrite <- Hf. split.
  - intros (g & Hg & Hr). rewrite (group_members _ _ Hg) in Hr.
    apply filter_In in Hr. tauto.
  - apply line_has_group.
Qed.

(** X25: when the "Estatus" field of a table is missing or has no
    choices, a settlement writes "Pendiente de Pago" to that table,
    whatever was paid and whatever the brand prefers. *)
Theorem X25_missing_status_field_writes_pending
        (st : Store) (timestamp : string)
        (group : Confirmados.Group) (m : Confirmados.Modal)
        (c : StoreCall) (s : string) :
  Confirmados.statusChoices st (tableOf c) = [] ->
  In c (snd (Confirmados.handleConfirm st timestamp group m)) ->
  In s (estatusWritten c) ->
  s = "Pendiente de Pago".
Proof.
  intros Hnone Hc Hs.
  apply handleConfirm_trace_in_plan in Hc. destruct Hc as (_ & Hc).
  destruct (plan_estatus _ _ _ _ _ _ Hc Hs) as [(Ht & ->)|(Ht & ->)];
    rewrite Ht in Hnone; rewrite Hnone.
  - unfold Confirmados.safePedidoStatus. simpl.
    now rewrite andb_false_r.
  - unfold Confirmados.safeLineaStatus. simpl.
    now rewrite andb_false_r.
Qed.

Lemma X25_missing_status_field_writes_pending_witness :
  "Pendiente de Pago" = "Pendiente de Pago".
Proof.
  apply (X25_missing_status_field_writes_pending
           {| hasPermission := fun _ => true;
              reachable := fun _ => true;
              newRecordId := fun _ => "recNew";
              estatusChoices := fun _ => None |}
           "2024-01-01T00:00:00.000Z"
           (mkGroup "Andrea" [mkLinea "rec1" "Confirmar y Monitorear" ""
                                      "Andrea" (Some 10)] 10)
           (mkModal "P-1" None None [mkConfPayment "m1" 10])
           (CreateRecordAsync PEDIDOS_TABLE_NAME
              (Confirmados.pedidoFields
                 (mkGroup "Andrea" [mkLinea "rec1" "Confirmar y Monitorear" ""
                                            "Andrea" (Some 10)] 10)
                 (mkModal "P-1" None None [mkConfPayment "m1" 10])
                 "2024-01-01T00:00:00.000Z" "Pendiente de Pago"))).
  - reflexivity.
  - vm_compute. left. reflexivity.
  - simpl. left. reflexivity.
Defined.

(* ------------------------------------------------------------------ *)
(** ** The status each flow writes to the order *)

Lemma safePedidoStatus_of_rule (choices : list string) (remaining totalPaid : Z) :
  Confirmados.safePedidoStatus choices
    (Confirmados.pedidoStatus remaining totalPaid)
  = if JS.includes choices (Spec.resolveStatus remaining totalPaid)
    then Spec.resolveStatus remaining totalPaid
    else if JS.includes choices "Pendiente de Pago" then "Pendiente de Pago"
         else Confirmados.firstChoiceOrPendiente choices.
Proof.
  rewrite pedidoStatus_rule. unfold Confirmados.safePedidoStatus.
  destruct (resolveStatus_cases remaining totalPaid) as [-> | [-> | ->]];
    reflexivity.
Qed.

Lemma plan_tail_tables st timestamp group m c :
  In c (tl (ConfirmadosView.plan st timestamp group m)) ->
  tableOf c = PAGOS_TABLE_NAME \/ tableOf c = LPO_TABLE_NAME.
Proof.
  unfold ConfirmadosView.plan. cbv zeta. cbn [tl]. intros Hc.
  apply in_app_or in Hc. destruct Hc as [Hc|[Hc|[]]].
  - apply in_map_iff in Hc. destruct Hc as (p & <- & _). now left.
  - subst c. now right.
Qed.

(** C2, as stated, fails for the settlement: the status of the rule is
    validated against the choices of the "Estatus" field before it is
    written.  On a base whose field offers only "Pendiente de Pago" and
    "Pago Incompleto", a group of cost 100 paid in full has remaining 0,
    for which the rule gives "Pagado", and its order is created as
    "Pendiente de Pago". *)
Lemma C2_settlement_writes_the_fallback :
  let st := openStore ["Pendiente de Pago"; "Pago Incompleto"] in
  let group := mkGroup "Otros" [mkLinea "rec1" "Confirmar y Monitorear"
                                        "" "Otros" (Some 100)] 100 in
  let m := mkModal "P-9" None None [mkConfPayment "m1" 100] in
  Confirmados.remaining group m = 0
  /\ Spec.resolveStatus (Confirmados.remaining group m)
       (Confirmados.totalPaid (Confirmados.payments m)) = "Pagado"
  /\ map (fun c => (tableOf c, estatusWritten c))
       (firstn 1 (snd (Confirmados.handleConfirm st
                         "2024-01-01T00:00:00.000Z" group m)))
     = [(PEDIDOS_TABLE_NAME, ["Pendiente de Pago"])].
Proof. vm_compute. repeat split; reflexivity. Qed.

(** C2 (amended): in both flows the status of the order is determined by
    the rule "remaining <= 0: Pagado; else totalPaid > 0: Pago Incompleto;
    else Pendiente de Pago".  The payment registration writes that status
    as it is, in its last call, once every payment record is created.
    The settlement writes it, in its first call, when the "Estatus" field
    of "Pedidos" offers it, and otherwise writes "Pendiente de Pago" if
    the field offers that, else the first choice of the field.  With base
    cost 100, extra cost 10, extra expenses 0 and payments 30 and 20 the
    ledger gives 110, 50 and 60 and the status is "Pago Incompleto" in
    both flows. *)
Theorem C2_status_rule :
  (forall st timestamp group m,
      let totalPaid :=
        fold_left (fun sum p => sum + Confirmados.amount p)
                  (Confirmados.payments m) 0 in
      let totalDue :=
        Confirmados.totalCosto group
        + JS.or0 (Confirmados.costosAdicionales m)
        + JS.or0 (Confirmados.gastosAdicionales m) in
      let remaining := Z.max (totalDue - totalPaid) 0 in
      let status := Spec.resolveStatus remaining totalPaid in
      let choices := Confirmados.statusChoices st PEDIDOS_TABLE_NAME in
      let written :=
        if JS.includes choices status then status
        else if JS.includes choices "Pendiente de Pago"
             then "Pendiente de Pago"
             else Confirmados.firstChoiceOrPendiente choices in
      (forall a, fst (Confirmados.handleConfirm st timestamp group m)
                 <> Rejected a) ->
      exists rest,
        snd (Confirmados.handleConfirm st timestamp group m)
        = CreateRecordAsync PEDIDOS_TABLE_NAME
            (Confirmados.pedidoFields group m timestamp written) :: rest
        /\ estatusOf (Confirmados.pedidoFields group m timestamp written)
           = [written]
        /\ Forall (fun c => tableOf c <> PEDIDOS_TABLE_NAME) rest)
  /\ (forall st gen pedido m,
         let newPaidTotal :=
           JS.or0 (Solicitados.ped_montoCompilacion pedido)
           + fold_left (fun sum p => sum + Solicitados.amount p)
                       (Solicitados.payments m) 0 in
         let newRemaining :=
           Z.max (JS.or0 (Solicitados.ped_totalCostoPedido pedido)
                  - newPaidTotal) 0 in
         let update :=
           UpdateRecordAsync PEDIDOS_TABLE_NAME (Solicitados.ped_id pedido)
             [("Estatus",
               VSelect (Spec.resolveStatus newRemaining newPaidTotal))] in
         let run := Solicitados.handleSave st gen pedido m in
         (forall c s, In c (snd run) -> In s (estatusWritten c) -> c = update)
         /\ (fst run = Succeeded tt ->
             exists before,
               snd run = before ++ [update]
               /\ Forall (fun c => tableOf c = PAGOS_TABLE_NAME) before))
  /\ (let group := mkGroup "Belcorp" [mkLinea "rec1" "Confirmar y Monitorear"
                                              "" "Belcorp" (Some 100)] 100 in
      let m := mkModal "P-100" (Some 10) (Some 0)
                 [mkConfPayment "m1" 30; mkConfPayment "m2" 20] in
      Confirmados.totalDue group m = 110
      /\ Confirmados.totalPaid (Confirmados.payments m) = 50
      /\ Confirmados.remaining group m = 60
      /\ map estatusWritten
           (firstn 1 (snd (Confirmados.handleConfirm (openStore allStatuses)
                             "2024-01-01T00:00:00.000Z" group m)))
         = [["Pago Incompleto"]])
  /\ (let pedido := mkPedido "recP" (Some 110) None in
      let m := mkPagar None None [mkPayment "m1" 30; mkPayment "m2" 20] in
      map estatusWritten
        (skipn 2 (snd (Solicitados.handleSave (openStore allStatuses)
                         (fun _ => "PAY-1") pedido m)))
      = [["Pago Incompleto"]]).
Proof.
  split; [|split; [|split]].
  - intros st timestamp group m. cbv zeta. intros Hnot.
    assert (Hd : ConfirmadosView.solicitarDisabled group m = false).
    { destruct (ConfirmadosView.solicitarDisabled group m) eqn:E;
        [|reflexivity].
      exfalso. rewrite handleConfirm_validation, E in Hnot.
      eapply Hnot. reflexivity. }
    rewrite (handleConfirm_run _ _ _ _ Hd). cbn [snd].
    pose proof (plan_tail_tables st timestamp group m) as Htail.
    unfold ConfirmadosView.plan in *. cbv zeta in *. cbn [tl] in Htail.
    rewrite safePedidoStatus_of_rule.
    cbn [attempted].
    fold (Confirmados.totalPaid (Confirmados.payments m)).
    fold (Confirmados.extraCost m). fold (Confirmados.extraExpenses m).
    fold (Confirmados.totalDue group m). fold (Confirmados.remaining group m).
    eexists. split; [reflexivity|]. split; [apply estatusOf_pedidoFields|].
    apply Forall_forall. intros c Hc.
    assert (Hin : In c (map (fun payment =>
                               CreateRecordAsync PAGOS_TABLE_NAME
                                 (Confirmados.pagoFields (newRecordId st 0) payment))
                            (Confirmados.payments m)
                        ++ [UpdateRecordsAsync LPO_TABLE_NAME
                              (map (Confirmados.lineaUpdate m timestamp
                                      (Confirmados.safeLineaStatus
                                         (Confirmados.statusChoices st LPO_TABLE_NAME)
                                         (Confirmados.rawLineaStatus group
                                            (Confirmados.pedidoStatus
                                               (Confirmados.remaining group m)
                                               (Confirmados.totalPaid
                                                  (Confirmados.payments m))))))
                                   (Confirmados.records group))])).
    { destruct (accepts st _); [|contradiction].
      now apply (attempted_incl st). }
    destruct (Htail c Hin) as [-> | ->]; discriminate.
  - intros st gen pedido m. cbv zeta.
    fold (Solicitados.alreadyPaid pedido). fold (Solicitados.totalCosto pedido).
    fold (Solicitados.addedPaymentsTotal (Solicitados.payments m)).
    split.
    + intros c s Hc Hs.
      apply handleSave_trace_in_plan in Hc. destruct Hc as (_ & Hc).
      pose proof (newStatus_estatus _ _ _ _ _ Hc Hs) as Hst.
      unfold SolicitadosView.plan in Hc. cbv zeta in Hc.
      apply in_app_or in Hc. destruct Hc as [Hc|[Hc|[]]].
      * apply in_map_iff in Hc. destruct Hc as (kp & <- & _).
        exfalso. revert Hs. cbn [estatusWritten].
        unfold Solicitados.pagoRecord.
        destruct (Solicitados.quienPago (snd kp)) as [[|? ?]|],
                 (Solicitados.referencia (snd kp)) as [[|? ?]|],
                 (Solicitados.tarjeta (snd kp)) as [[|? ?]|];
          simpl; tauto.
      * subst c. reflexivity.
    + intros Hok.
      destruct (Solicitados.payments m) as [|q qs] eqn:E.
      { unfold Solicitados.handleSave in Hok. rewrite E in Hok.
        discriminate. }
      assert (Hne : Solicitados.payments m <> []) by (rewrite E; discriminate).
      rewrite <- E in *.
      rewrite (handleSave_run _ _ _ _ Hne) in *. cbn [fst snd] in *.
      assert (Hall : forallb (accepts st) (SolicitadosView.plan gen pedido m)
                     = true).
      { apply firstRejected_None. destruct (firstRejected st _); congruence. }
      rewrite (attempted_all _ _ Hall).
      unfold SolicitadosView.plan. cbv zeta.
      eexists. split; [reflexivity|].
      apply Forall_map. apply Forall_forall. intros kp _. reflexivity.
  - vm_compute. repeat split; reflexivity.
  - vm_compute. reflexivity.
Qed.

Lemma C2_status_rule_witness :
  exists rest,
    snd (Confirmados.handleConfirm (openStore allStatuses)
           "2024-01-01T00:00:00.000Z"
           (mkGroup "Belcorp" [mkLinea "rec1" "Confirmar y Monitorear"
                                       "" "Belcorp" (Some 100)] 100)
           (mkModal "P-100" (Some 10) (Some 0)
              [mkConfPayment "m1" 30; mkConfPayment "m2" 20]))
    = CreateRecordAsync PEDIDOS_TABLE_NAME
        (Confirmados.pedidoFields
           (mkGroup "Belcorp" [mkLinea "rec1" "Confirmar y Monitorear"
                                       "" "Belcorp" (Some 100)] 100)
           (mkModal "P-100" (Some 10) (Some 0)
              [mkConfPayment "m1" 30; mkConfPayment "m2" 20])
           "2024-01-01T00:00:00.000Z" "Pago Incompleto") :: rest.
Proof.
  destruct C2_status_rule as (H & _).
  destruct (H (openStore allStatuses) "2024-01-01T00:00:00.000Z"
              (mkGroup "Belcorp" [mkLinea "rec1" "Confirmar y Monitorear"
                                          "" "Belcorp" (Some 100)] 100)
              (mkModal "P-100" (Some 10) (Some 0)
                 [mkConfPayment "m1" 30; mkConfPayment "m2" 20]))
    as (rest & Hrest & _).
  - intros a. vm_compute. discriminate.
  - exists rest. exact Hrest.
Defined.

(* ------------------------------------------------------------------ *)
(** ** The payment record of each queued payment *)

Lemma nth_error_attempted (st : Store) (plan : list StoreCall) (k : nat)
      (c : StoreCall) :
  nth_error (attempted st plan) k = Some c -> nth_error plan k = Some c.
Proof.
  revert k. induction plan as [|d plan IH]; intros k; simpl.
  - destruct k; discriminate.
  - destruct k as [|k]; simpl; [trivial|].
    destruct (accepts st d); [apply IH|]. destruct k; discriminate.
Qed.

Lemma nth_error_combine_seq {A} (l : list A) (i k : nat) (x : A) :
  nth_error l k = Some x ->
  nth_error (combine (seq i (List.length l)) l) k = Some ((i + k)%nat, x).
Proof.
  revert i k. induction l as [|y l IH]; intros i k; simpl.
  - destruct k; discriminate.
  - destruct k as [|k]; simpl.
    + intros [= ->]. now rewrite Nat.add_0_r.
    + intros H. rewrite (IH (S i) k H). f_equal. f_equal. lia.
Qed.

Lemma combine_seq_length {A} (l : list A) (i : nat) :
  List.length (combine (seq i (List.length l)) l) = List.length l.
Proof.
  rewrite length_combine, length_seq. apply Nat.min_id.
Qed.

(** The k-th call of the registration plan is the record of the k-th
    queued payment; the call after the last is the status update. *)
Lemma solicitados_plan_nth gen pedido m k c :
  nth_error (SolicitadosView.plan gen pedido m) k = Some c ->
  (exists p, nth_error (Solicitados.payments m) k = Some p
             /\ c = CreateRecordAsync PAGOS_TABLE_NAME
                      (Solicitados.pagoRecord pedido (gen k) p))
  \/ (k = List.length (Solicitados.payments m)
      /\ tableOf c = PEDIDOS_TABLE_NAME).
Proof.
  unfold SolicitadosView.plan. cbv zeta. intros H.
  destruct (nth_error (Solicitados.payments m) k) as [p|] eqn:E.
  - left. exists p. split; [reflexivity|].
    rewrite nth_error_app1 in H.
    2:{ rewrite length_map, combine_seq_length.
        apply nth_error_Some. congruence. }
    rewrite nth_error_map, (nth_error_combine_seq _ 0 k p E) in H.
    simpl in H. congruence.
  - right. apply nth_error_None in E.
    rewrite nth_error_app2 in H
      by (rewrite length_map, combine_seq_length; exact E).
    rewrite length_map, combine_seq_length in H.
    destruct (k - List.length (Solicitados.payments m))%nat as [|j] eqn:Ek.
    + simpl in H. injection H as <-. split; [lia|reflexivity].
    + simpl in H. destruct j; discriminate.
Qed.

(** The first call of the settlement plan creates the order, the call
    after it at position k + 1 is the record of the k-th payment, and the
    call after the last is the update of the lines. *)
Lemma confirmados_plan_nth st timestamp group m k c :
  nth_error (ConfirmadosView.plan st timestamp group m) (S k) = Some c ->
  (exists p, nth_error (Confirmados.payments m) k = Some p
             /\ c = CreateRecordAsync PAGOS_TABLE_NAME
                      (Confirmados.pagoFields (newRecordId st 0) p))
  \/ (k = List.length (Confirmados.payments m)
      /\ tableOf c = LPO_TABLE_NAME).
Proof.
  unfold ConfirmadosView.plan. cbv zeta. cbn [nth_error]. intros H.
  destruct (nth_error (Confirmados.payments m) k) as [p|] eqn:E.
  - left. exists p. split; [reflexivity|].
    rewrite nth_error_app1 in H.
    2:{ rewrite length_map. apply nth_error_Some. congruence. }
    rewrite nth_error_map, E in H. simpl in H. congruence.
  - right. apply nth_error_None in E.
    rewrite nth_error_app2 in H by (rewrite length_map; exact E).
    rewrite length_map in H.
    destruct (k - List.length (Confirmados.payments m))%nat as [|j] eqn:Ek.
    + simpl in H. injection H as <-. split; [lia|reflexivity].
    + simpl in H. destruct j; discriminate.
Qed.

Lemma handleSave_trace_nth st gen pedido m k c :
  nth_error (snd (Solicitados.handleSave st gen pedido m)) k = Some c ->
  nth_error (SolicitadosView.plan gen pedido m) k = Some c.
Proof.
  intros H.
  assert (Hin : In c (snd (Solicitados.handleSave st gen pedido m)))
    by (eapply nth_error_In; exact H).
  apply handleSave_trace_in_plan in Hin. destruct Hin as (Hne & _).
  rewrite (handleSave_run _ _ _ _ Hne) in H. cbn [snd] in H.
  now apply (nth_error_attempted st).
Qed.

Lemma handleConfirm_trace_nth st timestamp group m k c :
  nth_error (snd (Confirmados.handleConfirm st timestamp group m)) k = Some c ->
  nth_error (ConfirmadosView.plan st timestamp group m) k = Some c.
Proof.
  intros H.
  assert (Hin : In c (snd (Confirmados.handleConfirm st timestamp group m)))
    by (eapply nth_error_In; exact H).
  apply handleConfirm_trace_in_plan in Hin. destruct Hin as (Hd & _).
  rewrite (handleConfirm_run _ _ _ _ Hd) in H. cbn [snd] in H.
  now apply (nth_error_attempted st).
Qed.

(** C10 (amended): in the payment registration, the call at position k
    that creates a record of "Pagos" is the record of the k-th queued
    payment: it links the order and the method, carries the amount and a
    generated "ID Pago", carries "Quién Realizó Pago", "Número de
    Referencia" and "Tarjeta de Débito" exactly when the queued payment
    holds a non-empty value for it, has no other field and writes no
    field as null; on success every queued payment has its record.  A
    payment is queued with the payer only when the type of the selected
    method is "Efectivo", with the reference only when it is "Vales" and
    with the card only when it is "Transferencia".  In the settlement,
    the call at position k + 1 that creates a record of "Pagos" is the
    record of the k-th payment: it has exactly the fields "Pedido",
    "Método de Pago Admin", "Abono", "ID Pago", "Fecha Pago",
    "Descripción" and "Notas", none of them specific to a method type,
    and each of the last four holds the text of the payment, or null
    when that text is empty. *)
Theorem C10_optional_payment_fields :
  (forall st gen pedido m k c,
      let optional (mk : string -> CellValue) (v : option string) :=
        match v with
        | Some s => if JS.truthy s then Some (mk s) else None
        | None => None
        end in
      nth_error (snd (Solicitados.handleSave st gen pedido m)) k = Some c ->
      tableOf c = PAGOS_TABLE_NAME ->
      exists p fields,
        nth_error (Solicitados.payments m) k = Some p
        /\ c = CreateRecordAsync PAGOS_TABLE_NAME fields
        /\ fieldOf "Pedido" fields
           = Some (VLinks [Solicitados.ped_id pedido])
        /\ fieldOf "Método de Pago Admin" fields
           = Some (VLinks [Solicitados.metodoId p])
        /\ fieldOf "Abono" fields = Some (VNumber (Solicitados.amount p))
        /\ fieldOf "ID Pago" fields = Some (VString (gen k))
        /\ fieldOf "Quién Realizó Pago" fields
           = optional VSelect (Solicitados.quienPago p)
        /\ fieldOf "Número de Referencia" fields
           = optional VString (Solicitados.referencia p)
        /\ fieldOf "Tarjeta de Débito" fields
           = optional VString (Solicitados.tarjeta p)
        /\ incl (map fst fields)
                ["Pedido"; "Método de Pago Admin"; "Abono"; "ID Pago";
                 "Quién Realizó Pago"; "Número de Referencia";
                 "Tarjeta de Débito"]
        /\ nullFields fields = [])
  /\ (forall st gen pedido m k p,
         fst (Solicitados.handleSave st gen pedido m) = Succeeded tt ->
         nth_error (Solicitados.payments m) k = Some p ->
         exists c,
           nth_error (snd (Solicitados.handleSave st gen pedido m)) k
           = Some c
           /\ tableOf c = PAGOS_TABLE_NAME)
  /\ (forall metodos pedido m m',
         Solicitados.handleAddPayment metodos pedido m = inl m' ->
         exists p,
           Solicitados.payments m' = Solicitados.payments m ++ [p]
           /\ Solicitados.quienPago p
              = (if Solicitados.isType
                      (Solicitados.metodoType metodos m) "Efectivo"
                 then Solicitados.form_quienPago m else None)
           /\ Solicitados.referencia p
              = (if Solicitados.isType
                      (Solicitados.metodoType metodos m) "Vales"
                 then Some (Solicitados.form_referencia m) else None)
           /\ Solicitados.tarjeta p
              = (if Solicitados.isType
                      (Solicitados.metodoType metodos m) "Transferencia"
                 then Some (Solicitados.form_tarjeta m) else None))
  /\ (forall st timestamp group m k c,
         let orNull (s : string) :=
           if JS.truthy s then VString s else VNull in
         nth_error (snd (Confirmados.handleConfirm st timestamp group m))
                   (S k) = Some c ->
         tableOf c = PAGOS_TABLE_NAME ->
         exists p fields,
           nth_error (Confirmados.payments m) k = Some p
           /\ c = CreateRecordAsync PAGOS_TABLE_NAME fields
           /\ map fst fields
              = ["Pedido"; "Método de Pago Admin"; "Abono"; "ID Pago";
                 "Fecha Pago"; "Descripción"; "Notas"]
           /\ fieldOf "Pedido" fields = Some (VLinks [newRecordId st 0])
           /\ fieldOf "Método de Pago Admin" fields
              = Some (VLinks [Confirmados.methodId p])
           /\ fieldOf "Abono" fields = Some (VNumber (Confirmados.amount p))
           /\ fieldOf "ID Pago" fields = Some (orNull (Confirmados.idPago p))
           /\ fieldOf "Fecha Pago" fields
              = Some (orNull (Confirmados.fechaPago p))
           /\ fieldOf "Descripción" fields
              = Some (orNull (Confirmados.descripcion p))
           /\ fieldOf "Notas" fields = Some (orNull (Confirmados.notas p))).
Proof.
  split; [|split; [|split]].
  - intros st gen pedido m k c. cbv zeta. intros Hk Ht.
    apply handleSave_trace_nth in Hk.
    destruct (solicitados_plan_nth _ _ _ _ _ Hk) as [(p & Hp & ->)|(_ & Hu)].
    2:{ rewrite Hu in Ht. discriminate. }
    exists p, (Solicitados.pagoRecord pedido (gen k) p).
    split; [exact Hp|]. split; [reflexivity|].
    unfold Solicitados.pagoRecord, fieldOf.
    destruct (Solicitados.quienPago p) as [[|? ?]|],
             (Solicitados.referencia p) as [[|? ?]|],
             (Solicitados.tarjeta p) as [[|? ?]|];
      repeat (split; [reflexivity|]);
      (split; [|reflexivity]);
      intros key Hkey; simpl in Hkey; simpl; tauto.
  - intros st gen pedido m k p Hok Hp.
    assert (Hne : Solicitados.payments m <> []).
    { intros E. rewrite E in Hp. destruct k; discriminate. }
    rewrite (handleSave_run _ _ _ _ Hne) in *. cbn [fst snd] in *.
    assert (Hall : forallb (accepts st) (SolicitadosView.plan gen pedido m)
                   = true).
    { apply firstRejected_None. destruct (firstRejected st _); congruence. }
    rewrite (attempted_all _ _ Hall).
    unfold SolicitadosView.plan. cbv zeta.
    eexists. split.
    + rewrite nth_error_app1.
      2:{ rewrite length_map, combine_seq_length.
          apply nth_error_Some. congruence. }
      rewrite nth_error_map, (nth_error_combine_seq _ 0 k p Hp).
      reflexivity.
    + reflexivity.
  - intros metodos pedido m m'. unfold Solicitados.handleAddPayment.
    destruct (Solicitados.metodoPagoId m) as [method|]; [|discriminate].
    destruct (Solicitados.abono m) as [amount|]; [|discriminate].
    destruct (negb (JS.truthy method) || (amount =? 0) || (amount <=? 0));
      [discriminate|].
    cbv zeta. intros [= <-]. eexists. split; [reflexivity|].
    repeat split; reflexivity.
  - intros st timestamp group m k c. cbv zeta. intros Hk Ht.
    apply handleConfirm_trace_nth in Hk.
    destruct (confirmados_plan_nth _ _ _ _ _ _ Hk) as [(p & Hp & ->)|(_ & Hu)].
    2:{ rewrite Hu in Ht. discriminate. }
    exists p, (Confirmados.pagoFields (newRecordId st 0) p).
    split; [exact Hp|]. repeat split; reflexivity.
Qed.

Lemma C10_optional_payment_fields_witness :
  exists p fields,
    nth_error [ {| Solicitados.metodoId := "m1"; Solicitados.amount := 30;
                   Solicitados.quienPago := Some "Ana";
                   Solicitados.referencia := None;
                   Solicitados.tarjeta := None |};
                {| Solicitados.metodoId := "m2"; Solicitados.amount := 20;
                   Solicitados.quienPago := None;
                   Solicitados.referencia := Some "";
                   Solicitados.tarjeta := Some "4152" |} ] 1 = Some p
    /\ fieldOf "Tarjeta de Débito" fields = Some (VString "4152")
    /\ fieldOf "Número de Referencia" fields = None
    /\ fieldOf "Quién Realizó Pago" fields = None
    /\ nullFields fields = [].
Proof.
  destruct C10_optional_payment_fields as (H & _).
  destruct (H (openStore allStatuses) (fun _ => "PAY-1")
              (mkPedido "recP" (Some 110) None)
              (mkPagar None None
                 [ {| Solicitados.metodoId := "m1"; Solicitados.amount := 30;
                      Solicitados.quienPago := Some "Ana";
                      Solicitados.referencia := None;
                      Solicitados.tarjeta := None |};
                   {| Solicitados.metodoId := "m2"; Solicitados.amount := 20;
                      Solicitados.quienPago := None;
                      Solicitados.referencia := Some "";
                      Solicitados.tarjeta := Some "4152" |} ])
              1%nat
              (CreateRecordAsync PAGOS_TABLE_NAME
                 [("Pedido", VLinks ["recP"]);
                  ("Método de Pago Admin", VLinks ["m2"]);
                  ("Abono", VNumber 20);
                  ("ID Pago", VString "PAY-1");
                  ("Tarjeta de Débito", VString "4152")]))
    as (p & fields & Hp & _ & _ & _ & _ & _ & Hq & Hr & Ht & _ & Hn).
  - vm_compute. reflexivity.
  - reflexivity.
  - exists p, fields. simpl in Hp. injection Hp as <-.
    simpl in Hq, Hr, Ht. auto.
Defined.
